(** * JWT trust boundary of the task-management gateway

  A shallow embedding of
    - [api-gateway/middleware/auth.js]  (key cache, [verifyJWT], [optionalJWT]),
    - the gateway's route table          ([app.use] / [app.get] layers),
    - the user service's auth routes     ([/register], [/login], token minting),
  together with the properties of the trust boundary that the
  specification states about them. *)

From Stdlib Require Import ZArith Lia.
From stdpp Require Import gmap strings list fin_maps pretty.

Local Open Scope string_scope.
Local Open Scope Z_scope.
Set Warnings "-register-all".

(** ** JavaScript values *)

Module Js.

(** The values that cross this code: JSON data, [undefined], and the
    numbers of [Date.now()] (integral, so [Z]). An object is its list of
    own properties, first binding wins; an array is its list of items. *)
Inductive jsval : Type :=
| VUndefined
| VNull
| VBool (b : bool)
| VNum (n : Z)
| VStr (s : string)
| VArr (items : list jsval)
| VObj (fields : list (string * jsval)).

(** [ToBoolean]: what [!v] and [a && b] test. *)
Definition truthy (v : jsval) : bool :=
  match v with
  | VUndefined | VNull => false
  | VBool b => b
  | VNum n => negb (n =? 0)
  | VStr s => negb (String.eqb s "")
  | VArr _ | VObj _ => true
  end.

Definition is_undefined (v : jsval) : bool :=
  match v with VUndefined => true | _ => false end.

(** [a === b]. Primitives compare by value; two objects are the same
    only when they are the same reference, which values read from two
    different places of this code never are. *)
Definition strict_eq (a b : jsval) : bool :=
  match a, b with
  | VUndefined, VUndefined | VNull, VNull => true
  | VBool x, VBool y => Bool.eqb x y
  | VNum x, VNum y => x =? y
  | VStr x, VStr y => String.eqb x y
  | _, _ => false
  end.

Fixpoint assoc (k : string) (fields : list (string * jsval)) : option jsval :=
  match fields with
  | [] => None
  | (k', v) :: rest => if String.eqb k k' then Some v else assoc k rest
  end.

(** Reading a property of an object that is known to be one:
    a missing property reads as [undefined]. *)
Definition field (k : string) (fields : list (string * jsval)) : jsval :=
  default VUndefined (assoc k fields).

(** An [Error] object: its [name] and its [message]. *)
Record js_error : Type := mkError { name : string; message : string }.

Definition Error (msg : string) : js_error := mkError "Error" msg.
Definition TypeError (msg : string) : js_error := mkError "TypeError" msg.

(** How a piece of JavaScript ends: with a value or with a [throw]. *)
Inductive completion (A : Type) : Type :=
| Return (a : A)
| Throw (e : js_error).
Arguments Return {A} a.
Arguments Throw {A} e.

(** [v.k] for an arbitrary [v]: a [TypeError] on [null] and [undefined],
    [undefined] on the other primitives (none of the property names read
    in this code is defined on a string, number or boolean). *)
Definition prop (v : jsval) (k : string) : completion jsval :=
  match v with
  | VUndefined | VNull => Throw (TypeError "Cannot read properties of null or undefined")
  | VObj fields => Return (field k fields)
  | _ => Return VUndefined
  end.

(** [s.startsWith(p)] and [s.substring(n)]. *)
Fixpoint startsWith (p s : string) : bool :=
  match p, s with
  | EmptyString, _ => true
  | String a p', String b s' => if Ascii.eqb a b then startsWith p' s' else false
  | String _ _, EmptyString => false
  end.

Fixpoint substring_from (n : nat) (s : string) : string :=
  match n, s with
  | O, _ => s
  | S n', String _ s' => substring_from n' s'
  | S _, EmptyString => EmptyString
  end.

Definition lower_ascii (c : Ascii.ascii) : Ascii.ascii :=
  let n := Ascii.nat_of_ascii c in
  if ((65 <=? n) && (n <=? 90))%nat then Ascii.ascii_of_nat (n + 32) else c.

(** [s.toLowerCase()] on the ASCII range. *)
Fixpoint toLowerCase (s : string) : string :=
  match s with
  | EmptyString => EmptyString
  | String c s' => String (lower_ascii c) (toLowerCase s')
  end.

(** Code that reads and writes a state [S] and may throw: module-level
    variables become the state, [try]/[catch] is [try_catch]. *)
Definition M (S A : Type) : Type := S -> completion A * S.

Definition ret {S A} (a : A) : M S A := fun s => (Return a, s).
Definition throw {S A} (e : js_error) : M S A := fun s => (Throw e, s).
Definition bind {S A B} (m : M S A) (k : A -> M S B) : M S B :=
  fun s => match m s with
           | (Return a, s') => k a s'
           | (Throw e, s') => (Throw e, s')
           end.
Definition try_catch {S A} (m : M S A) (handler : js_error -> M S A) : M S A :=
  fun s => match m s with
           | (Return a, s') => (Return a, s')
           | (Throw e, s') => handler e s'
           end.
Definition lift {S A} (c : completion A) : M S A := fun s => (c, s).
Definition get {S} : M S S := fun s => (Return s, s).
Definition put {S} (s : S) : M S unit := fun _ => (Return tt, s).

Declare Scope js_scope.
Delimit Scope js_scope with js.
Notation "'let*' x ':=' m 'in' k" := (bind m (fun x => k))
  (at level 10, x name, m at level 100, k at level 200) : js_scope.
Notation "m ';;' k" := (bind m (fun _ => k))
  (at level 100, k at level 200, right associativity) : js_scope.

End Js.
Import Js.
Local Open Scope js_scope.

(** ** The [jsonwebtoken] package

    [jsonwebtoken] is a dependency of both services, not code of this
    repository. [sign] and [verify] are modelled in the order of checks the
    package performs; the two things below it, the compact serialisation
    (base64url of JSON, joined by dots) and the RSA-SHA256 primitive, are
    an interface. *)

Module Jwt.

(** The decoded payload: an object, or the raw text when the payload
    segment is not the JSON of an object. *)
Inductive jwt_payload : Type :=
| PObj (fields : list (string * jsval))
| PRaw (text : string).

(** A decoded token: the header's [alg], the payload and the signature
    segment. *)
Record jws : Type := mkJws {
  alg : string;
  payload : jwt_payload;
  signature : string
}.

(** What is signed: header and payload. *)
Definition signing_input (j : jws) : string * jwt_payload := (alg j, payload j).

Class Backend : Type := {
  (** compact serialisation and its parser ([None]: not three segments, or
      a segment that does not decode) *)
  jws_encode : jws -> string;
  jws_decode : string -> option jws;
  (** RSASSA-PKCS1-v1_5 with SHA-256 over the signing input, keys as PEM
      text; [None] from [rs256_sign] when the key is not a usable private
      key, [false] from [rs256_verify] also when the key is not a usable
      public key *)
  rs256_sign : string -> string * jwt_payload -> option string;
  rs256_verify : string -> string * jwt_payload -> string -> bool
}.

Definition JsonWebTokenError (msg : string) : js_error :=
  mkError "JsonWebTokenError" msg.
Definition TokenExpiredError : js_error :=
  mkError "TokenExpiredError" "jwt expired".
Definition NotBeforeError : js_error :=
  mkError "NotBeforeError" "jwt not active".

(** [decoded.k] *)
Definition claim (p : jwt_payload) (k : string) : jsval :=
  match p with
  | PObj fields => field k fields
  | PRaw _ => VUndefined
  end.

(** [JSON.stringify] of an object drops the properties whose value is
    [undefined]. *)
Definition json_object (fields : list (string * jsval)) : list (string * jsval) :=
  List.filter (fun kv => negb (is_undefined (snd kv))) fields.

(** [Math.floor(Date.now() / 1000)] *)
Definition clockTimestamp (now : Z) : Z := now / 1000.

(** ['24h'] in seconds. *)
Definition expiresIn_24h : Z := 86400.

(** The payload [jwt.sign] serialises for a [claims] object without [iat]
    and [exp] of its own, under [expiresIn: '24h']: [iat] is the current
    second and [exp] is [iat] plus the life time. *)
Definition signed_payload (claims : list (string * jsval)) (now : Z) : jwt_payload :=
  let iat := clockTimestamp now in
  PObj (json_object
          ((claims ++ [("iat", VNum iat); ("exp", VNum (iat + expiresIn_24h))])%list)).

Section WithBackend.
Context `{Backend}.

(** [jwt.sign(claims, privateKey, { algorithm: 'RS256', expiresIn: '24h' })] *)
Definition sign (claims : list (string * jsval)) (privateKey : string) (now : Z)
  : completion string :=
  let body := signed_payload claims now in
  match rs256_sign privateKey ("RS256", body) with
  | Some sig => Return (jws_encode (mkJws "RS256" body sig))
  | None => Throw (Error "secretOrPrivateKey must be an asymmetric key when using RS256")
  end.

Definition check_nbf (p : jwt_payload) (now : Z) : completion unit :=
  match claim p "nbf" with
  | VUndefined => Return tt
  | VNum nbf => if clockTimestamp now <? nbf then Throw NotBeforeError else Return tt
  | _ => Throw (JsonWebTokenError "invalid nbf value")
  end.

(** expired when the current second has reached [exp] *)
Definition check_exp (p : jwt_payload) (now : Z) : completion unit :=
  match claim p "exp" with
  | VUndefined => Return tt
  | VNum exp => if exp <=? clockTimestamp now then Throw TokenExpiredError else Return tt
  | _ => Throw (JsonWebTokenError "invalid exp value")
  end.

(** [jwt.verify(token, key, { algorithms: ['RS256'] })]: decode, require a
    key, require the listed algorithm, check the signature, and only then
    look at [nbf] and [exp].

    [jws_decode token = None] stands for the library's decoder returning
    [null]; [Some j] for the decoder returning the parts of a token that
    carries a signature, checked under a key text the crypto layer can
    read.  Two escapes of the library lie outside this function: a token
    on which the decoder itself throws (a payload that is not JSON under
    [typ: 'JWT'] raises a [SyntaxError]), and a token with an empty
    signature part met without a key, where the library raises either this
    [JsonWebTokenError] or a [TypeError] depending on its version.  The
    properties below that speak of a refusal without a key therefore
    conclude a 401 or a 500, and those that speak of an invalid token
    assume that the token decodes and that the key is a text that is not
    empty. *)
Definition verify (token : string) (key : jsval) (now : Z) : completion jwt_payload :=
  match jws_decode token with
  | None => Throw (JsonWebTokenError "jwt malformed")
  | Some j =>
    if negb (truthy key) then
      Throw (JsonWebTokenError "secret or public key must be provided")
    else if negb (String.eqb (alg j) "RS256") then
      Throw (JsonWebTokenError "invalid algorithm")
    else
      match key with
      | VStr pem =>
        if rs256_verify pem (signing_input j) (signature j) then
          match check_nbf (payload j) now with
          | Throw e => Throw e
          | Return _ =>
            match check_exp (payload j) now with
            | Throw e => Throw e
            | Return _ => Return (payload j)
            end
          end
        else Throw (JsonWebTokenError "invalid signature")
      | _ => Throw (JsonWebTokenError "secretOrPublicKey is not valid key material")
      end
  end.

End WithBackend.
End Jwt.

(** ** The gateway process: key cache, verification middleware, routes *)

Module Gateway.

(** [auth.js] lines 4-6: the module-level cache. [publicKey] starts as
    [null] and later holds whatever the key endpoint sent;
    [publicKeyLastFetched] is [null] ([None]) or a [Date.now()] reading. *)
Record key_cache : Type := mkCache {
  publicKey : jsval;
  publicKeyLastFetched : option Z
}.

Definition PUBLIC_KEY_CACHE_DURATION : Z := 3600000.

Definition initial_cache : key_cache := mkCache VNull None.

(** The process state threaded through the middleware: the cache and a
    counter of the HTTP requests made to the key endpoint (the counter is
    instrumentation, the code never reads it). *)
Record world : Type := mkWorld {
  cache : key_cache;
  net_calls : nat
}.

(** What [axios.get] does when it is called: it rejects (network error,
    timeout, non-2xx status) or resolves with a response whose [data] is
    the parsed body. *)
Inductive axios_result : Type :=
| AxiosError (msg : string)
| AxiosResponse (data : jsval).

(** What one request handling observes of the outside: the reading of
    [Date.now()] in [fetchPublicKey], what the key endpoint does if asked,
    and the reading of [Date.now()] inside [jwt.verify]. *)
Record env : Type := mkEnv {
  now : Z;
  endpoint : axios_result;
  verify_now : Z
}.

Definition Gw (A : Type) : Type := M world A.

Definition get_cache : Gw key_cache := fun w => (Return (cache w), w).
Definition set_publicKey (k : jsval) : Gw unit :=
  fun w => (Return tt,
            mkWorld (mkCache k (publicKeyLastFetched (cache w))) (net_calls w)).
Definition set_publicKeyLastFetched (t : Z) : Gw unit :=
  fun w => (Return tt,
            mkWorld (mkCache (publicKey (cache w)) (Some t)) (net_calls w)).

(** [await axios.get(url)]: one request on the wire, then its result. *)
Definition axios_get (net : axios_result) : Gw jsval :=
  fun w =>
    let w' := mkWorld (cache w) (S (net_calls w)) in
    match net with
    | AxiosError msg => (Throw (Error msg), w')
    | AxiosResponse data => (Return (VObj [("data", data)]), w')
    end.

(** [auth.js] line 13: [publicKey && publicKeyLastFetched &&
    (now - publicKeyLastFetched < PUBLIC_KEY_CACHE_DURATION)]. A timestamp
    of [0] is falsy like [null]. *)
Definition cache_valid (t_now : Z) (c : key_cache) : bool :=
  truthy (publicKey c) &&
  match publicKeyLastFetched c with
  | None => false
  | Some t => negb (t =? 0) && (t_now - t <? PUBLIC_KEY_CACHE_DURATION)
  end.

Definition fetch_failure : js_error :=
  Error "Unable to fetch public key for JWT verification".

(** [auth.js] lines 9-28, run from its start to its end with no other
    call in between. [t_now] is the reading of [Date.now()] and [net] what
    the key endpoint does if it is asked. [fetch_begin] and [fetch_settle]
    below are the parts before and after the [await] of line 19, for calls
    that overlap. *)
Definition fetchPublicKey (t_now : Z) (net : axios_result) : Gw jsval :=
  let* c := get_cache in
  if cache_valid t_now c then ret (publicKey c)
  else
    try_catch
      (let* response := axios_get net in
       let* data := lift (prop response "data") in
       let* k := lift (prop data "publicKey") in
       set_publicKey k ;;
       set_publicKeyLastFetched t_now ;;
       let* c' := get_cache in
       ret (publicKey c'))
      (fun _ => throw fetch_failure).

(** Calls one after the other, each with its clock reading and with what
    the endpoint would do at that moment. *)
Fixpoint fetch_many (calls : list (Z * axios_result)) (w : world)
  : list (completion jsval) * world :=
  match calls with
  | [] => ([], w)
  | (t, net) :: rest =>
    let '(r, w') := fetchPublicKey t net w in
    let '(rs, w'') := fetch_many rest w' in
    (r :: rs, w'')
  end.

(** An incoming request. Node lower-cases header names; a header that is
    absent reads as [undefined]. *)
Record request : Type := mkRequest {
  method : string;
  path : string;
  headers : gmap string jsval
}.

Definition header (req : request) (h : string) : jsval :=
  default VUndefined (headers req !! h).

(** [req.headers[h] = v] *)
Definition set_header (h : string) (v : jsval) (req : request) : request :=
  mkRequest (method req) (path req) (<[h := v]> (headers req)).

(** How a middleware ends: it answers, or it calls [next()] and the
    request, as it then is, goes to the proxy behind it. *)
Inductive outcome : Type :=
| Responded (status : Z) (body : jsval)
| Next (req : request).

Definition error_body (error msg : string) : jsval :=
  VObj [("error", VStr error); ("message", VStr msg)].

(** [!authHeader || !authHeader.startsWith('Bearer ')]; calling
    [startsWith] on a truthy value that is not a string is a [TypeError]. *)
Definition no_bearer (authHeader : jsval) : completion bool :=
  if negb (truthy authHeader) then Return true
  else match authHeader with
       | VStr s => Return (negb (startsWith "Bearer " s))
       | _ => Throw (TypeError "authHeader.startsWith is not a function")
       end.

(** [authHeader.substring(7)] *)
Definition bearer_token (authHeader : jsval) : completion string :=
  match authHeader with
  | VStr s => Return (substring_from 7 s)
  | _ => Throw (TypeError "authHeader.substring is not a function")
  end.

(** [auth.js] lines 52-54 and 91-93. *)
Definition annotate (decoded : Jwt.jwt_payload) (req : request) : request :=
  set_header "x-user-role" (Jwt.claim decoded "role")
    (set_header "x-user-email" (Jwt.claim decoded "email")
       (set_header "x-user-id" (Jwt.claim decoded "userId") req)).

(** The [catch] block of [verifyJWT], lines 57-75. *)
Definition verify_failure (error : js_error) : outcome :=
  if String.eqb (name error) "JsonWebTokenError" then
    Responded 401 (error_body "Unauthorized" "Invalid token")
  else if String.eqb (name error) "TokenExpiredError" then
    Responded 401 (error_body "Unauthorized" "Token expired")
  else
    Responded 500 (error_body "Internal server error" "Token verification failed").

(** The classes of the HTTP status codes. *)
Definition client_error (status : Z) : Prop := 400 <= status < 500.
Definition server_error (status : Z) : Prop := 500 <= status < 600.

(** The key endpoint fails the caller: the request is rejected, or the
    body it sends has no properties to read ([null], nothing). *)
Definition endpoint_fails (net : axios_result) : bool :=
  match net with
  | AxiosError _ => true
  | AxiosResponse VNull | AxiosResponse VUndefined => true
  | AxiosResponse _ => false
  end.

Section WithBackend.
Context `{Jwt.Backend}.

(** [auth.js] lines 31-76. *)
Definition verifyJWT (e : env) (req : request) : Gw outcome :=
  try_catch
    (let authHeader := header req "authorization" in
     let* missing := lift (no_bearer authHeader) in
     if (missing : bool) then
       ret (Responded 401 (error_body "Unauthorized" "No token provided"))
     else
       let* token := lift (bearer_token authHeader) in
       let* key := fetchPublicKey (now e) (endpoint e) in
       let* decoded := lift (Jwt.verify token key (verify_now e)) in
       ret (Next (annotate decoded req)))
    (fun error => ret (verify_failure error)).

(** [auth.js] lines 79-100. *)
Definition optionalJWT (e : env) (req : request) : Gw outcome :=
  try_catch
    (let authHeader := header req "authorization" in
     let* missing := lift (no_bearer authHeader) in
     if (missing : bool) then ret (Next req)
     else
       let* token := lift (bearer_token authHeader) in
       let* key := fetchPublicKey (now e) (endpoint e) in
       let* decoded := lift (Jwt.verify token key (verify_now e)) in
       ret (Next (annotate decoded req)))
    (fun _ => ret (Next req)).

End WithBackend.

(** *** [fetchPublicKey] around its [await]

    A call runs from line 10 to the [await] of line 19 in one piece, and
    from the arrival of the answer to its end in another; other calls can
    run in between. *)

(** How far a call got at its [await]: it has returned the cached key, or
    it has sent its request and holds the clock reading of line 10. *)
Inductive started : Type :=
| Served (key : jsval)
| Awaiting (t_now : Z).

(** Lines 10-19, to the [await]. *)
Definition fetch_begin (t_now : Z) (w : world) : started * world :=
  if cache_valid t_now (cache w) then (Served (publicKey (cache w)), w)
  else (Awaiting t_now, mkWorld (cache w) (S (net_calls w))).

(** Lines 19-27, from the arrival of what the endpoint did; [t_now] is
    the reading the call took before it sent its request. *)
Definition fetch_settle (t_now : Z) (net : axios_result) : Gw jsval :=
  fun w =>
    match net with
    | AxiosError _ => (Throw fetch_failure, w)
    | AxiosResponse data =>
      match prop data "publicKey" with
      | Return k => (Return k, mkWorld (mkCache k (Some t_now)) (net_calls w))
      | Throw _ => (Throw fetch_failure, w)
      end
    end.

(** Calls that all begin before an answer to any of them arrives. *)
Fixpoint begin_all (ts : list Z) (w : world) : list started * world :=
  match ts with
  | [] => ([], w)
  | t :: rest =>
    let '(s, w') := fetch_begin t w in
    let '(ss, w'') := begin_all rest w' in
    (s :: ss, w'')
  end.

End Gateway.

(** ** The gateway application: the route table *)

Module App.
Import Gateway.

Inductive access : Type := Public | Protected.

(** [restApiProxy] and [graphqlApiProxy]. *)
Inductive backend : Type := UserService | TaskService.

(** The [app.use(path, ...)] layers, in registration order. *)
Definition routes : list (string * access * backend) :=
  [ ("/api/auth/login", Public, UserService);
    ("/api/auth/register", Public, UserService);
    ("/api/auth/public-key", Public, UserService);
    ("/api/auth/me", Protected, UserService);
    ("/api/users", Protected, UserService);
    ("/api/teams", Protected, UserService);
    ("/graphql", Protected, TaskService) ].

(** [app.use(mount, ...)] matches the mount path itself and everything
    below it, at a segment boundary, without regard to case. *)
Definition mounted (mount path : string) : bool :=
  let p := toLowerCase path in
  String.eqb p mount || startsWith (mount +:+ "/") p.

Fixpoint classify (table : list (string * access * backend)) (path : string)
  : option (access * backend) :=
  match table with
  | [] => None
  | (mount, a, b) :: rest =>
    if mounted mount path then Some (a, b) else classify rest path
  end.

(** [app.get(...)] handles [GET], and [HEAD] in the absence of a [HEAD]
    route. *)
Definition handles_get (m : string) : bool :=
  String.eqb m "GET" || String.eqb m "HEAD".

(** [app.get('/health', ...)] matches the path with or without a trailing
    slash, without regard to case. *)
Definition health_path (path : string) : bool :=
  let p := toLowerCase path in
  String.eqb p "/health" || String.eqb p "/health/".

(** [process.env.REST_API_URL] and [process.env.GRAPHQL_API_URL]. *)
Record config : Type := mkConfig {
  REST_API_URL : jsval;
  GRAPHQL_API_URL : jsval
}.

(** [a || b] *)
Definition or_else (a b : jsval) : jsval := if truthy a then a else b.

Definition health_body (cfg : config) (timestamp : string) : jsval :=
  VObj [ ("status", VStr "healthy");
         ("timestamp", VStr timestamp);
         ("services",
          VObj [ ("user-service", or_else (REST_API_URL cfg) (VStr "http://localhost:3001"));
                 ("task-service", or_else (GRAPHQL_API_URL cfg) (VStr "http://localhost:4000")) ]) ].

Definition route_not_found_body : jsval :=
  VObj [ ("error", VStr "Route not found");
         ("availableRoutes",
          VArr [ VStr "/health";
                 VStr "/api/auth/login (POST, public)";
                 VStr "/api/auth/register (POST, public)";
                 VStr "/api/auth/me (GET, protected)";
                 VStr "/api/users/* (protected)";
                 VStr "/api/teams/* (protected)";
                 VStr "/graphql (protected)" ]) ].

(** What the gateway does with a request: it answers itself, or it hands
    the request to the proxy of a backend. *)
Inductive dispatch : Type :=
| Replied (status : Z) (body : jsval)
| Proxied (b : backend) (req : request).

Definition forwarded (d : dispatch) : bool :=
  match d with Proxied _ _ => true | Replied _ _ => false end.

Section WithBackend.
Context `{Jwt.Backend}.

(** The layers from [/health] down, in order (the [helmet], [cors] and
    rate-limit layers in front of them are transport concerns and have
    passed the request on): the health route, the mounted proxies with
    their guard, the [GET] catch-all, and what Express answers when no
    layer is left: [404] with [Cannot METHOD path]. The unmatched case is
    the one of a request that is no [OPTIONS] request (cors has ended
    those) and whose path the catch-all can decode; [gateway] below has
    the layers around these and the cases they take. *)
Definition app (cfg : config) (timestamp : string) (e : env) (req : request) : Gw dispatch :=
  if handles_get (method req) && health_path (path req) then
    ret (Replied 200 (health_body cfg timestamp))
  else
    match classify routes (path req) with
    | Some (Public, b) => ret (Proxied b req)
    | Some (Protected, b) =>
      let* o := verifyJWT e req in
      match o with
      | Responded status body => ret (Replied status body)
      | Next req' => ret (Proxied b req')
      end
    | None =>
      if handles_get (method req) then ret (Replied 404 route_not_found_body)
      else ret (Replied 404 (VStr ("Cannot " +:+ method req +:+ " " +:+ path req)))
    end.

End WithBackend.

(** [fetchPublicKey().catch(err => console.error(...))] at start-up,
    lines 45-48: one eager attempt, a failure is logged and dropped. *)
Definition startup (t_now : Z) (net : axios_result) : Gw unit :=
  try_catch (let* _ := fetchPublicKey t_now net in ret tt) (fun _ => ret tt).

(** *** The layers in front of the routes, and the one behind them

    [app] above is what the route layers do with a request that reached
    them and that the catch-all could match. In front of them sit
    [helmet()], which only sets response headers, [cors(...)] and the
    rate limiter (lines 13-31); behind them sits the error middleware
    (lines 114-120). *)

Definition hex_digit (c : Ascii.ascii) : option N :=
  let n := Ascii.N_of_ascii c in
  if ((48 <=? n) && (n <=? 57))%N then Some (n - 48)%N
  else if ((65 <=? n) && (n <=? 70))%N then Some (n - 55)%N
  else if ((97 <=? n) && (n <=? 102))%N then Some (n - 87)%N
  else None.

(** The text as [decodeURIComponent] reads it: a character as it stands
    ([None]) or the byte of an escape [%XX]; no reading when a [%] is not
    followed by two hex digits. *)
Fixpoint escapes (s : string) : option (list (option N)) :=
  match s with
  | EmptyString => Some []
  | String c rest =>
    if N.eqb (Ascii.N_of_ascii c) 37 then
      match rest with
      | String h (String l rest') =>
        match hex_digit h, hex_digit l with
        | Some a, Some b => option_map (cons (Some (16 * a + b)%N)) (escapes rest')
        | _, _ => None
        end
      | _ => None
      end
    else option_map (cons None) (escapes rest)
  end.

(** [u] is an escaped byte between [lo] and [hi]. *)
Definition escaped_in (lo hi : N) (u : option N) : bool :=
  match u with
  | Some b => ((lo <=? b) && (b <=? hi))%N
  | None => false
  end.

(** The escaped bytes from 0x80 on are well-formed UTF-8: each sequence
    begins with a lead byte, is followed by the continuation bytes that
    lead calls for, all of them escaped, and is neither over-long nor a
    surrogate nor beyond U+10FFFF. *)
Fixpoint well_formed_utf8 (units : list (option N)) : bool :=
  match units with
  | [] => true
  | None :: rest => well_formed_utf8 rest
  | Some b :: rest =>
    if (b <? 128)%N then well_formed_utf8 rest
    else if ((194 <=? b) && (b <=? 223))%N then
      match rest with
      | c1 :: r => escaped_in 128 191 c1 && well_formed_utf8 r
      | _ => false
      end
    else if ((224 <=? b) && (b <=? 239))%N then
      match rest with
      | c1 :: c2 :: r =>
        escaped_in (if (b =? 224)%N then 160 else 128)
                   (if (b =? 237)%N then 159 else 191) c1
        && escaped_in 128 191 c2 && well_formed_utf8 r
      | _ => false
      end
    else if ((240 <=? b) && (b <=? 244))%N then
      match rest with
      | c1 :: c2 :: c3 :: r =>
        escaped_in (if (b =? 240)%N then 144 else 128)
                   (if (b =? 244)%N then 143 else 191) c1
        && escaped_in 128 191 c2 && escaped_in 128 191 c3 && well_formed_utf8 r
      | _ => false
      end
    else false
  end.

(** [decodeURIComponent(s)] returns; otherwise it throws a [URIError]. *)
Definition decodable (s : string) : bool :=
  match escapes s with
  | Some units => well_formed_utf8 units
  | None => false
  end.

(** What the layers in front and behind draw from outside:
    [process.env.NODE_ENV], and whether the rate limiter has already
    counted its hundred requests from the caller's address in the
    current window. *)
Record front : Type := mkFront {
  NODE_ENV : jsval;
  over_limit : bool
}.

(** The answer of the error middleware, lines 114-120, to an error with
    the message [msg]. *)
Definition error_answer (f : front) (msg : string) : dispatch :=
  Replied 500
    (VObj [ ("error", VStr "Internal server error");
            ("message",
             VStr (if strict_eq (NODE_ENV f) (VStr "development") then msg
                   else "Something went wrong")) ]).

Section WithBackend.
Context `{Jwt.Backend}.

(** The whole stack, in the order of registration. [cors] ends every
    [OPTIONS] request itself with status 204; the limiter answers 429
    with its message once the caller is over the limit. A request that
    neither the health route nor a mount takes comes to the [*] layer,
    which decodes the path as its parameter before it looks at the
    method: a path that does not decode is an error that goes to the
    error middleware. *)
Definition gateway (f : front) (cfg : config) (timestamp : string) (e : env)
    (req : request) : Gw dispatch :=
  if String.eqb (toLowerCase (method req)) "options" then
    ret (Replied 204 (VStr ""))
  else if over_limit f then
    ret (Replied 429 (VStr "Too many requests from this IP, please try again later."))
  else if negb (handles_get (method req) && health_path (path req))
          && negb (bool_decide (is_Some (classify routes (path req))))
          && negb (decodable (path req)) then
    ret (error_answer f ("Failed to decode param '" +:+ path req +:+ "'"))
  else
    app cfg timestamp e req.

End WithBackend.

End App.

(** ** The user service: registration, login, token minting *)

Module UserService.

(** What one request handling observes of the outside: [Date.now()] inside
    [jwt.sign], [uuidv4()], the two [new Date().toISOString()], and
    [bcrypt] on strings (its salt is drawn inside). *)
Record env : Type := mkEnv {
  now : Z;
  uuid : string;
  createdAt : string;
  updatedAt : string;
  hash : string -> string;
  compare : string -> string -> bool
}.

(** The [users] array: user objects, in insertion order. *)
Definition users : Type := list (list (string * jsval)).

Definition Us (A : Type) : Type := M users A.

(** [res.status(s).json(body)] *)
Record response : Type := mkResponse { status : Z; body : jsval }.

(** [bcrypt.hash(password, 10)]: rejects what is not a string. *)
Definition bcrypt_hash (e : env) (password : jsval) : completion string :=
  match password with
  | VStr s => Return (hash e s)
  | _ => Throw (Error "Illegal arguments")
  end.

(** [bcrypt.compare(password, stored)] *)
Definition bcrypt_compare (e : env) (password stored : jsval) : completion bool :=
  match password, stored with
  | VStr s, VStr h => Return (compare e s h)
  | _, _ => Throw (Error "Illegal arguments")
  end.

(** [users.find(u => u.email === email)] *)
Definition find_by_email (email : jsval) (us : users) : option (list (string * jsval)) :=
  List.find (fun u => strict_eq (field "email" u) email) us.

(** [const { password: _, ...userWithoutPassword } = user] *)
Definition without_password (user : list (string * jsval)) : list (string * jsval) :=
  List.filter (fun kv => negb (String.eqb (fst kv) "password")) user.

(** [users.push(u)] *)
Definition push (u : list (string * jsval)) : Us unit :=
  fun us => (Return tt, (us ++ [u])%list).

(** [role = 'user'] in the destructuring pattern: the default stands in
    for [undefined] only. *)
Definition role_or_default (given : jsval) : jsval :=
  if is_undefined given then VStr "user" else given.

(** The payload of the credential minted for an identity at [now e]. *)
Definition credential_claims (e : env) (userId email role : jsval) : Jwt.jwt_payload :=
  Jwt.signed_payload [("userId", userId); ("email", email); ("role", role)] (now e).

(** The [newUser] object, lines 42-50. *)
Definition new_user (e : env) (name email : jsval) (hashedPassword : string)
    (role : jsval) : list (string * jsval) :=
  [ ("id", VStr (uuid e)); ("name", name); ("email", email);
    ("password", VStr hashedPassword); ("role", role);
    ("createdAt", VStr (createdAt e)); ("updatedAt", VStr (updatedAt e)) ].

Section WithBackend.
Context `{Jwt.Backend}.
Variable privateKey : string.

(** The [jwt.sign] call of both routes (lines 55-66 and 117-128). *)
Definition issue (e : env) (userId email role : jsval) : completion string :=
  Jwt.sign [("userId", userId); ("email", email); ("role", role)] privateKey (now e).

(** [router.post('/register', ...)], lines 18-83, run from its start to
    its end with no other request handled in between. [register_begin]
    and [register_finish] below are the parts before and after the
    [await] of line 40, for registrations that overlap. *)
Definition register (e : env) (reqBody : jsval) : Us response :=
  try_catch
    (let* name := lift (prop reqBody "name") in
     let* email := lift (prop reqBody "email") in
     let* password := lift (prop reqBody "password") in
     let* role_given := lift (prop reqBody "role") in
     let role := role_or_default role_given in
     if negb (truthy name) || negb (truthy email) || negb (truthy password) then
       ret (mkResponse 400
              (VObj [ ("error", VStr "Missing required fields");
                      ("message", VStr "Name, email, and password are required") ]))
     else
       let* us := get in
       match find_by_email email us with
       | Some _ =>
         ret (mkResponse 409
                (VObj [ ("error", VStr "Email already exists");
                        ("message", VStr "A user with this email already exists") ]))
       | None =>
         let* hashedPassword := lift (bcrypt_hash e password) in
         let newUser := new_user e name email hashedPassword role in
         push newUser ;;
         let* token := lift (issue e (field "id" newUser) (field "email" newUser)
                                     (field "role" newUser)) in
         ret (mkResponse 201
                (VObj [ ("message", VStr "User registered successfully");
                        ("user", VObj (without_password newUser));
                        ("token", VStr token) ]))
       end)
    (fun error =>
       ret (mkResponse 500
              (VObj [ ("error", VStr "Registration failed");
                      ("message", VStr (message error)) ]))).

(** [router.post('/login', ...)], lines 86-145. *)
Definition login (e : env) (reqBody : jsval) : Us response :=
  try_catch
    (let* email := lift (prop reqBody "email") in
     let* password := lift (prop reqBody "password") in
     if negb (truthy email) || negb (truthy password) then
       ret (mkResponse 400
              (VObj [ ("error", VStr "Missing credentials");
                      ("message", VStr "Email and password are required") ]))
     else
       let* us := get in
       match find_by_email email us with
       | None =>
         ret (mkResponse 401
                (VObj [ ("error", VStr "Authentication failed");
                        ("message", VStr "Invalid email or password") ]))
       | Some user =>
         let* isPasswordValid := lift (bcrypt_compare e password (field "password" user)) in
         if (isPasswordValid : bool) then
           let* token := lift (issue e (field "id" user) (field "email" user)
                                       (field "role" user)) in
           ret (mkResponse 200
                  (VObj [ ("message", VStr "Login successful");
                          ("user", VObj (without_password user));
                          ("token", VStr token) ]))
         else
           ret (mkResponse 401
                  (VObj [ ("error", VStr "Authentication failed");
                          ("message", VStr "Invalid email or password") ]))
       end)
    (fun error =>
       ret (mkResponse 500
              (VObj [ ("error", VStr "Login failed");
                      ("message", VStr (message error)) ]))).

(** *** [register] around its [await]

    The handler runs from line 19 to the [await bcrypt.hash] of line 40
    in one piece and from the arrival of the hash to its end in another;
    other requests can be handled in between. *)

(** Lines 42-82, once [bcrypt.hash] has settled, for the values that
    line 20 took from the body. *)
Definition register_finish (e : env) (name email password role : jsval)
  : Us response :=
  try_catch
    (let* hashedPassword := lift (bcrypt_hash e password) in
     let newUser := new_user e name email hashedPassword role in
     push newUser ;;
     let* token := lift (issue e (field "id" newUser) (field "email" newUser)
                                 (field "role" newUser)) in
     ret (mkResponse 201
            (VObj [ ("message", VStr "User registered successfully");
                    ("user", VObj (without_password newUser));
                    ("token", VStr token) ])))
    (fun error =>
       ret (mkResponse 500
              (VObj [ ("error", VStr "Registration failed");
                      ("message", VStr (message error)) ]))).

End WithBackend.

(** How far [register] got at its [await]: it has answered, or it waits
    for the hash with the four values of line 20. *)
Inductive register_begun : Type :=
| Answered (r : response)
| Hashing (name email password role : jsval).

(** Lines 19-40, to the [await]; the store is read, not written. *)
Definition register_begin (reqBody : jsval) (us : users) : register_begun :=
  match prop reqBody "name", prop reqBody "email", prop reqBody "password",
        prop reqBody "role" with
  | Return name, Return email, Return password, Return role_given =>
    if negb (truthy name) || negb (truthy email) || negb (truthy password) then
      Answered
        (mkResponse 400
           (VObj [ ("error", VStr "Missing required fields");
                   ("message", VStr "Name, email, and password are required") ]))
    else
      match find_by_email email us with
      | Some _ =>
        Answered
          (mkResponse 409
             (VObj [ ("error", VStr "Email already exists");
                     ("message", VStr "A user with this email already exists") ]))
      | None => Hashing name email password (role_or_default role_given)
      end
  | Throw error, _, _, _ | _, Throw error, _, _ | _, _, Throw error, _
  | _, _, _, Throw error =>
    Answered
      (mkResponse 500
         (VObj [ ("error", VStr "Registration failed");
                 ("message", VStr (message error)) ]))
  end.

(** No user of the store has an email that [===] the email of a user
    stored before it ([seen] are the users in front of [us]). *)
Fixpoint emails_distinct_after (seen us : users) : bool :=
  match us with
  | [] => true
  | u :: rest =>
    match find_by_email (field "email" u) seen with
    | Some _ => false
    | None => emails_distinct_after (seen ++ [u])%list rest
    end
  end.

Definition emails_distinct (us : users) : bool := emails_distinct_after [] us.

(** The refusals of [/register] and [/login], as they are sent. *)
Definition missing_fields : response :=
  mkResponse 400
    (VObj [ ("error", VStr "Missing required fields");
            ("message", VStr "Name, email, and password are required") ]).

Definition email_taken : response :=
  mkResponse 409
    (VObj [ ("error", VStr "Email already exists");
            ("message", VStr "A user with this email already exists") ]).

Definition authentication_failed : response :=
  mkResponse 401
    (VObj [ ("error", VStr "Authentication failed");
            ("message", VStr "Invalid email or password") ]).

(** [users.find(u => u.id === userId)] *)
Definition find_by_id (userId : jsval) (us : users) : option (list (string * jsval)) :=
  List.find (fun u => strict_eq (field "id" u) userId) us.

(** [router.get('/me', ...)], lines 148-170: the user named by the
    [x-user-id] header of the request, which the gateway is to have set. *)
Definition me (reqHeaders : gmap string jsval) : Us response :=
  let userId := default VUndefined (reqHeaders !! "x-user-id") in
  if negb (truthy userId) then
    ret (mkResponse 401
           (VObj [ ("error", VStr "Unauthorized");
                   ("message", VStr "Authentication required") ]))
  else
    let* us := get in
    match find_by_id userId us with
    | None =>
      ret (mkResponse 404
             (VObj [ ("error", VStr "User not found");
                     ("message", VStr "User does not exist") ]))
    | Some user => ret (mkResponse 200 (VObj (without_password user)))
    end.

(** [router.get('/public-key', ...)], lines 173-184. [file] is what
    [fs.readFileSync(.../keys/public.key, 'utf8')] does: the text of the
    file, or the error it throws. *)
Definition public_key (file : completion string) : response :=
  match file with
  | Return publicKey => mkResponse 200 (VObj [("publicKey", VStr publicKey)])
  | Throw error =>
    mkResponse 500
      (VObj [ ("error", VStr "Failed to retrieve public key");
              ("message", VStr (message error)) ])
  end.

End UserService.

(** ** The gateway's request to the key endpoint, answered by the user service *)

Module Wire.

(** What [axios.get] makes of an answer that arrived: it resolves with
    the body on a 2xx status and rejects on any other. *)
Definition axios_sees (r : UserService.response) : Gateway.axios_result :=
  if (200 <=? UserService.status r) && (UserService.status r <? 300) then
    Gateway.AxiosResponse (UserService.body r)
  else
    Gateway.AxiosError
      ("Request failed with status code " +:+ pretty (UserService.status r)).

End Wire.

(** ** Objects and arrays as the stores of the services use them *)

Module Obj.

(** [obj.k = v], also the effect of a later [k] in an object literal with
    spreads: an existing property keeps its place and takes the value, a
    new one goes to the end. *)
Fixpoint set_field (k : string) (v : jsval) (fields : list (string * jsval))
  : list (string * jsval) :=
  match fields with
  | [] => [(k, v)]
  | (k', v') :: rest =>
    if String.eqb k k' then (k, v) :: rest else (k', v') :: set_field k v rest
  end.

(** [...(cond && { k })] inside an object literal: the property is set
    when [cond] holds; spreading a falsy value adds nothing. *)
Definition spread_if (cond : bool) (k : string) (v : jsval)
    (fields : list (string * jsval)) : list (string * jsval) :=
  if cond then set_field k v fields else fields.

(** [arr.findIndex(p)], [None] for [-1]. *)
Fixpoint find_index {A} (p : A -> bool) (l : list A) : option nat :=
  match l with
  | [] => None
  | x :: rest => if p x then Some O else option_map S (find_index p rest)
  end.

(** [arr.splice(i, 1)] (what is left) and [arr[i] = x], for an index that
    [findIndex] returned. *)
Fixpoint remove_at {A} (i : nat) (l : list A) : list A :=
  match i, l with
  | _, [] => []
  | O, _ :: rest => rest
  | S i', x :: rest => x :: remove_at i' rest
  end.

Fixpoint replace_at {A} (i : nat) (y : A) (l : list A) : list A :=
  match i, l with
  | _, [] => []
  | O, _ :: rest => y :: rest
  | S i', x :: rest => x :: replace_at i' y rest
  end.

(** [hay.indexOf(needle)] on strings, [None] for [-1]. *)
Fixpoint index_of_string (needle hay : string) : option nat :=
  if startsWith needle hay then Some O
  else match hay with
       | EmptyString => None
       | String _ rest => option_map S (index_of_string needle rest)
       end.

Fixpoint join_with (sep : string) (parts : list string) : string :=
  match parts with
  | [] => ""
  | [p] => p
  | p :: rest => p +:+ sep +:+ join_with sep rest
  end.

(** [String(v)]: numbers print as their digits (the integers below
    10^21 do), arrays as their items joined by commas with [null] and
    [undefined] items empty, objects as [[object Object]]. *)
Fixpoint to_string (v : jsval) : string :=
  match v with
  | VUndefined => "undefined"
  | VNull => "null"
  | VBool true => "true"
  | VBool false => "false"
  | VNum n => pretty n
  | VStr s => s
  | VArr items =>
    join_with ","
      (List.map (fun item => match item with
                             | VUndefined | VNull => ""
                             | _ => to_string item
                             end) items)
  | VObj _ => "[object Object]"
  end.

Definition not_a_function (what : string) : js_error :=
  TypeError (what +:+ " is not a function").

(** [members.includes(x)]: on an array by value of the primitives (an
    object or array [x] of the request at hand is no item of it), on a
    string by search for the text of [x]; anything else has no such
    method. *)
Definition includes (members x : jsval) : completion bool :=
  match members with
  | VArr items => Return (existsb (strict_eq x) items)
  | VStr s => Return (bool_decide (is_Some (index_of_string (to_string x) s)))
  | VUndefined | VNull =>
    Throw (TypeError "Cannot read properties of null or undefined")
  | _ => Throw (not_a_function "team.members.includes")
  end.

(** [members.indexOf(text)] for a text [text]. *)
Definition index_of (members : jsval) (text : string) : completion (option nat) :=
  match members with
  | VArr items => Return (find_index (fun item => strict_eq item (VStr text)) items)
  | VStr s => Return (index_of_string text s)
  | VUndefined | VNull =>
    Throw (TypeError "Cannot read properties of null or undefined")
  | _ => Throw (not_a_function "team.members.indexOf")
  end.

(** [members.push(x)]: only an array has it. *)
Definition push (members x : jsval) : completion jsval :=
  match members with
  | VArr items => Return (VArr (items ++ [x])%list)
  | VUndefined | VNull =>
    Throw (TypeError "Cannot read properties of null or undefined")
  | _ => Throw (not_a_function "team.members.push")
  end.

(** [members.splice(i, 1)]: only an array has it. *)
Definition splice (members : jsval) (i : nat) : completion jsval :=
  match members with
  | VArr items => Return (VArr (remove_at i items))
  | VUndefined | VNull =>
    Throw (TypeError "Cannot read properties of null or undefined")
  | _ => Throw (not_a_function "team.members.splice")
  end.

(** A value that [===] compares by what it holds: anything but an
    array or an object. *)
Definition primitive (v : jsval) : bool :=
  match v with
  | VArr _ | VObj _ => false
  | _ => true
  end.

(** No item of the list [===] a later one. *)
Fixpoint distinct (items : list jsval) : bool :=
  match items with
  | [] => true
  | x :: rest => negb (existsb (strict_eq x) rest) && distinct rest
  end.

End Obj.

(** ** The user service: teams ([routes/teams.js]) *)

Module Teams.
Import Obj.

(** The [teams] array. *)
Definition teams : Type := list (list (string * jsval)).

Definition Ts (A : Type) : Type := M teams A.

Definition response : Type := UserService.response.
Definition respond (status : Z) (body : jsval) : response :=
  UserService.mkResponse status body.

(** What one request handling draws from outside: [uuidv4()] and the
    readings of [new Date().toISOString()], in the order they are made. *)
Record env : Type := mkEnv {
  uuid : string;
  createdAt : string;
  updatedAt : string
}.

(** The array as the module is loaded, lines 7-16; [loaded] and
    [loaded'] are the two readings of the clock in the literal. *)
Definition initial_teams (loaded loaded' : string) : teams :=
  [ [ ("id", VStr "1");
      ("name", VStr "Development Team");
      ("description", VStr "Core development team");
      ("members", VArr [VStr "1"; VStr "2"]);
      ("createdAt", VStr loaded);
      ("updatedAt", VStr loaded') ] ].

Definition has_id (id : string) (t : list (string * jsval)) : bool :=
  strict_eq (field "id" t) (VStr id).

Definition team_not_found (id : string) : response :=
  respond 404
    (VObj [ ("error", VStr "Team not found");
            ("message", VStr ("Team with ID " +:+ id +:+ " does not exist")) ]).

(** [router.get('/', ...)], lines 19-21. *)
Definition list_teams : Ts response :=
  let* ts := get in
  ret (respond 200 (VArr (List.map VObj ts))).

(** [router.get('/:id', ...)], lines 24-35. *)
Definition get_team (id : string) : Ts response :=
  let* ts := get in
  match List.find (has_id id) ts with
  | None => ret (team_not_found id)
  | Some team => ret (respond 200 (VObj team))
  end.

(** [router.post('/', ...)], lines 38-63. *)
Definition create_team (e : env) (reqBody : jsval) : Ts response :=
  let* name := lift (prop reqBody "name") in
  let* description := lift (prop reqBody "description") in
  let* members_given := lift (prop reqBody "members") in
  let members := if is_undefined members_given then VArr [] else members_given in
  if negb (truthy name) then
    ret (respond 400
           (VObj [ ("error", VStr "Missing required fields");
                   ("message", VStr "Name is required") ]))
  else
    let newTeam :=
      [ ("id", VStr (uuid e)); ("name", name);
        ("description", if truthy description then description else VStr "");
        ("members", members);
        ("createdAt", VStr (createdAt e)); ("updatedAt", VStr (updatedAt e)) ] in
    let* ts := get in
    put (ts ++ [newTeam])%list ;;
    ret (respond 201
           (VObj [ ("message", VStr "Team created successfully");
                   ("team", VObj newTeam) ])).

(** [router.put('/:id', ...)], lines 66-92. *)
Definition update_team (now_iso : string) (id : string) (reqBody : jsval) : Ts response :=
  let* ts := get in
  match find_index (has_id id) ts with
  | None => ret (team_not_found id)
  | Some teamIndex =>
    let* name := lift (prop reqBody "name") in
    let* description := lift (prop reqBody "description") in
    let* members := lift (prop reqBody "members") in
    let old := default [] (ts !! teamIndex) in
    let updatedTeam :=
      set_field "updatedAt" (VStr now_iso)
        (spread_if (truthy members) "members" members
           (spread_if (negb (is_undefined description)) "description" description
              (spread_if (truthy name) "name" name old))) in
    put (replace_at teamIndex updatedTeam ts) ;;
    ret (respond 200
           (VObj [ ("message", VStr "Team updated successfully");
                   ("team", VObj updatedTeam) ]))
  end.

(** [router.delete('/:id', ...)], lines 95-111. *)
Definition delete_team (id : string) : Ts response :=
  let* ts := get in
  match find_index (has_id id) ts with
  | None => ret (team_not_found id)
  | Some teamIndex =>
    let deletedTeam := default [] (ts !! teamIndex) in
    put (remove_at teamIndex ts) ;;
    ret (respond 200
           (VObj [ ("message", VStr "Team deleted successfully");
                   ("team", VObj deletedTeam) ]))
  end.

(** [router.post('/:id/members', ...)], lines 114-147. [team] is the
    object in the array, so what is set on it is set in the store. *)
Definition add_member (now_iso : string) (id : string) (reqBody : jsval) : Ts response :=
  let* ts := get in
  match find_index (has_id id) ts with
  | None => ret (team_not_found id)
  | Some teamIndex =>
    let team := default [] (ts !! teamIndex) in
    let* userId := lift (prop reqBody "userId") in
    if negb (truthy userId) then
      ret (respond 400
             (VObj [ ("error", VStr "Missing required fields");
                     ("message", VStr "userId is required") ]))
    else
      let* already := lift (includes (field "members" team) userId) in
      if (already : bool) then
        ret (respond 409
               (VObj [ ("error", VStr "User already in team");
                       ("message", VStr "User is already a member of this team") ]))
      else
        let* members := lift (push (field "members" team) userId) in
        let team' := set_field "updatedAt" (VStr now_iso)
                       (set_field "members" members team) in
        put (replace_at teamIndex team' ts) ;;
        ret (respond 200
               (VObj [ ("message", VStr "Member added successfully");
                       ("team", VObj team') ]))
  end.

(** [router.delete('/:id/members/:userId', ...)], lines 150-176. *)
Definition remove_member (now_iso : string) (id userId : string) : Ts response :=
  let* ts := get in
  match find_index (has_id id) ts with
  | None => ret (team_not_found id)
  | Some teamIndex =>
    let team := default [] (ts !! teamIndex) in
    let* memberIndex := lift (index_of (field "members" team) userId) in
    match memberIndex with
    | None =>
      ret (respond 404
             (VObj [ ("error", VStr "Member not found");
                     ("message", VStr "User is not a member of this team") ]))
    | Some i =>
      let* members := lift (splice (field "members" team) i) in
      let team' := set_field "updatedAt" (VStr now_iso)
                     (set_field "members" members team) in
      put (replace_at teamIndex team' ts) ;;
      ret (respond 200
             (VObj [ ("message", VStr "Member removed successfully");
                     ("team", VObj team') ]))
    end
  end.

End Teams.

(** ** The task service: the resolvers of [graphql-api/server.js] *)

Module Tasks.
Import Obj.

(** The [tasks] array and what has been handed to [pubsub.publish], each
    entry a trigger name and its payload, oldest first. *)
Record state : Type := mkState {
  tasks : list (list (string * jsval));
  published : list (string * jsval)
}.

Definition Tk (A : Type) : Type := M state A.

Record env : Type := mkEnv {
  uuid : string;
  createdAt : string;
  updatedAt : string
}.

(** The array as the module is loaded, lines 22-47, with the readings
    of the clock in the literal, and nothing published yet. *)
Definition initial_state (t1 t2 t3 t4 : string) : state :=
  mkState
    [ [ ("id", VStr "1");
        ("title", VStr "Setup Project");
        ("description", VStr "Initialize the task management project");
        ("status", VStr "completed");
        ("priority", VStr "high");
        ("assignedTo", VStr "1");
        ("teamId", VStr "1");
        ("createdBy", VStr "1");
        ("createdAt", VStr t1);
        ("updatedAt", VStr t2) ];
      [ ("id", VStr "2");
        ("title", VStr "Design Database Schema");
        ("description", VStr "Design the database schema for task management");
        ("status", VStr "in_progress");
        ("priority", VStr "high");
        ("assignedTo", VStr "2");
        ("teamId", VStr "1");
        ("createdBy", VStr "1");
        ("createdAt", VStr t3);
        ("updatedAt", VStr t4) ] ]
    [].

(** [pubsub.publish(trigger, payload)] *)
Definition publish (trigger : string) (payload : jsval) : Tk unit :=
  fun s => (Return tt, mkState (tasks s) (published s ++ [(trigger, payload)])%list).

Definition set_tasks (ts : list (list (string * jsval))) : Tk unit :=
  fun s => (Return tt, mkState ts (published s)).

(** [task => task.id === id] *)
Definition has_id (id : jsval) (task : list (string * jsval)) : bool :=
  strict_eq (field "id" task) id.

(** [a || b] *)
Definition or_else (a b : jsval) : jsval := if truthy a then a else b.

(** [Query.tasks], [Query.task], [Query.tasksByUser], [Query.tasksByTeam]
    and [Query.tasksByStatus], lines 119-125; [find] gives [undefined]
    when there is none. *)
Definition query_tasks (s : state) : jsval := VArr (List.map VObj (tasks s)).

Definition query_task (args : list (string * jsval)) (s : state) : jsval :=
  match List.find (has_id (field "id" args)) (tasks s) with
  | Some task => VObj task
  | None => VUndefined
  end.

Definition query_by (property argument : string) (args : list (string * jsval))
    (s : state) : jsval :=
  VArr (List.map VObj
          (List.filter (fun task => strict_eq (field property task) (field argument args))
             (tasks s))).

Definition tasksByUser := query_by "assignedTo" "userId".
Definition tasksByTeam := query_by "teamId" "teamId".
Definition tasksByStatus := query_by "status" "status".

(** [Mutation.createTask], lines 128-147. *)
Definition createTask (e : env) (args : list (string * jsval)) : Tk jsval :=
  let newTask :=
    [ ("id", VStr (uuid e));
      ("title", field "title" args);
      ("description", or_else (field "description" args) (VStr ""));
      ("status", or_else (field "status" args) (VStr "todo"));
      ("priority", or_else (field "priority" args) (VStr "medium"));
      ("assignedTo", or_else (field "assignedTo" args) VNull);
      ("teamId", or_else (field "teamId" args) VNull);
      ("createdBy", field "createdBy" args);
      ("createdAt", VStr (createdAt e));
      ("updatedAt", VStr (updatedAt e)) ] in
  let* s := get in
  set_tasks (tasks s ++ [newTask])%list ;;
  publish "TASK_ADDED" (VObj [("taskAdded", VObj newTask)]) ;;
  ret (VObj newTask).

(** [Mutation.updateTask], lines 149-172. *)
Definition updateTask (now_iso : string) (args : list (string * jsval)) : Tk jsval :=
  let* s := get in
  match find_index (has_id (field "id" args)) (tasks s) with
  | None => throw (Error "Task not found")
  | Some taskIndex =>
    let old := default [] (tasks s !! taskIndex) in
    let defined k := negb (is_undefined (field k args)) in
    let updatedTask :=
      set_field "updatedAt" (VStr now_iso)
        (spread_if (defined "teamId") "teamId" (field "teamId" args)
           (spread_if (defined "assignedTo") "assignedTo" (field "assignedTo" args)
              (spread_if (truthy (field "priority" args)) "priority" (field "priority" args)
                 (spread_if (truthy (field "status" args)) "status" (field "status" args)
                    (spread_if (defined "description") "description"
                       (field "description" args)
                       (spread_if (truthy (field "title" args)) "title"
                          (field "title" args) old)))))) in
    set_tasks (replace_at taskIndex updatedTask (tasks s)) ;;
    publish "TASK_UPDATED" (VObj [("taskUpdated", VObj updatedTask)]) ;;
    ret (VObj updatedTask)
  end.

(** [Mutation.deleteTask], lines 174-186. *)
Definition deleteTask (args : list (string * jsval)) : Tk jsval :=
  let* s := get in
  match find_index (has_id (field "id" args)) (tasks s) with
  | None => ret (VBool false)
  | Some taskIndex =>
    set_tasks (remove_at taskIndex (tasks s)) ;;
    publish "TASK_DELETED" (VObj [("taskDeleted", field "id" args)]) ;;
    ret (VBool true)
  end.

(** A mutation as a client sends it, with what the resolver draws from
    outside while it runs. *)
Inductive mutation : Type :=
| Create (e : env) (args : list (string * jsval))
| Update (now_iso : string) (args : list (string * jsval))
| Delete (args : list (string * jsval)).

Definition resolve (m : mutation) : Tk jsval :=
  match m with
  | Create e args => createTask e args
  | Update now_iso args => updateTask now_iso args
  | Delete args => deleteTask args
  end.

(** Mutations one after the other; one that throws leaves the state to
    the next as it was when it threw. *)
Fixpoint run (ms : list mutation) (s : state) : state :=
  match ms with
  | [] => s
  | m :: rest => run rest (snd (resolve m s))
  end.

(** How many of the published events have the trigger [trigger]. *)
Definition count_published (trigger : string) (s : state) : nat :=
  length (List.filter (fun ev => String.eqb (fst ev) trigger) (published s)).

End Tasks.

(** ** A small backend to run the model on concrete tokens *)

Module Toy.
Import Jwt.

(** A key pair is a text and itself; a signature names the key. *)
Definition toy_sign (key : string) (input : string * jwt_payload) : option string :=
  Some ("signed-by:" +:+ key).

Definition toy_verify (key : string) (input : string * jwt_payload) (sig : string) : bool :=
  String.eqb sig ("signed-by:" +:+ key).

(** A serialisation that knows one token. *)
Definition one_token (text : string) (j : jws) : Backend :=
  {| jws_encode := fun _ => text;
     jws_decode := fun s => if String.eqb s text then Some j else None;
     rs256_sign := toy_sign;
     rs256_verify := toy_verify |}.

(** A credential for the identity of the end-to-end scenario, minted at
    second 1700000000, and the same credential under a signature of some
    other key. *)
Definition alice_claims : jwt_payload :=
  PObj [ ("userId", VStr "u1"); ("email", VStr "a@example.com");
         ("role", VStr "admin");
         ("iat", VNum 1700000000); ("exp", VNum 1700086400) ].

Definition alice_token : jws := mkJws "RS256" alice_claims "signed-by:k1".
Definition forged_token : jws := mkJws "RS256" alice_claims "signed-by:k2".

Definition issuer_backend : Backend := one_token "alice.jwt" alice_token.
Definition forger_backend : Backend := one_token "forged.jwt" forged_token.

(** A gateway that fetched the key [k1] at second 1700000000, and moments
    at which its endpoint is down: 100 seconds later, and long after the
    credential's expiry. *)
Definition warm : Gateway.world :=
  Gateway.mkWorld (Gateway.mkCache (VStr "k1") (Some 1700000000000)) 1.

Definition cold : Gateway.world := Gateway.mkWorld Gateway.initial_cache 0.

Definition soon : Gateway.env :=
  Gateway.mkEnv 1700000100000 (Gateway.AxiosError "connect ECONNREFUSED") 1700000100000.

Definition later : Gateway.env :=
  Gateway.mkEnv 1800000000000
    (Gateway.AxiosResponse (VObj [("publicKey", VStr "k1")])) 1800000000000.

(** Requests that carry identity headers of the caller's own making. *)
Definition bearing (token : string) : Gateway.request :=
  Gateway.mkRequest "GET" "/api/users"
    (<["x-user-role" := VStr "root"]>
       (<["x-user-id" := VStr "u0"]>
          {[ "authorization" := VStr ("Bearer " +:+ token) ]})).

Definition anonymous : Gateway.request :=
  Gateway.mkRequest "POST" "/graphql"
    (<["x-user-role" := VStr "admin"]> {[ "x-user-id" := VStr "u1" ]}).

(** The user service at the moment it mints the credential above. *)
Definition minting : UserService.env :=
  UserService.mkEnv 1700000000000 "u1" "2023-11-14T22:13:20.000Z"
    "2023-11-14T22:13:20.000Z"
    (fun password => "$2a$10$" +:+ password)
    (fun password hashed => String.eqb hashed ("$2a$10$" +:+ password)).

(** A backend whose private key is not usable. *)
Definition broken_signer : Backend :=
  {| jws_encode := fun _ => "alice.jwt";
     jws_decode := fun _ => None;
     rs256_sign := fun _ _ => None;
     rs256_verify := toy_verify |}.

(** A moment at which the key endpoint answers with an empty object. *)
Definition keyless : Gateway.env :=
  Gateway.mkEnv 1700000100000 (Gateway.AxiosResponse (VObj [])) 1700000100000.

(** The registration that [minting] serves, and the login that follows. *)
Definition alice_registration : list (string * jsval) :=
  [ ("name", VStr "Alice"); ("email", VStr "a@example.com");
    ("password", VStr "secret"); ("role", VStr "admin") ].

Definition alice_login : list (string * jsval) :=
  [ ("email", VStr "a@example.com"); ("password", VStr "secret") ].

(** The stores of the other routes as they are after loading, and the
    draws of a request that creates something. *)
Definition teams_loaded : Teams.teams :=
  Teams.initial_teams "2023-11-14T22:00:00.000Z" "2023-11-14T22:00:00.001Z".

Definition tasks_loaded : Tasks.state :=
  Tasks.initial_state "2023-11-14T22:00:00.000Z" "2023-11-14T22:00:00.000Z"
    "2023-11-14T22:00:00.001Z" "2023-11-14T22:00:00.001Z".

Definition new_team : Teams.env :=
  Teams.mkEnv "7f3c" "2023-11-14T22:13:20.000Z" "2023-11-14T22:13:20.001Z".

Definition new_task : Tasks.env :=
  Tasks.mkEnv "9a1b" "2023-11-14T22:13:20.000Z" "2023-11-14T22:13:20.001Z".

End Toy.

(** * Properties *)

Import Gateway.

(** ** The key cache *)

Section KeyCache.

Implicit Types (w : world) (net : axios_result) (t : Z).

(** A valid cache answers from memory: nothing is sent, nothing changes. *)
Lemma fetchPublicKey_hit t net w :
  cache_valid t (cache w) = true ->
  fetchPublicKey t net w = (Return (publicKey (cache w)), w).
Proof.
  intros Hv. unfold fetchPublicKey, bind, get_cache. now rewrite Hv.
Qed.

(** Without a valid cache a failing endpoint makes the call throw, after
    one request on the wire, with the cache as it was. *)
Lemma fetchPublicKey_miss_fails t net w :
  cache_valid t (cache w) = false ->
  endpoint_fails net = true ->
  fetchPublicKey t net w
  = (Throw fetch_failure, mkWorld (cache w) (S (net_calls w))).
Proof.
  intros Hv Hf. unfold fetchPublicKey, bind, get_cache. rewrite Hv.
  destruct net as [msg | data]; [reflexivity |].
  destruct data; try discriminate Hf; reflexivity.
Qed.

(** Without a valid cache an answering endpoint replaces key and timestamp
    in one step; the key is whatever [data.publicKey] reads. *)
Lemma fetchPublicKey_miss_answers t data k w :
  cache_valid t (cache w) = false ->
  prop data "publicKey" = Return k ->
  fetchPublicKey t (AxiosResponse data) w
  = (Return k, mkWorld (mkCache k (Some t)) (S (net_calls w))).
Proof.
  intros Hv Hk. unfold fetchPublicKey, bind, get_cache. rewrite Hv.
  unfold try_catch, bind, axios_get, lift. cbn [prop field assoc String.eqb].
  cbn. rewrite Hk. reflexivity.
Qed.

Lemma endpoint_answers_prop data :
  endpoint_fails (AxiosResponse data) = false ->
  exists k, prop data "publicKey" = Return k.
Proof.
  destruct data; cbn; intros Hf; try discriminate Hf; eauto.
Qed.

Lemma populated_fresh_valid t t0 k :
  truthy k = true -> t0 <> 0 -> t - t0 < PUBLIC_KEY_CACHE_DURATION ->
  cache_valid t (mkCache k (Some t0)) = true.
Proof.
  intros Hk Ht0 Hage. unfold cache_valid; cbn. rewrite Hk. cbn.
  apply andb_true_intro; split.
  - apply negb_true_iff, Z.eqb_neq, Ht0.
  - apply Z.ltb_lt, Hage.
Qed.

End KeyCache.

(** ** Serving from the cache, refreshing, failing *)

(** C1, as the specification states it, fails: a cache that holds a key
    fetched one freshness window ago does not serve that key when the
    refresh is refused; the call throws. *)
Lemma stale_key_not_served :
  truthy (VStr "-----BEGIN PUBLIC KEY-----") = true /\
  fetchPublicKey (1700000000000 + PUBLIC_KEY_CACHE_DURATION)
    (AxiosError "connect ECONNREFUSED")
    (mkWorld (mkCache (VStr "-----BEGIN PUBLIC KEY-----") (Some 1700000000000)) 1)
  = (Throw fetch_failure,
     mkWorld (mkCache (VStr "-----BEGIN PUBLIC KEY-----") (Some 1700000000000)) 2) /\
  fst (fetchPublicKey (1700000000000 + PUBLIC_KEY_CACHE_DURATION)
         (AxiosError "connect ECONNREFUSED")
         (mkWorld (mkCache (VStr "-----BEGIN PUBLIC KEY-----") (Some 1700000000000)) 1))
  <> Return (VStr "-----BEGIN PUBLIC KEY-----").
Proof.
  split; [reflexivity |]. split; [reflexivity |].
  vm_compute. discriminate.
Qed.

(** C1 (amended): when the cache is not valid any more (or never was) and
    the fetch fails, [fetchPublicKey] throws "Unable to fetch public key",
    whether or not an older key is in the cache; that key is not served
    and stays in the cache untouched. *)
Theorem refresh_failure_throws t net w :
  cache_valid t (cache w) = false ->
  endpoint_fails net = true ->
  exists w',
    fetchPublicKey t net w = (Throw fetch_failure, w') /\
    cache w' = cache w /\
    net_calls w' = S (net_calls w).
Proof.
  intros Hv Hf. eexists. split.
  - apply fetchPublicKey_miss_fails; assumption.
  - split; reflexivity.
Qed.

Lemma refresh_failure_throws_witness :
  exists w',
    fetchPublicKey 7200000 (AxiosError "timeout of 5000ms exceeded")
      (mkWorld (mkCache (VStr "PEM") (Some 1000)) 1)
    = (Throw fetch_failure, w') /\
    cache w' = mkCache (VStr "PEM") (Some 1000) /\
    net_calls w' = 2%nat.
Proof.
  apply (refresh_failure_throws 7200000 (AxiosError "timeout of 5000ms exceeded")
           (mkWorld (mkCache (VStr "PEM") (Some 1000)) 1)); reflexivity.
Defined.

(** C4: with a key in the cache (truthy key, non-zero timestamp) that was
    fetched less than one hour before each of the calls, any series of
    [fetchPublicKey] calls returns that same key every time, whatever the
    endpoint would have answered, and leaves the process state, request
    counter included, as it was: no request is sent. *)
Theorem fresh_cache_is_served k t0 calls w :
  truthy k = true ->
  t0 <> 0 ->
  cache w = mkCache k (Some t0) ->
  Forall (fun call => fst call - t0 < PUBLIC_KEY_CACHE_DURATION) calls ->
  fetch_many calls w = (List.map (fun _ => Return k) calls, w).
Proof.
  intros Hk Ht0 Hc Hfresh.
  induction Hfresh as [| [t net] rest Hage _ IH]; [reflexivity |].
  cbn [fetch_many List.map]. cbn [fst] in Hage.
  rewrite fetchPublicKey_hit.
  - rewrite IH, Hc. reflexivity.
  - rewrite Hc. apply populated_fresh_valid; assumption.
Qed.

Lemma fresh_cache_is_served_witness :
  fetch_many
    [ (1700000000500, AxiosError "connect ECONNREFUSED");
      (1700003599999, AxiosResponse (VObj [("publicKey", VStr "other")])) ]
    (mkWorld (mkCache (VStr "PEM") (Some 1700000000000)) 1)
  = ([Return (VStr "PEM"); Return (VStr "PEM")],
     mkWorld (mkCache (VStr "PEM") (Some 1700000000000)) 1).
Proof.
  apply (fresh_cache_is_served (VStr "PEM") 1700000000000
           [ (1700000000500, AxiosError "connect ECONNREFUSED");
             (1700003599999, AxiosResponse (VObj [("publicKey", VStr "other")])) ]
           (mkWorld (mkCache (VStr "PEM") (Some 1700000000000)) 1)).
  - reflexivity.
  - lia.
  - reflexivity.
  - repeat constructor; cbn; unfold PUBLIC_KEY_CACHE_DURATION; lia.
Defined.

(** C10: a call that throws throws "Unable to fetch public key" and leaves
    key and timestamp as they were, which is what happens whenever a fetch
    is made and fails; the cache changes only when the endpoint answered,
    and then to the received key together with the time of the call. *)
Theorem failed_fetch_keeps_cache t net w r w' :
  fetchPublicKey t net w = (r, w') ->
  (forall e, r = Throw e -> e = fetch_failure /\ cache w' = cache w) /\
  (cache_valid t (cache w) = false -> endpoint_fails net = true ->
   r = Throw fetch_failure /\ cache w' = cache w) /\
  (cache w' <> cache w ->
   exists data k,
     net = AxiosResponse data /\ prop data "publicKey" = Return k /\
     r = Return k /\ cache w' = mkCache k (Some t)).
Proof.
  intros Hrun.
  destruct (cache_valid t (cache w)) eqn:Hv.
  - rewrite (fetchPublicKey_hit _ _ _ Hv) in Hrun. injection Hrun as <- <-.
    repeat split; try discriminate; try congruence.
  - destruct (endpoint_fails net) eqn:Hf.
    + rewrite (fetchPublicKey_miss_fails _ _ _ Hv Hf) in Hrun.
      injection Hrun as <- <-. cbn [cache].
      repeat split; try congruence.
    + destruct net as [msg | data]; [discriminate Hf |].
      destruct (endpoint_answers_prop _ Hf) as [k Hk].
      rewrite (fetchPublicKey_miss_answers _ _ _ _ Hv Hk) in Hrun.
      injection Hrun as <- <-. cbn [cache].
      repeat split; try discriminate.
      intros _. exists data, k. repeat split; assumption.
Qed.

Lemma failed_fetch_keeps_cache_witness :
  (forall e, @Throw jsval fetch_failure = Throw e ->
             e = fetch_failure /\
             cache (mkWorld (mkCache (VStr "PEM") (Some 1000)) 4)
             = cache (mkWorld (mkCache (VStr "PEM") (Some 1000)) 3)) /\
  fetchPublicKey 9000000 (AxiosResponse VNull)
    (mkWorld (mkCache (VStr "PEM") (Some 1000)) 3)
  = (Throw fetch_failure, mkWorld (mkCache (VStr "PEM") (Some 1000)) 4).
Proof.
  split; [| reflexivity].
  apply (failed_fetch_keeps_cache 9000000 (AxiosResponse VNull)
           (mkWorld (mkCache (VStr "PEM") (Some 1000)) 3)
           (Throw fetch_failure)
           (mkWorld (mkCache (VStr "PEM") (Some 1000)) 4)).
  reflexivity.
Defined.

(** ** The verification middleware *)

Section Middleware.
Context `{Jwt.Backend}.

Implicit Types (e : env) (req : request) (w : world).

Lemma no_bearer_string s :
  no_bearer (VStr s) = Return (negb (startsWith "Bearer " s)).
Proof. destruct s; reflexivity. Qed.

Lemma bearer_prefix_token token :
  startsWith "Bearer " ("Bearer " +:+ token) = true /\
  substring_from 7 ("Bearer " +:+ token) = token.
Proof. split; reflexivity. Qed.

(** The path of a request that carries a bearer credential: key, then
    token, and every failure through the [catch] block. *)
Lemma verifyJWT_bearer e req w s :
  header req "authorization" = VStr s ->
  startsWith "Bearer " s = true ->
  verifyJWT e req w =
  match fetchPublicKey (now e) (endpoint e) w with
  | (Return key, w') =>
    match Jwt.verify (substring_from 7 s) key (verify_now e) with
    | Return decoded => (Return (Next (annotate decoded req)), w')
    | Throw error => (Return (verify_failure error), w')
    end
  | (Throw error, w') => (Return (verify_failure error), w')
  end.
Proof.
  intros Hh Hs. unfold verifyJWT, try_catch, bind, lift, ret.
  rewrite Hh, no_bearer_string, Hs. cbn [negb bearer_token].
  destruct (fetchPublicKey (now e) (endpoint e) w) as [[key | error] w'];
    [| reflexivity].
  destruct (Jwt.verify (substring_from 7 s) key (verify_now e)); reflexivity.
Qed.

Lemma optionalJWT_bearer e req w s :
  header req "authorization" = VStr s ->
  startsWith "Bearer " s = true ->
  optionalJWT e req w =
  match fetchPublicKey (now e) (endpoint e) w with
  | (Return key, w') =>
    match Jwt.verify (substring_from 7 s) key (verify_now e) with
    | Return decoded => (Return (Next (annotate decoded req)), w')
    | Throw _ => (Return (Next req), w')
    end
  | (Throw _, w') => (Return (Next req), w')
  end.
Proof.
  intros Hh Hs. unfold optionalJWT, try_catch, bind, lift, ret.
  rewrite Hh, no_bearer_string, Hs. cbn [negb bearer_token].
  destruct (fetchPublicKey (now e) (endpoint e) w) as [[key | error] w'];
    [| reflexivity].
  destruct (Jwt.verify (substring_from 7 s) key (verify_now e)); reflexivity.
Qed.

Lemma verify_failure_responds error :
  exists status body, verify_failure error = Responded status body.
Proof.
  unfold verify_failure.
  destruct (String.eqb (name error) "JsonWebTokenError"); [eauto |].
  destruct (String.eqb (name error) "TokenExpiredError"); eauto.
Qed.

(** A request goes past [verifyJWT] only with a bearer header, a key from
    the cache and a token that [jwt.verify] accepted under that key. *)
Lemma verifyJWT_next_inv e req w req' w' :
  verifyJWT e req w = (Return (Next req'), w') ->
  exists s key decoded,
    header req "authorization" = VStr s /\
    startsWith "Bearer " s = true /\
    fetchPublicKey (now e) (endpoint e) w = (Return key, w') /\
    Jwt.verify (substring_from 7 s) key (verify_now e) = Return decoded /\
    req' = annotate decoded req.
Proof.
  unfold verifyJWT, try_catch, bind, lift, ret.
  destruct (header req "authorization") as [| | b | n | s | items | fields] eqn:Hh;
    unfold no_bearer; cbn [truthy negb bearer_token]; try discriminate.
  - destruct b; cbn [negb]; discriminate.
  - destruct (n =? 0); cbn [negb]; discriminate.
  - destruct (String.eqb s "") eqn:Hs; cbn [negb]; [discriminate |].
    destruct (startsWith "Bearer " s) eqn:Hb; cbn [negb]; [| discriminate].
    destruct (fetchPublicKey (now e) (endpoint e) w) as [[key | error] w1] eqn:Hk.
    + destruct (Jwt.verify (substring_from 7 s) key (verify_now e))
        as [decoded | error] eqn:Hv.
      * intros [= <- <-]. exists s, key, decoded. repeat split; assumption.
      * destruct (verify_failure_responds error) as (st & bd & ->). discriminate.
    + destruct (verify_failure_responds error) as (st & bd & ->). discriminate.
Qed.

Lemma header_annotate_id decoded req :
  header (annotate decoded req) "x-user-id" = Jwt.claim decoded "userId".
Proof.
  unfold header, annotate, set_header; cbn [headers].
  rewrite lookup_insert_ne by done.
  rewrite lookup_insert_ne by done.
  now rewrite lookup_insert_eq.
Qed.

Lemma header_annotate_email decoded req :
  header (annotate decoded req) "x-user-email" = Jwt.claim decoded "email".
Proof.
  unfold header, annotate, set_header; cbn [headers].
  rewrite lookup_insert_ne by done.
  now rewrite lookup_insert_eq.
Qed.

Lemma header_annotate_role decoded req :
  header (annotate decoded req) "x-user-role" = Jwt.claim decoded "role".
Proof.
  unfold header, annotate, set_header; cbn [headers].
  now rewrite lookup_insert_eq.
Qed.

Lemma header_annotate_other decoded req h :
  h <> "x-user-id" -> h <> "x-user-email" -> h <> "x-user-role" ->
  header (annotate decoded req) h = header req h.
Proof.
  intros Hid Hemail Hrole.
  unfold header, annotate, set_header; cbn [headers].
  now rewrite !lookup_insert_ne by congruence.
Qed.

(** [optionalJWT] never answers the request itself, and what it passes on
    is the request as it came or the request annotated from a verified
    token. *)
Lemma optionalJWT_always_next e req w :
  exists req' w',
    optionalJWT e req w = (Return (Next req'), w') /\
    (req' = req \/ exists decoded, req' = annotate decoded req).
Proof.
  unfold optionalJWT, try_catch, bind, lift, ret.
  destruct (no_bearer (header req "authorization")) as [[|] | error];
    try (eexists _, _; split; [reflexivity | now left]).
  destruct (bearer_token (header req "authorization")) as [token | error];
    try (eexists _, _; split; [reflexivity | now left]).
  destruct (fetchPublicKey (now e) (endpoint e) w) as [[key | error] w1];
    try (eexists _, _; split; [reflexivity | now left]).
  destruct (Jwt.verify token key (verify_now e)) as [decoded | error];
    try (eexists _, _; split; [reflexivity | now left]).
  eexists _, _; split; [reflexivity | right; eauto].
Qed.

End Middleware.

Section Verification.
Context `{Jwt.Backend}.

Implicit Types (e : env) (req : request) (w : world).

(** C3: a request that [verifyJWT] lets through carries, in the three
    identity headers, the claims of the token that [jwt.verify] accepted
    under the cached key, and any other request with the same
    [Authorization] header, whatever it carries under those names, is let
    through with the very same three values. *)
Theorem forwarded_identity_is_from_token e req w req' w' :
  verifyJWT e req w = (Return (Next req'), w') ->
  (exists s key decoded,
     header req "authorization" = VStr s /\
     fetchPublicKey (now e) (endpoint e) w = (Return key, w') /\
     Jwt.verify (substring_from 7 s) key (verify_now e) = Return decoded /\
     header req' "x-user-id" = Jwt.claim decoded "userId" /\
     header req' "x-user-email" = Jwt.claim decoded "email" /\
     header req' "x-user-role" = Jwt.claim decoded "role") /\
  (forall req2,
     header req2 "authorization" = header req "authorization" ->
     exists req2',
       verifyJWT e req2 w = (Return (Next req2'), w') /\
       header req2' "x-user-id" = header req' "x-user-id" /\
       header req2' "x-user-email" = header req' "x-user-email" /\
       header req2' "x-user-role" = header req' "x-user-role").
Proof.
  intros Hrun.
  destruct (verifyJWT_next_inv _ _ _ _ _ Hrun)
    as (s & key & decoded & Hh & Hs & Hk & Hv & ->).
  split.
  - exists s, key, decoded.
    rewrite header_annotate_id, header_annotate_email, header_annotate_role.
    repeat split; assumption.
  - intros req2 Hsame. exists (annotate decoded req2). split.
    + rewrite (verifyJWT_bearer e req2 w s) by congruence.
      now rewrite Hk, Hv.
    + now rewrite !header_annotate_id, !header_annotate_email,
        !header_annotate_role.
Qed.

End Verification.

(** ** Routing *)

Section Routing.
Context `{Jwt.Backend}.

Implicit Types (e : env) (req : request) (w : world) (cfg : App.config).

(** No mounted proxy sits on the health path. *)
Lemma health_is_not_mounted p :
  App.health_path p = true -> App.classify App.routes p = None.
Proof.
  unfold App.health_path. intros Hp.
  apply orb_prop in Hp as [Hp | Hp]; apply String.eqb_eq in Hp;
    cbv [App.classify App.routes App.mounted]; rewrite Hp; reflexivity.
Qed.

Lemma app_mounted cfg ts e req w a b :
  App.classify App.routes (path req) = Some (a, b) ->
  App.app cfg ts e req w =
  match a with
  | App.Public => (Return (App.Proxied b req), w)
  | App.Protected =>
    match verifyJWT e req w with
    | (Return (Responded status body), w') => (Return (App.Replied status body), w')
    | (Return (Next req'), w') => (Return (App.Proxied b req'), w')
    | (Throw error, w') => (Throw error, w')
    end
  end.
Proof.
  intros Hc. unfold App.app.
  destruct (App.health_path (path req)) eqn:Hp.
  - apply health_is_not_mounted in Hp. congruence.
  - rewrite andb_false_r, Hc. destruct a; [reflexivity |].
    unfold bind, ret.
    destruct (verifyJWT e req w) as [[[status body | req'] | error] w'];
      reflexivity.
Qed.

(** C7: with no key in the cache and a key endpoint that fails, a request
    for a protected route that presents a bearer credential is answered
    with status 500, a server error and not a client error, after one
    attempt to fetch; it is not handed to a proxy and the cache stays
    as it was. *)
Theorem missing_key_is_server_error cfg ts e req w s b :
  App.classify App.routes (path req) = Some (App.Protected, b) ->
  header req "authorization" = VStr s ->
  startsWith "Bearer " s = true ->
  truthy (publicKey (cache w)) = false ->
  endpoint_fails (endpoint e) = true ->
  exists d,
    App.app cfg ts e req w = (Return d, mkWorld (cache w) (S (net_calls w))) /\
    d = App.Replied 500
          (error_body "Internal server error" "Token verification failed") /\
    App.forwarded d = false /\
    server_error 500 /\ ~ client_error 500.
Proof.
  intros Hc Hh Hs Hnokey Hfail. eexists. split; [| split; [reflexivity |]].
  - rewrite (app_mounted cfg ts e req w _ _ Hc).
    rewrite (verifyJWT_bearer e req w s Hh Hs).
    rewrite fetchPublicKey_miss_fails; [reflexivity | | assumption].
    unfold cache_valid. now rewrite Hnokey.
  - split; [reflexivity |]. unfold server_error, client_error. lia.
Qed.


End Routing.

(** ** Runs of the middleware and of the routes on concrete requests *)

Lemma forwarded_identity_is_from_token_witness :
  header (annotate Toy.alice_claims (Toy.bearing "alice.jwt")) "x-user-id" = VStr "u1" /\
  header (annotate Toy.alice_claims (Toy.bearing "alice.jwt")) "x-user-role" = VStr "admin" /\
  exists req2',
    verifyJWT (H := Toy.issuer_backend) Toy.soon
      (mkRequest "GET" "/api/users" {[ "authorization" := VStr "Bearer alice.jwt" ]})
      Toy.warm
    = (Return (Next req2'), Toy.warm) /\
    header req2' "x-user-id"
    = header (annotate Toy.alice_claims (Toy.bearing "alice.jwt")) "x-user-id" /\
    header req2' "x-user-email"
    = header (annotate Toy.alice_claims (Toy.bearing "alice.jwt")) "x-user-email" /\
    header req2' "x-user-role"
    = header (annotate Toy.alice_claims (Toy.bearing "alice.jwt")) "x-user-role".
Proof.
  split; [reflexivity |]. split; [reflexivity |].
  apply (forwarded_identity_is_from_token (H := Toy.issuer_backend) Toy.soon
           (Toy.bearing "alice.jwt") Toy.warm
           (annotate Toy.alice_claims (Toy.bearing "alice.jwt")) Toy.warm).
  - vm_compute. reflexivity.
  - vm_compute. reflexivity.
Defined.

Lemma missing_key_is_server_error_witness :
  exists d,
    App.app (H := Toy.issuer_backend) (App.mkConfig VUndefined VUndefined)
      "2023-11-14T22:15:00.000Z" Toy.soon (Toy.bearing "alice.jwt") Toy.cold
    = (Return d, mkWorld initial_cache 1) /\
    d = App.Replied 500
          (error_body "Internal server error" "Token verification failed") /\
    App.forwarded d = false /\
    server_error 500 /\ ~ client_error 500.
Proof.
  apply (missing_key_is_server_error (H := Toy.issuer_backend)
           (App.mkConfig VUndefined VUndefined) "2023-11-14T22:15:00.000Z"
           Toy.soon (Toy.bearing "alice.jwt") Toy.cold "Bearer alice.jwt"
           App.UserService); reflexivity.
Defined.



(** ** Tokens: minting and verifying *)

Section Tokens.
Context `{Jwt.Backend}.

Lemma assoc_absent k (fields : list (string * jsval)) :
  k ∉ fields.*1 -> assoc k fields = None.
Proof.
  induction fields as [| [k' v] rest IH]; [reflexivity |].
  cbn [assoc fmap list_fmap fst]. intros Hk.
  apply not_elem_of_cons in Hk as [Hne Hrest].
  destruct (String.eqb k k') eqn:Heq.
  - apply String.eqb_eq in Heq. contradiction.
  - apply IH, Hrest.
Qed.

(** Dropping the [undefined] properties does not change what reading a
    property gives, for an object whose property names are distinct. *)
Lemma field_json_object k (fields : list (string * jsval)) :
  NoDup fields.*1 ->
  field k (Jwt.json_object fields) = field k fields.
Proof.
  unfold field. induction fields as [| [k' v] rest IH]; [reflexivity |].
  cbn [fmap list_fmap fst]. intros Hnd.
  apply NoDup_cons in Hnd as [Hk' Hrest].
  cbn [Jwt.json_object List.filter snd assoc].
  destruct (is_undefined v) eqn:Hv; cbn [negb].
  - fold (Jwt.json_object rest). rewrite (IH Hrest).
    destruct (String.eqb k k') eqn:Heq; [| reflexivity].
    apply String.eqb_eq in Heq; subst k'.
    rewrite (assoc_absent _ _ Hk'). destruct v; try discriminate Hv. reflexivity.
  - cbn [assoc]. fold (Jwt.json_object rest).
    destruct (String.eqb k k'); [reflexivity |]. apply IH, Hrest.
Qed.

(** The claims of a minted credential read back as they were given, and
    the credential carries its expiry and no not-before claim. *)
Lemma signed_payload_claims userId email role t0 :
  let body := Jwt.signed_payload
                [("userId", userId); ("email", email); ("role", role)] t0 in
  Jwt.claim body "userId" = userId /\
  Jwt.claim body "email" = email /\
  Jwt.claim body "role" = role /\
  Jwt.claim body "exp" = VNum (Jwt.clockTimestamp t0 + Jwt.expiresIn_24h) /\
  Jwt.claim body "nbf" = VUndefined.
Proof.
  cbn zeta. unfold Jwt.signed_payload, Jwt.claim.
  rewrite !field_json_object by (cbn; compute_done).
  repeat split; reflexivity.
Qed.

Lemma verify_accepts token j pem t :
  Jwt.jws_decode token = Some j ->
  Jwt.alg j = "RS256" ->
  pem <> "" ->
  Jwt.rs256_verify pem (Jwt.signing_input j) (Jwt.signature j) = true ->
  Jwt.check_nbf (Jwt.payload j) t = Return tt ->
  Jwt.check_exp (Jwt.payload j) t = Return tt ->
  Jwt.verify token (VStr pem) t = Return (Jwt.payload j).
Proof.
  intros Hd Ha Hp Hs Hn He. unfold Jwt.verify. rewrite Hd, Ha, Hs, Hn, He.
  cbn [truthy]. apply String.eqb_neq in Hp. rewrite Hp. reflexivity.
Qed.

Lemma verify_expired token j pem t :
  Jwt.jws_decode token = Some j ->
  Jwt.alg j = "RS256" ->
  pem <> "" ->
  Jwt.rs256_verify pem (Jwt.signing_input j) (Jwt.signature j) = true ->
  Jwt.check_nbf (Jwt.payload j) t = Return tt ->
  Jwt.check_exp (Jwt.payload j) t = Throw Jwt.TokenExpiredError ->
  Jwt.verify token (VStr pem) t = Throw Jwt.TokenExpiredError.
Proof.
  intros Hd Ha Hp Hs Hn He. unfold Jwt.verify. rewrite Hd, Ha, Hs, Hn, He.
  cbn [truthy]. apply String.eqb_neq in Hp. rewrite Hp. reflexivity.
Qed.

(** A signature that does not verify under the key is an invalid token,
    before expiry is looked at. *)
Lemma verify_bad_signature token j pem t :
  Jwt.jws_decode token = Some j ->
  Jwt.rs256_verify pem (Jwt.signing_input j) (Jwt.signature j) = false ->
  exists msg, Jwt.verify token (VStr pem) t = Throw (Jwt.JsonWebTokenError msg).
Proof.
  intros Hd Hs. unfold Jwt.verify. rewrite Hd, Hs.
  destruct (negb (truthy (VStr pem))); [eauto |].
  destruct (negb (String.eqb (Jwt.alg j) "RS256")); eauto.
Qed.

Lemma check_exp_past p exp t :
  Jwt.claim p "exp" = VNum exp ->
  exp <= Jwt.clockTimestamp t ->
  Jwt.check_exp p t = Throw Jwt.TokenExpiredError.
Proof.
  intros Hc Hle. unfold Jwt.check_exp. rewrite Hc.
  apply Z.leb_le in Hle. now rewrite Hle.
Qed.

Lemma check_exp_future p exp t :
  Jwt.claim p "exp" = VNum exp ->
  Jwt.clockTimestamp t < exp ->
  Jwt.check_exp p t = Return tt.
Proof.
  intros Hc Hlt. unfold Jwt.check_exp. rewrite Hc.
  apply Z.leb_gt in Hlt. now rewrite Hlt.
Qed.

End Tokens.

Section RoundTrip.
Context `{Jwt.Backend}.

(** C5: a credential minted by [issue] for (userId, email, role), when it
    is serialised faithfully, presented as a bearer token before the
    second of its expiry, and checked under a key that verifies the
    issuer's signature, is accepted: [jwt.verify] returns claims whose
    userId, email and role are the values given to [issue], and
    [verifyJWT] passes the request on with exactly these values in the
    identity headers. *)
Theorem issued_credential_verifies privateKey pem ue userId email role sig ge req w w' :
  Jwt.rs256_sign privateKey
    ("RS256", UserService.credential_claims ue userId email role) = Some sig ->
  Jwt.jws_decode
    (Jwt.jws_encode
       (Jwt.mkJws "RS256" (UserService.credential_claims ue userId email role) sig))
  = Some (Jwt.mkJws "RS256" (UserService.credential_claims ue userId email role) sig) ->
  pem <> "" ->
  Jwt.rs256_verify pem
    ("RS256", UserService.credential_claims ue userId email role) sig = true ->
  Jwt.clockTimestamp (verify_now ge)
  < Jwt.clockTimestamp (UserService.now ue) + Jwt.expiresIn_24h ->
  fetchPublicKey (now ge) (endpoint ge) w = (Return (VStr pem), w') ->
  header req "authorization"
  = VStr ("Bearer " +:+
          Jwt.jws_encode
            (Jwt.mkJws "RS256" (UserService.credential_claims ue userId email role) sig)) ->
  exists token decoded,
    UserService.issue privateKey ue userId email role = Return token /\
    Jwt.verify token (VStr pem) (verify_now ge) = Return decoded /\
    Jwt.claim decoded "userId" = userId /\
    Jwt.claim decoded "email" = email /\
    Jwt.claim decoded "role" = role /\
    verifyJWT ge req w = (Return (Next (annotate decoded req)), w') /\
    header (annotate decoded req) "x-user-id" = userId /\
    header (annotate decoded req) "x-user-email" = email /\
    header (annotate decoded req) "x-user-role" = role.
Proof.
  intros Hsign Hcodec Hpem Hverify Htime Hkey Hheader.
  set (body := UserService.credential_claims ue userId email role) in *.
  set (j := Jwt.mkJws "RS256" body sig) in *.
  destruct (signed_payload_claims userId email role (UserService.now ue))
    as (Hid & Hemail & Hrole & Hexp & Hnbf).
  fold (UserService.credential_claims ue userId email role) in Hid, Hemail, Hrole, Hexp, Hnbf.
  fold body in Hid, Hemail, Hrole, Hexp, Hnbf.
  assert (Hv : Jwt.verify (Jwt.jws_encode j) (VStr pem) (verify_now ge) = Return body).
  { apply (verify_accepts _ j); try assumption; try reflexivity.
    - unfold Jwt.check_nbf. cbn [Jwt.payload j]. now rewrite Hnbf.
    - apply (check_exp_future _ _ _ Hexp Htime). }
  exists (Jwt.jws_encode j), body.
  split. { unfold UserService.issue, Jwt.sign. fold (UserService.credential_claims ue userId email role).
           fold body. now rewrite Hsign. }
  split; [exact Hv |].
  do 3 (split; [assumption |]).
  split.
  - rewrite (verifyJWT_bearer ge req w _ Hheader)
      by apply bearer_prefix_token.
    rewrite Hkey.
    replace (substring_from 7 ("Bearer " +:+ Jwt.jws_encode j))
      with (Jwt.jws_encode j) by reflexivity.
    now rewrite Hv.
  - rewrite header_annotate_id, header_annotate_email, header_annotate_role.
    repeat split; assumption.
Qed.

End RoundTrip.

Lemma issued_credential_verifies_witness :
  exists token decoded,
    UserService.issue (H := Toy.issuer_backend) "k1" Toy.minting
      (VStr "u1") (VStr "a@example.com") (VStr "admin") = Return token /\
    Jwt.verify (H := Toy.issuer_backend) token (VStr "k1") 1700000100000
    = Return decoded /\
    Jwt.claim decoded "userId" = VStr "u1" /\
    Jwt.claim decoded "email" = VStr "a@example.com" /\
    Jwt.claim decoded "role" = VStr "admin" /\
    verifyJWT (H := Toy.issuer_backend) Toy.soon (Toy.bearing "alice.jwt") Toy.warm
    = (Return (Next (annotate decoded (Toy.bearing "alice.jwt"))), Toy.warm) /\
    header (annotate decoded (Toy.bearing "alice.jwt")) "x-user-id" = VStr "u1" /\
    header (annotate decoded (Toy.bearing "alice.jwt")) "x-user-email"
    = VStr "a@example.com" /\
    header (annotate decoded (Toy.bearing "alice.jwt")) "x-user-role" = VStr "admin".
Proof.
  apply (issued_credential_verifies (H := Toy.issuer_backend) "k1" "k1" Toy.minting
           (VStr "u1") (VStr "a@example.com") (VStr "admin") "signed-by:k1"
           Toy.soon (Toy.bearing "alice.jwt") Toy.warm Toy.warm).
  - reflexivity.
  - reflexivity.
  - discriminate.
  - reflexivity.
  - vm_compute. reflexivity.
  - reflexivity.
  - reflexivity.
Defined.

(** ** Expiry *)

(** C6, as the specification states it, fails: a credential whose expiry
    is long past and whose signature is not the issuer's is answered with
    "Invalid token", not with "Token expired". *)
Lemma expired_forgery_is_invalid_not_expired :
  Jwt.jws_decode (Backend := Toy.forger_backend) "forged.jwt" = Some Toy.forged_token /\
  Jwt.claim (Jwt.payload Toy.forged_token) "exp" = VNum 1700086400 /\
  1700086400 < Jwt.clockTimestamp (verify_now Toy.later) /\
  verifyJWT (H := Toy.forger_backend) Toy.later (Toy.bearing "forged.jwt") Toy.warm
  = (Return (Responded 401 (error_body "Unauthorized" "Invalid token")),
     mkWorld (mkCache (VStr "k1") (Some 1800000000000)) 2) /\
  fst (verifyJWT (H := Toy.forger_backend) Toy.later (Toy.bearing "forged.jwt") Toy.warm)
  <> Return (Responded 401 (error_body "Unauthorized" "Token expired")).
Proof.
  split; [reflexivity |]. split; [reflexivity |].
  split; [vm_compute; reflexivity |].
  split; [vm_compute; reflexivity |].
  vm_compute. discriminate.
Qed.

Section Expiry.
Context `{Jwt.Backend}.

(** C6 (amended): for a bearer credential that decodes, names RS256 and
    passes the not-before check (as every credential of the issuer does,
    which carries none), and whose expiry second is not after the current
    second: if its signature verifies under the key of the cache the
    answer is 401 "Token expired", which differs from the 401 "Invalid
    token"; if its signature does not verify the answer is 401 "Invalid
    token", expired or not. *)
Theorem expired_credential_is_rejected e req w w' s j pem exp :
  header req "authorization" = VStr s ->
  startsWith "Bearer " s = true ->
  fetchPublicKey (now e) (endpoint e) w = (Return (VStr pem), w') ->
  pem <> "" ->
  Jwt.jws_decode (substring_from 7 s) = Some j ->
  Jwt.alg j = "RS256" ->
  Jwt.check_nbf (Jwt.payload j) (verify_now e) = Return tt ->
  Jwt.claim (Jwt.payload j) "exp" = VNum exp ->
  exp <= Jwt.clockTimestamp (verify_now e) ->
  (Jwt.rs256_verify pem (Jwt.signing_input j) (Jwt.signature j) = true ->
   verifyJWT e req w
   = (Return (Responded 401 (error_body "Unauthorized" "Token expired")), w')) /\
  (Jwt.rs256_verify pem (Jwt.signing_input j) (Jwt.signature j) = false ->
   verifyJWT e req w
   = (Return (Responded 401 (error_body "Unauthorized" "Invalid token")), w')) /\
  Responded 401 (error_body "Unauthorized" "Token expired")
  <> Responded 401 (error_body "Unauthorized" "Invalid token").
Proof.
  intros Hh Hs Hkey Hpem Hd Ha Hnbf Hexp Hpast.
  rewrite (verifyJWT_bearer e req w s Hh Hs), Hkey.
  split; [| split; [| discriminate]].
  - intros Hsig.
    rewrite (verify_expired _ j pem _ Hd Ha Hpem Hsig Hnbf
               (check_exp_past _ _ _ Hexp Hpast)).
    reflexivity.
  - intros Hsig.
    destruct (verify_bad_signature _ j pem (verify_now e) Hd Hsig) as [msg ->].
    reflexivity.
Qed.

End Expiry.

Lemma expired_credential_is_rejected_witness :
  verifyJWT (H := Toy.issuer_backend) Toy.later (Toy.bearing "alice.jwt") Toy.warm
  = (Return (Responded 401 (error_body "Unauthorized" "Token expired")),
     mkWorld (mkCache (VStr "k1") (Some 1800000000000)) 2).
Proof.
  apply (expired_credential_is_rejected (H := Toy.issuer_backend) Toy.later
           (Toy.bearing "alice.jwt") Toy.warm
           (mkWorld (mkCache (VStr "k1") (Some 1800000000000)) 2)
           "Bearer alice.jwt" Toy.alice_token "k1" 1700086400).
  - reflexivity.
  - reflexivity.
  - reflexivity.
  - discriminate.
  - reflexivity.
  - reflexivity.
  - reflexivity.
  - reflexivity.
  - vm_compute. discriminate.
  - reflexivity.
Defined.

(** ** Optional verification *)

Section Optional.
Context `{Jwt.Backend}.

(** C2, at a request without credential that names itself an admin in
    the identity headers: [optionalJWT] passes the request on as it came,
    the caller's values still in place. *)
Theorem optionalJWT_passes_caller_identity e w :
  optionalJWT e Toy.anonymous w = (Return (Next Toy.anonymous), w) /\
  header Toy.anonymous "x-user-id" = VStr "u1" /\
  header Toy.anonymous "x-user-email" = VUndefined /\
  header Toy.anonymous "x-user-role" = VStr "admin".
Proof. repeat split; reflexivity. Qed.

(** The same with a credential that fails verification. *)
Lemma optionalJWT_failure_keeps_headers e req w s :
  header req "authorization" = VStr s ->
  startsWith "Bearer " s = true ->
  (forall key w', fetchPublicKey (now e) (endpoint e) w = (Return key, w') ->
                  exists error, Jwt.verify (substring_from 7 s) key (verify_now e)
                                = Throw error) ->
  exists w', optionalJWT e req w = (Return (Next req), w').
Proof.
  intros Hh Hs Hfail. rewrite (optionalJWT_bearer e req w s Hh Hs).
  destruct (fetchPublicKey (now e) (endpoint e) w) as [[key | error] w1] eqn:Hk;
    [| eauto].
  destruct (Hfail key w1 eq_refl) as [error ->]. eauto.
Qed.

End Optional.

(** ** Registration *)

Section Registration.
Context `{Jwt.Backend}.

Implicit Types (e : UserService.env) (us : UserService.users).

Lemma without_password_new_user e name email hashed role :
  UserService.without_password (UserService.new_user e name email hashed role)
  = [ ("id", VStr (UserService.uuid e)); ("name", name); ("email", email);
      ("role", role);
      ("createdAt", VStr (UserService.createdAt e));
      ("updatedAt", VStr (UserService.updatedAt e)) ].
Proof. reflexivity. Qed.

Lemma role_or_default_given given :
  is_undefined given = false -> UserService.role_or_default given = given.
Proof. unfold UserService.role_or_default. now intros ->. Qed.

(** C9: a registration with name, email and a password text, for an email
    not yet taken, stores a user whose role is the [role] of the request
    body when the body has one, and 'user' when it has none, answers 201,
    and the token of the answer is the issuer's signature over claims
    with that same role; the gateway hands registrations to the user
    service without verifying anything. *)
Theorem register_takes_role_from_body privateKey e fields us pw sig :
  truthy (field "name" fields) = true ->
  truthy (field "email" fields) = true ->
  field "password" fields = VStr pw ->
  pw <> "" ->
  UserService.find_by_email (field "email" fields) us = None ->
  Jwt.rs256_sign privateKey
    ("RS256",
     UserService.credential_claims e (VStr (UserService.uuid e)) (field "email" fields)
       (UserService.role_or_default (field "role" fields))) = Some sig ->
  exists user claims,
    UserService.register privateKey e (VObj fields) us
    = (Return (UserService.mkResponse 201
                 (VObj [ ("message", VStr "User registered successfully");
                         ("user", VObj (UserService.without_password user));
                         ("token", VStr (Jwt.jws_encode (Jwt.mkJws "RS256" claims sig))) ])),
       (us ++ [user])%list) /\
    Jwt.rs256_sign privateKey ("RS256", claims) = Some sig /\
    field "role" user = UserService.role_or_default (field "role" fields) /\
    field "role" (UserService.without_password user)
    = UserService.role_or_default (field "role" fields) /\
    Jwt.claim claims "role" = UserService.role_or_default (field "role" fields) /\
    (is_undefined (field "role" fields) = false ->
     UserService.role_or_default (field "role" fields) = field "role" fields) /\
    (field "role" fields = VUndefined ->
     UserService.role_or_default (field "role" fields) = VStr "user") /\
    App.classify App.routes "/api/auth/register" = Some (App.Public, App.UserService).
Proof.
  intros Hname Hemail Hpw Hpwne Hfresh Hsign.
  set (role := UserService.role_or_default (field "role" fields)) in *.
  set (email := field "email" fields) in *.
  exists (UserService.new_user e (field "name" fields) email
            (UserService.hash e pw) role),
         (UserService.credential_claims e (VStr (UserService.uuid e)) email role).
  destruct (signed_payload_claims (VStr (UserService.uuid e)) email role
              (UserService.now e)) as (_ & _ & Hrole & _).
  split.
  - unfold UserService.register, try_catch, bind, lift, ret, get, UserService.push.
    cbn [prop]. fold email. fold role.
    rewrite Hname, Hemail, Hpw. cbn [truthy].
    apply String.eqb_neq in Hpwne. rewrite Hpwne. cbn [negb orb].
    rewrite Hfresh. cbn [UserService.bcrypt_hash].
    unfold UserService.issue, Jwt.sign.
    replace (field "id" (UserService.new_user e (field "name" fields) email
                           (UserService.hash e pw) role))
      with (VStr (UserService.uuid e)) by reflexivity.
    replace (field "email" (UserService.new_user e (field "name" fields) email
                              (UserService.hash e pw) role))
      with email by reflexivity.
    replace (field "role" (UserService.new_user e (field "name" fields) email
                             (UserService.hash e pw) role))
      with role by reflexivity.
    fold (UserService.credential_claims e (VStr (UserService.uuid e)) email role).
    rewrite Hsign. reflexivity.
  - split; [exact Hsign |].
    split; [reflexivity |]. split; [reflexivity |].
    split; [exact Hrole |].
    split; [apply role_or_default_given |].
    split; [| reflexivity].
    subst role. unfold UserService.role_or_default. now intros ->.
Qed.

End Registration.

Lemma register_takes_role_from_body_witness :
  exists user claims,
    UserService.register (H := Toy.issuer_backend) "k1" Toy.minting
      (VObj [ ("name", VStr "Alice"); ("email", VStr "a@example.com");
              ("password", VStr "secret"); ("role", VStr "admin") ]) []
    = (Return (UserService.mkResponse 201
                 (VObj [ ("message", VStr "User registered successfully");
                         ("user", VObj (UserService.without_password user));
                         ("token", VStr "alice.jwt") ])),
       [user]) /\
    field "role" user = VStr "admin" /\
    Jwt.claim claims "role" = VStr "admin".
Proof.
  destruct (register_takes_role_from_body (H := Toy.issuer_backend) "k1" Toy.minting
              [ ("name", VStr "Alice"); ("email", VStr "a@example.com");
                ("password", VStr "secret"); ("role", VStr "admin") ] []
              "secret" "signed-by:k1")
    as (user & claims & Hrun & Hsig & Hrole & _ & Hclaim & _).
  - reflexivity.
  - reflexivity.
  - reflexivity.
  - discriminate.
  - reflexivity.
  - reflexivity.
  - exists user, claims. repeat split.
    + exact Hrun.
    + exact Hrole.
    + exact Hclaim.
Defined.

(** * Further properties of the gateway *)

Section GatewayMore.
Context `{Jwt.Backend}.

Implicit Types (e : env) (req : request) (w : world).

Lemma verify_failure_status error :
  exists body,
    verify_failure error = Responded 401 body \/
    verify_failure error = Responded 500 body.
Proof.
  unfold verify_failure.
  destruct (String.eqb (name error) "JsonWebTokenError"); [eauto |].
  destruct (String.eqb (name error) "TokenExpiredError"); eauto.
Qed.


(** What [verifyJWT] does with a header that is no bearer credential:
    the answer is fixed before the key cache is looked at. *)
Lemma verifyJWT_no_bearer e req w :
  no_bearer (header req "authorization") = Return true ->
  verifyJWT e req w
  = (Return (Responded 401 (error_body "Unauthorized" "No token provided")), w).
Proof.
  intros Hnb. unfold verifyJWT, try_catch, bind, lift, ret. now rewrite Hnb.
Qed.

Lemma no_bearer_cases v :
  no_bearer v = Return true \/
  (exists s, v = VStr s /\ startsWith "Bearer " s = true) \/
  (exists error, no_bearer v = Throw error).
Proof.
  destruct v as [| | b | n | s | items | fields]; unfold no_bearer;
    cbn [truthy negb]; auto.
  - destruct b; cbn [negb]; eauto.
  - destruct (n =? 0); cbn [negb]; eauto.
  - destruct (String.eqb s ""); cbn [negb]; auto.
    destruct (startsWith "Bearer " s) eqn:Hs; cbn [negb]; eauto.
  - eauto.
  - eauto.
Qed.

Lemma verifyJWT_header_error e req w error :
  no_bearer (header req "authorization") = Throw error ->
  verifyJWT e req w = (Return (verify_failure error), w).
Proof.
  intros Hnb. unfold verifyJWT, try_catch, bind, lift, ret. now rewrite Hnb.
Qed.

Lemma optionalJWT_no_bearer e req w :
  (no_bearer (header req "authorization") = Return true \/
   exists error, no_bearer (header req "authorization") = Throw error) ->
  optionalJWT e req w = (Return (Next req), w).
Proof.
  intros [Hnb | [error Hnb]];
    unfold optionalJWT, try_catch, bind, lift, ret; now rewrite Hnb.
Qed.


(** X2: soft and hard verification agree: what [verifyJWT] passes on,
    [optionalJWT] passes on the same way, and what [verifyJWT] answers
    itself, [optionalJWT] passes on as it came; the effect on the key
    cache is the same in both. *)
Theorem optionalJWT_follows_verifyJWT e req w :
  exists o w',
    verifyJWT e req w = (Return o, w') /\
    optionalJWT e req w
    = (Return (Next match o with Next req' => req' | Responded _ _ => req end), w').
Proof.
  destruct (no_bearer_cases (header req "authorization"))
    as [Hnb | [(s & Hh & Hs) | (error & Hnb)]].
  - eexists _, _. split; [apply verifyJWT_no_bearer, Hnb |].
    apply optionalJWT_no_bearer. now left.
  - rewrite (verifyJWT_bearer e req w s Hh Hs), (optionalJWT_bearer e req w s Hh Hs).
    destruct (fetchPublicKey (now e) (endpoint e) w) as [[key | error] w'].
    + destruct (Jwt.verify (substring_from 7 s) key (verify_now e))
        as [decoded | error].
      * eexists _, _. split; reflexivity.
      * destruct (verify_failure_responds error) as (st & bd & ->).
        eexists _, _. split; reflexivity.
    + destruct (verify_failure_responds error) as (st & bd & ->).
      eexists _, _. split; reflexivity.
  - rewrite (verifyJWT_header_error e req w error Hnb).
    destruct (verify_failure_responds error) as (st & bd & ->).
    eexists _, _. split; [reflexivity |].
    apply optionalJWT_no_bearer. eauto.
Qed.

(** X3: when [verifyJWT] passes a request on, method, path and every
    header other than the three identity headers are as they came; the
    bearer credential itself travels on to the backend. *)
Theorem verifyJWT_forwards_the_rest e req w req' w' :
  verifyJWT e req w = (Return (Next req'), w') ->
  method req' = method req /\
  path req' = path req /\
  header req' "authorization" = header req "authorization" /\
  (forall h, h <> "x-user-id" -> h <> "x-user-email" -> h <> "x-user-role" ->
             header req' h = header req h).
Proof.
  intros Hrun.
  destruct (verifyJWT_next_inv _ _ _ _ _ Hrun)
    as (s & key & decoded & _ & _ & _ & _ & ->).
  repeat split.
  - now apply header_annotate_other.
  - intros h. apply header_annotate_other.
Qed.

End GatewayMore.

Section GatewayTokens.
Context `{Jwt.Backend}.

Implicit Types (e : env) (req : request) (w : world).

Lemma verify_without_key token key t :
  truthy key = false ->
  exists msg, Jwt.verify token key t = Throw (Jwt.JsonWebTokenError msg).
Proof.
  intros Hk. unfold Jwt.verify. rewrite Hk. cbn [negb].
  destruct (Jwt.jws_decode token); eauto.
Qed.

Lemma verify_other_algorithm token j key t :
  Jwt.jws_decode token = Some j ->
  Jwt.alg j <> "RS256" ->
  exists msg, Jwt.verify token key t = Throw (Jwt.JsonWebTokenError msg).
Proof.
  intros Hd Ha. unfold Jwt.verify. rewrite Hd.
  destruct (negb (truthy key)); [eauto |].
  apply String.eqb_neq in Ha. rewrite Ha. cbn [negb]. eauto.
Qed.

Lemma verify_undecodable token key t :
  Jwt.jws_decode token = None ->
  exists msg, Jwt.verify token key t = Throw (Jwt.JsonWebTokenError msg).
Proof. intros Hd. unfold Jwt.verify. rewrite Hd. eauto. Qed.

Lemma verifyJWT_rejects_invalid e req w s key w' msg :
  header req "authorization" = VStr s ->
  startsWith "Bearer " s = true ->
  fetchPublicKey (now e) (endpoint e) w = (Return key, w') ->
  Jwt.verify (substring_from 7 s) key (verify_now e)
  = Throw (Jwt.JsonWebTokenError msg) ->
  verifyJWT e req w
  = (Return (Responded 401 (error_body "Unauthorized" "Invalid token")), w').
Proof.
  intros Hh Hs Hk Hv. now rewrite (verifyJWT_bearer e req w s Hh Hs), Hk, Hv.
Qed.

Lemma verifyJWT_accepts e req w s pem w' j :
  header req "authorization" = VStr s ->
  startsWith "Bearer " s = true ->
  fetchPublicKey (now e) (endpoint e) w = (Return (VStr pem), w') ->
  pem <> "" ->
  Jwt.jws_decode (substring_from 7 s) = Some j ->
  Jwt.alg j = "RS256" ->
  Jwt.rs256_verify pem (Jwt.signing_input j) (Jwt.signature j) = true ->
  Jwt.check_nbf (Jwt.payload j) (verify_now e) = Return tt ->
  Jwt.check_exp (Jwt.payload j) (verify_now e) = Return tt ->
  verifyJWT e req w = (Return (Next (annotate (Jwt.payload j) req)), w').
Proof.
  intros Hh Hs Hk Hpem Hd Ha Hsig Hn He.
  rewrite (verifyJWT_bearer e req w s Hh Hs), Hk.
  now rewrite (verify_accepts _ j pem _ Hd Ha Hpem Hsig Hn He).
Qed.

(** X4: a request for a protected route that has no [Authorization]
    header, or one that does not start with "Bearer ", is answered 401
    "No token provided"; it is not handed to a proxy and the key cache is
    neither read nor refreshed, whatever state it is in. *)
Theorem protected_route_needs_bearer cfg ts e req w b :
  App.classify App.routes (path req) = Some (App.Protected, b) ->
  (header req "authorization" = VUndefined \/
   exists s, header req "authorization" = VStr s /\ startsWith "Bearer " s = false) ->
  App.app cfg ts e req w
  = (Return (App.Replied 401 (error_body "Unauthorized" "No token provided")), w).
Proof.
  intros Hc Hh. rewrite (app_mounted cfg ts e req w _ _ Hc).
  rewrite verifyJWT_no_bearer; [reflexivity |].
  destruct Hh as [-> | (s & -> & Hs)]; [reflexivity |].
  now rewrite no_bearer_string, Hs.
Qed.

(** X5: with a key text at hand that is not empty, a bearer token
    that decodes but names an algorithm other than RS256, or whose
    signature does not verify under the key, is answered 401 "Invalid
    token" and the request is not passed on. *)
Theorem unverifiable_token_is_invalid e req w s pem w' j :
  header req "authorization" = VStr s ->
  startsWith "Bearer " s = true ->
  fetchPublicKey (now e) (endpoint e) w = (Return (VStr pem), w') ->
  pem <> "" ->
  Jwt.jws_decode (substring_from 7 s) = Some j ->
  (Jwt.alg j <> "RS256" \/
   Jwt.rs256_verify pem (Jwt.signing_input j) (Jwt.signature j) = false) ->
  verifyJWT e req w
  = (Return (Responded 401 (error_body "Unauthorized" "Invalid token")), w').
Proof.
  intros Hh Hs Hk Hpem Hd Hbad.
  assert (exists msg, Jwt.verify (substring_from 7 s) (VStr pem) (verify_now e)
                      = Throw (Jwt.JsonWebTokenError msg)) as [msg Hv].
  { destruct Hbad as [Ha | Hsig].
    - apply (verify_other_algorithm _ j); assumption.
    - apply (verify_bad_signature _ j); assumption. }
  apply (verifyJWT_rejects_invalid e req w s (VStr pem) w' msg); assumption.
Qed.

Lemma verify_without_key_throws token key t :
  truthy key = false -> exists error, Jwt.verify token key t = Throw error.
Proof.
  intros Hk. destruct (verify_without_key token key t Hk) as [msg ->]. eauto.
Qed.

(** X7: when the key endpoint answers with a body that holds no usable
    [publicKey] (the property is missing, [null] or empty), the fetch
    does not fail: the falsy value is stored with the time of the call.
    The request that caused the fetch is not passed on, it is answered
    with status 401 or 500; and the cache so filled is valid at no time,
    so that every later call of [fetchPublicKey] on it sends a request
    again. *)
Theorem answer_without_key_is_cached e req w s data k :
  cache_valid (now e) (cache w) = false ->
  endpoint e = AxiosResponse data ->
  prop data "publicKey" = Return k ->
  truthy k = false ->
  header req "authorization" = VStr s ->
  startsWith "Bearer " s = true ->
  fetchPublicKey (now e) (endpoint e) w
  = (Return k, mkWorld (mkCache k (Some (now e))) (S (net_calls w))) /\
  (exists status body,
     verifyJWT e req w
     = (Return (Responded status body),
        mkWorld (mkCache k (Some (now e))) (S (net_calls w))) /\
     (status = 401 \/ status = 500)) /\
  (forall t, cache_valid t (mkCache k (Some (now e))) = false) /\
  (forall t net n,
     net_calls (snd (fetchPublicKey t net (mkWorld (mkCache k (Some (now e))) n)))
     = S n).
Proof.
  intros Hv He Hk Hfalsy Hh Hs.
  assert (Hfetch : fetchPublicKey (now e) (endpoint e) w
                   = (Return k, mkWorld (mkCache k (Some (now e))) (S (net_calls w)))).
  { rewrite He. apply fetchPublicKey_miss_answers; assumption. }
  assert (Hnever : forall t, cache_valid t (mkCache k (Some (now e))) = false).
  { intros t. unfold cache_valid. cbn [publicKey]. now rewrite Hfalsy. }
  split; [exact Hfetch |]. split; [| split; [exact Hnever |]].
  - rewrite (verifyJWT_bearer e req w s Hh Hs), Hfetch.
    destruct (verify_without_key_throws (substring_from 7 s) k (verify_now e) Hfalsy)
      as [error ->].
    destruct (verify_failure_status error) as [body [-> | ->]]; eauto.
  - intros t net n.
    destruct (endpoint_fails net) eqn:Hf.
    + rewrite fetchPublicKey_miss_fails; [reflexivity | apply Hnever | exact Hf].
    + destruct net as [msg | data']; [discriminate Hf |].
      destruct (endpoint_answers_prop _ Hf) as [k' Hk'].
      rewrite (fetchPublicKey_miss_answers t data' k'); [reflexivity | apply Hnever | exact Hk'].
Qed.

End GatewayTokens.

Section CacheLife.

Implicit Types (w : world) (t : Z).

Lemma begin_all_length ts w : length (fst (begin_all ts w)) = length ts.
Proof.
  revert w. induction ts as [| t ts IH]; intros w; [reflexivity |].
  cbn [begin_all]. destruct (fetch_begin t w) as [r w1].
  specialize (IH w1). destruct (begin_all ts w1) as [rs w2].
  cbn [fst length] in *. now rewrite IH.
Qed.

Lemma begin_all_misses ts w :
  Forall (fun t => cache_valid t (cache w) = false) ts ->
  begin_all ts w
  = (List.map Awaiting ts, mkWorld (cache w) (length ts + net_calls w)).
Proof.
  revert w. induction ts as [| t ts IH]; intros w Hall.
  - destruct w; reflexivity.
  - inversion Hall as [| ? ? Ht Hts]; subst.
    cbn [begin_all List.map length]. unfold fetch_begin. rewrite Ht.
    rewrite (IH (mkWorld (cache w) (S (net_calls w)))) by exact Hts.
    cbn [cache net_calls]. do 2 f_equal. lia.
Qed.

Lemma begin_all_hits ts k stamp n :
  Forall (fun t => cache_valid t (mkCache k stamp) = true) ts ->
  begin_all ts (mkWorld (mkCache k stamp) n)
  = (List.map (fun _ => Served k) ts, mkWorld (mkCache k stamp) n).
Proof.
  induction ts as [| t ts IH]; intros Hall; [reflexivity |].
  inversion Hall as [| ? ? Ht Hts]; subst.
  cbn [begin_all List.map]. unfold fetch_begin. cbn [cache publicKey].
  rewrite Ht. now rewrite (IH Hts).
Qed.

(** [fetchPublicKey] is its two halves run without anything in between:
    the part up to the [await] of line 19, and, when a request was sent,
    the part after it. *)
Lemma fetchPublicKey_phases t net w :
  fetchPublicKey t net w
  = match fetch_begin t w with
    | (Served k, w1) => (Return k, w1)
    | (Awaiting t0, w1) => fetch_settle t0 net w1
    end.
Proof.
  unfold fetch_begin.
  destruct (cache_valid t (cache w)) eqn:Hv.
  - now rewrite fetchPublicKey_hit.
  - unfold fetch_settle. cbn [cache net_calls].
    destruct (endpoint_fails net) eqn:Hf.
    + rewrite (fetchPublicKey_miss_fails _ _ _ Hv Hf).
      destruct net as [msg | data]; [reflexivity |].
      destruct data; cbn in Hf; try discriminate Hf; reflexivity.
    + destruct net as [msg | data]; [discriminate Hf |].
      destruct (endpoint_answers_prop _ Hf) as [k Hk].
      rewrite (fetchPublicKey_miss_answers _ _ _ _ Hv Hk). now rewrite Hk.
Qed.

(** X6: the key cache spares requests only once an answer has been
    stored.  [fetchPublicKey] tests the cache (line 13), then waits for
    the key endpoint (line 19), and writes the cache when the answer is
    there (lines 20-21); calls that test the cache while it is not valid
    and before that answer has arrived are not merged, each of them sends a
    request of its own.  Once an answer holding a truthy key has been
    stored, by a call made at a time other than 0, every call that finds
    this entry in the cache and starts less than an hour after the time
    of the call that fetched it is given this key without any request. *)
Theorem fetches_overlap_until_stored t data k early later w :
  prop data "publicKey" = Return k ->
  truthy k = true ->
  t <> 0 ->
  Forall (fun t' => cache_valid t' (cache w) = false) (t :: early) ->
  Forall (fun t' => t' - t < PUBLIC_KEY_CACHE_DURATION) later ->
  exists w1 w2,
    begin_all (t :: early) w = (Awaiting t :: List.map Awaiting early, w1) /\
    net_calls w1 = S (length early + net_calls w) /\
    fetch_settle t (AxiosResponse data) w1 = (Return k, w2) /\
    w2 = mkWorld (mkCache k (Some t)) (net_calls w1) /\
    begin_all later w2 = (List.map (fun _ => Served k) later, w2).
Proof.
  intros Hk Hkey Ht Hearly Hlater.
  eexists _, _. split; [| split; [| split; [| split]]].
  - rewrite (begin_all_misses _ _ Hearly). cbn [List.map]. reflexivity.
  - cbn [net_calls length]. lia.
  - unfold fetch_settle. rewrite Hk. cbn [net_calls cache]. reflexivity.
  - reflexivity.
  - cbn [net_calls]. apply begin_all_hits.
    eapply Forall_impl; [exact Hlater |]. cbn beta. intros t' Hage.
    apply populated_fresh_valid; assumption.
Qed.


End CacheLife.

(** * Further properties of the route table *)

Section RoutesMore.
Context `{Jwt.Backend}.

Implicit Types (e : env) (req : request) (w : world) (cfg : App.config).

Lemma startsWith_append a s :
  startsWith a s = true -> exists rest, s = a +:+ rest.
Proof.
  revert s. induction a as [| c a IH]; intros s Hs.
  - exists s. reflexivity.
  - destruct s as [| c' s]; [discriminate Hs |]. cbn [startsWith] in Hs.
    destruct (Ascii.eqb c c') eqn:Hc; [| discriminate Hs].
    apply Ascii.eqb_eq in Hc. subst c'.
    destruct (IH s Hs) as [rest ->]. exists rest. reflexivity.
Qed.

Lemma mounted_inv mount p :
  App.mounted mount p = true ->
  toLowerCase p = mount \/ exists rest, toLowerCase p = (mount +:+ "/") +:+ rest.
Proof.
  unfold App.mounted. intros Hm. apply orb_prop in Hm as [Hm | Hm].
  - left. now apply String.eqb_eq.
  - right. now apply startsWith_append.
Qed.

Lemma lower_ascii_idempotent c : lower_ascii (lower_ascii c) = lower_ascii c.
Proof. destruct c as [[] [] [] [] [] [] [] []]; reflexivity. Qed.

Lemma toLowerCase_idempotent s : toLowerCase (toLowerCase s) = toLowerCase s.
Proof.
  induction s as [| c s IH]; [reflexivity |].
  cbn [toLowerCase]. now rewrite lower_ascii_idempotent, IH.
Qed.

Lemma classify_by_lower_case table p q :
  toLowerCase p = toLowerCase q -> App.classify table p = App.classify table q.
Proof.
  intros Hpq. induction table as [| [[mount a] b] rest IH]; [reflexivity |].
  cbn [App.classify]. unfold App.mounted. now rewrite Hpq, IH.
Qed.

Lemma classify_inv table p a b :
  App.classify table p = Some (a, b) ->
  exists mount, In (mount, a, b) table /\ App.mounted mount p = true.
Proof.
  induction table as [| [[m a0] b0] rest IH]; cbn [App.classify]; [discriminate |].
  destruct (App.mounted m p) eqn:Hm.
  - intros [= <- <-]. exists m. split; [now left | exact Hm].
  - intros Hc. destruct (IH Hc) as (mount & Hin & Hmount).
    exists mount. split; [now right | exact Hmount].
Qed.

Lemma app_proxied_inv cfg ts e req w b req' w' :
  App.app cfg ts e req w = (Return (App.Proxied b req'), w') ->
  (App.classify App.routes (path req) = Some (App.Public, b) /\
   req' = req /\ w' = w) \/
  (App.classify App.routes (path req) = Some (App.Protected, b) /\
   verifyJWT e req w = (Return (Next req'), w')).
Proof.
  unfold App.app.
  destruct (App.handles_get (method req) && App.health_path (path req));
    [discriminate |].
  destruct (App.classify App.routes (path req)) as [[[|] b0] |].
  - intros [= <- <- <-]. now left.
  - unfold bind, ret.
    destruct (verifyJWT e req w) as [[[status body | req1] | error] w1];
      try discriminate.
    intros [= <- <- <-]. now right.
  - destruct (App.handles_get (method req)); discriminate.
Qed.

Lemma gateway_proxied_inv f cfg ts e req w b req' w' :
  App.gateway f cfg ts e req w = (Return (App.Proxied b req'), w') ->
  App.app cfg ts e req w = (Return (App.Proxied b req'), w').
Proof.
  unfold App.gateway.
  destruct (String.eqb (toLowerCase (method req)) "options"); [discriminate |].
  destruct (App.over_limit f); [discriminate |].
  destruct (negb (App.handles_get (method req) && App.health_path (path req))
            && negb (bool_decide (is_Some (App.classify App.routes (path req))))
            && negb (App.decodable (path req))).
  - unfold App.error_answer, ret. discriminate.
  - trivial.
Qed.

(** X8: with the mounts as [index.js] registers them (lines 87-95), the
    only requests that the Express layers hand to a proxy without a
    verified token are requests for the login, register and public-key
    mounts under [/api/auth]: they go to the user service as they came,
    and the key cache is not touched.  Every other request handed to a
    proxy, and so every one handed to the task service, lies under a
    mount registered with [verifyJWT] and is the request that [verifyJWT]
    passed on.  (The layers are those of HTTP requests; a WebSocket
    upgrade, which the task proxy takes from the server itself under
    [ws: true], is not a request of these layers.) *)
Theorem unverified_traffic_is_auth_only f cfg ts e req w b req' w' :
  App.gateway f cfg ts e req w = (Return (App.Proxied b req'), w') ->
  (b = App.UserService /\ req' = req /\ w' = w /\
   exists mount,
     In mount ["/api/auth/login"; "/api/auth/register"; "/api/auth/public-key"] /\
     App.mounted mount (path req) = true) \/
  (verifyJWT e req w = (Return (Next req'), w') /\
   exists mount,
     In (mount, App.Protected, b) App.routes /\
     App.mounted mount (path req) = true).
Proof.
  intros Hg. apply gateway_proxied_inv, app_proxied_inv in Hg.
  destruct Hg as [(Hc & -> & ->) | (Hc & Hv)].
  - left. apply classify_inv in Hc as (mount & Hin & Hm).
    cbn [In App.routes] in Hin.
    assert (Hpublic : b = App.UserService /\
                      In mount ["/api/auth/login"; "/api/auth/register";
                                "/api/auth/public-key"]).
    { repeat (destruct Hin as [Hin | Hin];
              [first [discriminate Hin
                     | injection Hin as Hmount Hb; subst mount b;
                       split; [reflexivity | cbn [In]; tauto]] |]).
      contradiction. }
    destruct Hpublic as [-> Hmount]. repeat split. eauto.
  - right. split; [exact Hv |]. now apply classify_inv.
Qed.

(** X10: the mounts do not overlap: a path under one mount of the
    table is under no other, so the class and backend of that mount are
    the classification, whatever the order of registration. *)
Theorem classification_is_unambiguous mount a b p :
  In (mount, a, b) App.routes ->
  App.mounted mount p = true ->
  App.classify App.routes p = Some (a, b).
Proof.
  intros Hin Hm. apply mounted_inv in Hm.
  cbn [In App.routes] in Hin.
  repeat (destruct Hin as [[= <- <- <-] | Hin];
          [destruct Hm as [Hp | [rest Hp]];
           cbv [App.classify App.routes App.mounted]; rewrite Hp; reflexivity |]).
  contradiction.
Qed.

(** X11: a start-up whose eager fetch fails goes on with the cache
    empty, and the fetch is tried again by the first protected request
    that brings a bearer credential; if the endpoint still fails, that
    request is answered 500 and the cache is still empty. *)
Theorem startup_failure_is_retried cfg ts t0 net0 e req s b n :
  endpoint_fails net0 = true ->
  endpoint_fails (endpoint e) = true ->
  App.classify App.routes (path req) = Some (App.Protected, b) ->
  header req "authorization" = VStr s ->
  startsWith "Bearer " s = true ->
  App.startup t0 net0 (mkWorld initial_cache n)
  = (Return tt, mkWorld initial_cache (S n)) /\
  App.app cfg ts e req (mkWorld initial_cache (S n))
  = (Return (App.Replied 500
               (error_body "Internal server error" "Token verification failed")),
     mkWorld initial_cache (S (S n))).
Proof.
  intros Hf0 Hf Hc Hh Hs. split.
  - unfold App.startup, try_catch, bind, ret.
    now rewrite fetchPublicKey_miss_fails.
  - rewrite (app_mounted cfg ts e req _ _ _ Hc).
    rewrite (verifyJWT_bearer e req _ s Hh Hs).
    now rewrite fetchPublicKey_miss_fails.
Qed.

(** X12: the fetch at start-up is not awaited (lines 45-48): until
    its answer is there the cache is empty, and a call of [fetchPublicKey]
    made in that time sends a request of its own.  Once the answer has
    arrived and has been stored, a request that reaches [verifyJWT] with
    this entry in the cache, less than an hour after the start-up call
    and with a bearer token that verifies under the stored key, is passed
    on by [verifyJWT] with the three identity headers set from the token,
    and no request is sent to the key endpoint for it. *)
Theorem startup_key_serves_requests t0 data pem e req s j :
  prop data "publicKey" = Return (VStr pem) ->
  pem <> "" ->
  t0 <> 0 ->
  now e - t0 < PUBLIC_KEY_CACHE_DURATION ->
  header req "authorization" = VStr s ->
  startsWith "Bearer " s = true ->
  Jwt.jws_decode (substring_from 7 s) = Some j ->
  Jwt.alg j = "RS256" ->
  Jwt.rs256_verify pem (Jwt.signing_input j) (Jwt.signature j) = true ->
  Jwt.check_nbf (Jwt.payload j) (verify_now e) = Return tt ->
  Jwt.check_exp (Jwt.payload j) (verify_now e) = Return tt ->
  fetch_begin t0 (mkWorld initial_cache 0) = (Awaiting t0, mkWorld initial_cache 1) /\
  (forall t, fetch_begin t (mkWorld initial_cache 1)
             = (Awaiting t, mkWorld initial_cache 2)) /\
  fetch_settle t0 (AxiosResponse data) (mkWorld initial_cache 1)
  = (Return (VStr pem), mkWorld (mkCache (VStr pem) (Some t0)) 1) /\
  verifyJWT e req (mkWorld (mkCache (VStr pem) (Some t0)) 1)
  = (Return (Next (annotate (Jwt.payload j) req)),
     mkWorld (mkCache (VStr pem) (Some t0)) 1).
Proof.
  intros Hk Hpem Ht0 Hage Hh Hs Hd Ha Hsig Hn He.
  split; [reflexivity |]. split; [intros t; reflexivity |]. split.
  - unfold fetch_settle. now rewrite Hk.
  - apply (verifyJWT_accepts e req _ s pem
             (mkWorld (mkCache (VStr pem) (Some t0)) 1) j);
      try assumption.
    apply fetchPublicKey_hit. apply populated_fresh_valid; try assumption.
    cbn [truthy]. apply String.eqb_neq in Hpem. now rewrite Hpem.
Qed.

End RoutesMore.

(** * Further properties of the user service *)

Section Accounts.
Context `{Jwt.Backend}.
Variable privateKey : string.

Implicit Types (e : UserService.env) (us : UserService.users).

Lemma register_object e fields us :
  UserService.register privateKey e (VObj fields) us =
  if negb (truthy (field "name" fields)) || negb (truthy (field "email" fields))
     || negb (truthy (field "password" fields))
  then (Return UserService.missing_fields, us)
  else
    match UserService.find_by_email (field "email" fields) us with
    | Some _ => (Return UserService.email_taken, us)
    | None =>
      match UserService.bcrypt_hash e (field "password" fields) with
      | Throw error =>
        (Return (UserService.mkResponse 500
                   (VObj [ ("error", VStr "Registration failed");
                           ("message", VStr (message error)) ])), us)
      | Return hashed =>
        let user := UserService.new_user e (field "name" fields) (field "email" fields)
                      hashed (UserService.role_or_default (field "role" fields)) in
        match UserService.issue privateKey e (VStr (UserService.uuid e))
                (field "email" fields)
                (UserService.role_or_default (field "role" fields)) with
        | Return token =>
          (Return (UserService.mkResponse 201
                     (VObj [ ("message", VStr "User registered successfully");
                             ("user", VObj (UserService.without_password user));
                             ("token", VStr token) ])),
           (us ++ [user])%list)
        | Throw error =>
          (Return (UserService.mkResponse 500
                     (VObj [ ("error", VStr "Registration failed");
                             ("message", VStr (message error)) ])),
           (us ++ [user])%list)
        end
      end
    end.
Proof.
  unfold UserService.register, try_catch, bind, lift, ret, get, UserService.push.
  cbn [prop].
  destruct (negb (truthy (field "name" fields)) || negb (truthy (field "email" fields))
            || negb (truthy (field "password" fields))); [reflexivity |].
  destruct (UserService.find_by_email (field "email" fields) us); [reflexivity |].
  destruct (UserService.bcrypt_hash e (field "password" fields)) as [hashed | error];
    [| reflexivity].
  cbn zeta.
  replace (field "id" (UserService.new_user e (field "name" fields)
                         (field "email" fields) hashed
                         (UserService.role_or_default (field "role" fields))))
    with (VStr (UserService.uuid e)) by reflexivity.
  replace (field "email" (UserService.new_user e (field "name" fields)
                            (field "email" fields) hashed
                            (UserService.role_or_default (field "role" fields))))
    with (field "email" fields) by reflexivity.
  replace (field "role" (UserService.new_user e (field "name" fields)
                           (field "email" fields) hashed
                           (UserService.role_or_default (field "role" fields))))
    with (UserService.role_or_default (field "role" fields)) by reflexivity.
  destruct (UserService.issue privateKey e (VStr (UserService.uuid e))
              (field "email" fields)
              (UserService.role_or_default (field "role" fields))); reflexivity.
Qed.

Lemma login_object e fields us :
  UserService.login privateKey e (VObj fields) us =
  if negb (truthy (field "email" fields)) || negb (truthy (field "password" fields))
  then
    (Return (UserService.mkResponse 400
               (VObj [ ("error", VStr "Missing credentials");
                       ("message", VStr "Email and password are required") ])), us)
  else
    match UserService.find_by_email (field "email" fields) us with
    | None => (Return UserService.authentication_failed, us)
    | Some user =>
      match UserService.bcrypt_compare e (field "password" fields)
              (field "password" user) with
      | Throw error =>
        (Return (UserService.mkResponse 500
                   (VObj [ ("error", VStr "Login failed");
                           ("message", VStr (message error)) ])), us)
      | Return false => (Return UserService.authentication_failed, us)
      | Return true =>
        match UserService.issue privateKey e (field "id" user) (field "email" user)
                (field "role" user) with
        | Return token =>
          (Return (UserService.mkResponse 200
                     (VObj [ ("message", VStr "Login successful");
                             ("user", VObj (UserService.without_password user));
                             ("token", VStr token) ])), us)
        | Throw error =>
          (Return (UserService.mkResponse 500
                     (VObj [ ("error", VStr "Login failed");
                             ("message", VStr (message error)) ])), us)
        end
      end
    end.
Proof.
  unfold UserService.login, try_catch, bind, lift, ret, get. cbn [prop].
  destruct (negb (truthy (field "email" fields))
            || negb (truthy (field "password" fields))); [reflexivity |].
  destruct (UserService.find_by_email (field "email" fields) us) as [user |];
    [| reflexivity].
  destruct (UserService.bcrypt_compare e (field "password" fields)
              (field "password" user)) as [[|] | error]; try reflexivity.
  destruct (UserService.issue privateKey e (field "id" user) (field "email" user)
              (field "role" user)); reflexivity.
Qed.

End Accounts.

Section AccountProperties.
Context `{Jwt.Backend}.
Variable privateKey : string.

Implicit Types (e : UserService.env) (us : UserService.users).

Lemma find_by_email_app email us u :
  UserService.find_by_email email (us ++ [u])%list =
  match UserService.find_by_email email us with
  | Some found => Some found
  | None => if strict_eq (field "email" u) email then Some u else None
  end.
Proof.
  unfold UserService.find_by_email.
  induction us as [| v us IH]; [reflexivity |].
  cbn [List.find app]. destruct (strict_eq (field "email" v) email);
    [reflexivity | exact IH].
Qed.

Lemma emails_distinct_after_app seen us u :
  UserService.emails_distinct_after seen (us ++ [u])%list =
  UserService.emails_distinct_after seen us &&
  match UserService.find_by_email (field "email" u) (seen ++ us)%list with
  | Some _ => false
  | None => true
  end.
Proof.
  revert seen. induction us as [| v us IH]; intros seen.
  - cbn [app UserService.emails_distinct_after]. rewrite app_nil_r.
    now destruct (UserService.find_by_email (field "email" u) seen).
  - cbn [app UserService.emails_distinct_after].
    destruct (UserService.find_by_email (field "email" v) seen); [reflexivity |].
    rewrite IH. now rewrite <- app_assoc.
Qed.

Lemma without_password_has_none user :
  field "password" (UserService.without_password user) = VUndefined.
Proof.
  unfold field. induction user as [| [k v] rest IH]; [reflexivity |].
  cbn [UserService.without_password List.filter fst].
  destruct (String.eqb k "password") eqn:Hk; cbn [negb]; [exact IH |].
  cbn [assoc]. rewrite String.eqb_sym, Hk. exact IH.
Qed.

(** What [register] does to the store, for any body: nothing, or one
    user appended whose email no stored user had. *)
Lemma register_store_effect e reqBody us :
  exists r us',
    UserService.register privateKey e reqBody us = (Return r, us') /\
    (us' = us \/
     exists user,
       us' = (us ++ [user])%list /\
       UserService.find_by_email (field "email" user) us = None).
Proof.
  destruct reqBody as [| | b | n | s | items | fields];
    try (eexists _, _; split; [reflexivity | now left]).
  rewrite register_object.
  destruct (negb (truthy (field "name" fields)) || negb (truthy (field "email" fields))
            || negb (truthy (field "password" fields)));
    [eexists _, _; split; [reflexivity | now left] |].
  destruct (UserService.find_by_email (field "email" fields) us) eqn:Hfind;
    [eexists _, _; split; [reflexivity | now left] |].
  destruct (UserService.bcrypt_hash e (field "password" fields)) as [hashed | error];
    [| eexists _, _; split; [reflexivity | now left]].
  cbn zeta.
  destruct (UserService.issue privateKey e (VStr (UserService.uuid e))
              (field "email" fields)
              (UserService.role_or_default (field "role" fields)));
    (eexists _, _; split; [reflexivity |]; right; eexists; split;
     [reflexivity | exact Hfind]).
Qed.

(** A registration during whose [await] nothing else is stored leaves
    the emails of the store pairwise distinct (under [===]) if they were. *)
Lemma register_alone_keeps_emails_distinct e reqBody us :
  UserService.emails_distinct us = true ->
  UserService.emails_distinct
    (snd (UserService.register privateKey e reqBody us)) = true.
Proof.
  intros Hinv.
  destruct (register_store_effect e reqBody us)
    as (r & us' & -> & [-> | (user & -> & Hfree)]); cbn [snd]; [exact Hinv |].
  unfold UserService.emails_distinct in *.
  rewrite emails_distinct_after_app, Hinv. cbn [app]. now rewrite Hfree.
Qed.

(** [register] is its two halves run with nothing in between. *)
Lemma register_phases e reqBody us :
  UserService.register privateKey e reqBody us
  = match UserService.register_begin reqBody us with
    | UserService.Answered r => (Return r, us)
    | UserService.Hashing name email password role =>
      UserService.register_finish privateKey e name email password role us
    end.
Proof.
  destruct reqBody as [| | b | n | s | items | fields]; try reflexivity.
  unfold UserService.register, UserService.register_begin,
    UserService.register_finish, try_catch, bind, lift, ret, get.
  cbn [prop].
  destruct (negb (truthy (field "name" fields)) || negb (truthy (field "email" fields))
            || negb (truthy (field "password" fields))); [reflexivity |].
  destruct (UserService.find_by_email (field "email" fields) us); reflexivity.
Qed.

Lemma register_begin_hashing reqBody us name email password role :
  UserService.register_begin reqBody us
  = UserService.Hashing name email password role ->
  prop reqBody "name" = Return name /\
  prop reqBody "email" = Return email /\
  prop reqBody "password" = Return password /\
  negb (truthy name) || negb (truthy email) || negb (truthy password) = false /\
  UserService.find_by_email email us = None.
Proof.
  unfold UserService.register_begin.
  destruct (prop reqBody "name") as [n |]; [| discriminate].
  destruct (prop reqBody "email") as [em |]; [| discriminate].
  destruct (prop reqBody "password") as [p |]; [| discriminate].
  destruct (prop reqBody "role") as [rg |]; [| discriminate].
  destruct (negb (truthy n) || negb (truthy em) || negb (truthy p)) eqn:Hm;
    [discriminate |].
  destruct (UserService.find_by_email em us) eqn:Hf; [discriminate |].
  intros [= <- <- <- <-]. repeat split; assumption.
Qed.

Lemma register_begin_role reqBody us name email password role :
  UserService.register_begin reqBody us
  = UserService.Hashing name email password role ->
  exists given, prop reqBody "role" = Return given.
Proof.
  unfold UserService.register_begin.
  destruct (prop reqBody "name"); [| discriminate].
  destruct (prop reqBody "email"); [| discriminate].
  destruct (prop reqBody "password"); [| discriminate].
  destruct (prop reqBody "role"); [eauto | discriminate].
Qed.

Lemma register_finish_stores e name email password role hashed us :
  UserService.bcrypt_hash e password = Return hashed ->
  exists r,
    UserService.register_finish privateKey e name email password role us
    = (Return r, (us ++ [UserService.new_user e name email hashed role])%list).
Proof.
  intros Hh.
  unfold UserService.register_finish, try_catch, bind, lift, ret, UserService.push.
  rewrite Hh.
  destruct (UserService.issue privateKey e _ _ _); eauto.
Qed.

(** X13: the test for a stored email (line 31) and the [push] of the
    new user (line 52) lie on the two sides of [await bcrypt.hash] (line
    40), so the test does not keep emails unique among registrations that
    overlap.  Take a store whose emails are pairwise distinct (under
    [===]) and two registrations for the same email text, both of which
    pass the test on this store and whose passwords [bcrypt] hashes.  The
    one that is resumed first stores its user, and the emails are still
    distinct; a registration for this email that starts now is refused
    with 409.  But the second one has passed its test already: when it is
    resumed it stores its user too, and the store then holds two users
    with the same email. *)
Theorem overlapping_registrations_share_email e1 e2 body1 body2 us s
    name1 password1 role1 name2 password2 role2 hashed1 hashed2 :
  UserService.emails_distinct us = true ->
  UserService.register_begin body1 us
  = UserService.Hashing name1 (VStr s) password1 role1 ->
  UserService.register_begin body2 us
  = UserService.Hashing name2 (VStr s) password2 role2 ->
  UserService.bcrypt_hash e1 password1 = Return hashed1 ->
  UserService.bcrypt_hash e2 password2 = Return hashed2 ->
  exists r1 r2 user1 user2,
    UserService.register_finish privateKey e1 name1 (VStr s) password1 role1 us
    = (Return r1, (us ++ [user1])%list) /\
    UserService.emails_distinct (us ++ [user1])%list = true /\
    UserService.register_begin body2 (us ++ [user1])%list
    = UserService.Answered UserService.email_taken /\
    UserService.register_finish privateKey e2 name2 (VStr s) password2 role2
      (us ++ [user1])%list
    = (Return r2, ((us ++ [user1]) ++ [user2])%list) /\
    field "email" user1 = VStr s /\
    field "email" user2 = VStr s /\
    UserService.emails_distinct ((us ++ [user1]) ++ [user2])%list = false.
Proof.
  intros Hinv Hb1 Hb2 Hh1 Hh2.
  apply register_begin_hashing in Hb1 as (_ & _ & _ & _ & Hfree).
  pose proof (register_begin_hashing _ _ _ _ _ _ Hb2) as (Hn & He & Hp & Hm & _).
  destruct (register_finish_stores e1 name1 (VStr s) password1 role1 hashed1 us Hh1)
    as [r1 Hf1].
  destruct (register_finish_stores e2 name2 (VStr s) password2 role2 hashed2
              (us ++ [UserService.new_user e1 name1 (VStr s) hashed1 role1])%list Hh2)
    as [r2 Hf2].
  assert (Hfound : exists found,
             UserService.find_by_email (VStr s)
               (us ++ [UserService.new_user e1 name1 (VStr s) hashed1 role1])%list
             = Some found).
  { rewrite find_by_email_app, Hfree.
    replace (field "email" (UserService.new_user e1 name1 (VStr s) hashed1 role1))
      with (VStr s) by reflexivity.
    cbn [strict_eq]. rewrite String.eqb_refl. eauto. }
  destruct Hfound as [found Hfound].
  exists r1, r2, (UserService.new_user e1 name1 (VStr s) hashed1 role1),
    (UserService.new_user e2 name2 (VStr s) hashed2 role2).
  split; [exact Hf1 |]. split; [| split; [| split; [exact Hf2 |]]].
  - unfold UserService.emails_distinct in *.
    rewrite emails_distinct_after_app, Hinv. cbn [app].
    replace (field "email" (UserService.new_user e1 name1 (VStr s) hashed1 role1))
      with (VStr s) by reflexivity.
    now rewrite Hfree.
  - unfold UserService.register_begin. rewrite Hn, He, Hp.
    destruct (register_begin_role body2 us name2 (VStr s) password2 role2 Hb2)
      as [given ->].
    rewrite Hm, Hfound. reflexivity.
  - split; [reflexivity |]. split; [reflexivity |].
    unfold UserService.emails_distinct.
    rewrite emails_distinct_after_app. cbn [app].
    replace (field "email" (UserService.new_user e2 name2 (VStr s) hashed2 role2))
      with (VStr s) by reflexivity.
    rewrite Hfound. apply andb_false_r.
Qed.

(** X14: [register] stores the user before it signs the token: when
    signing fails (the private key is not usable), the answer is 500
    "Registration failed" and yet the user is in the store, so that the
    same registration, tried again, is refused with 409. *)
Theorem register_stores_before_signing e e' fields us pw :
  truthy (field "name" fields) = true ->
  field "password" fields = VStr pw ->
  pw <> "" ->
  (exists s, field "email" fields = VStr s /\ s <> "") ->
  UserService.find_by_email (field "email" fields) us = None ->
  Jwt.rs256_sign privateKey
    ("RS256",
     UserService.credential_claims e (VStr (UserService.uuid e)) (field "email" fields)
       (UserService.role_or_default (field "role" fields))) = None ->
  exists user msg,
    UserService.register privateKey e (VObj fields) us
    = (Return (UserService.mkResponse 500
                 (VObj [ ("error", VStr "Registration failed");
                         ("message", VStr msg) ])),
       (us ++ [user])%list) /\
    field "email" user = field "email" fields /\
    UserService.register privateKey e' (VObj fields) (us ++ [user])%list
    = (Return UserService.email_taken, (us ++ [user])%list).
Proof.
  intros Hname Hpw Hpwne (s & Hemail & Hs) Hfree Hsign.
  assert (Hvalid : negb (truthy (field "name" fields))
                   || negb (truthy (field "email" fields))
                   || negb (truthy (field "password" fields)) = false).
  { rewrite Hname, Hemail, Hpw. cbn [truthy].
    apply String.eqb_neq in Hs, Hpwne. now rewrite Hs, Hpwne. }
  eexists _, _. split; [| split].
  - rewrite register_object, Hvalid, Hfree, Hpw. cbn [UserService.bcrypt_hash].
    cbn zeta. unfold UserService.issue, Jwt.sign.
    fold (UserService.credential_claims e (VStr (UserService.uuid e))
            (field "email" fields)
            (UserService.role_or_default (field "role" fields))).
    rewrite Hsign. reflexivity.
  - reflexivity.
  - rewrite register_object, Hvalid, find_by_email_app, Hfree.
    replace (field "email"
               (UserService.new_user e (field "name" fields) (field "email" fields)
                  (UserService.hash e pw)
                  (UserService.role_or_default (field "role" fields))))
      with (field "email" fields) by reflexivity.
    rewrite Hemail. cbn [strict_eq]. now rewrite String.eqb_refl.
Qed.

End AccountProperties.

Section Sessions.
Context `{Jwt.Backend}.
Variable privateKey : string.

Implicit Types (e : UserService.env) (us : UserService.users).

Lemma find_by_id_app userId us u :
  UserService.find_by_id userId (us ++ [u])%list =
  match UserService.find_by_id userId us with
  | Some found => Some found
  | None => if strict_eq (field "id" u) userId then Some u else None
  end.
Proof.
  unfold UserService.find_by_id.
  induction us as [| v us IH]; [reflexivity |].
  cbn [List.find app]. destruct (strict_eq (field "id" v) userId);
    [reflexivity | exact IH].
Qed.

(** X15: after a registration with a text email and password, a login
    with the same email and password, accepted by [bcrypt.compare]
    against the stored hash, answers 200 with the stored user, password
    left out, and a token signed over that user's id, email and the role
    it registered with; the store is as the registration left it. *)
Theorem login_after_register e1 e2 fields credentials us em pw sig :
  truthy (field "name" fields) = true ->
  field "email" fields = VStr em ->
  em <> "" ->
  field "password" fields = VStr pw ->
  pw <> "" ->
  UserService.find_by_email (VStr em) us = None ->
  field "email" credentials = VStr em ->
  field "password" credentials = VStr pw ->
  UserService.compare e2 pw (UserService.hash e1 pw) = true ->
  Jwt.rs256_sign privateKey
    ("RS256",
     UserService.credential_claims e2 (VStr (UserService.uuid e1)) (VStr em)
       (UserService.role_or_default (field "role" fields))) = Some sig ->
  exists user,
    snd (UserService.register privateKey e1 (VObj fields) us) = (us ++ [user])%list /\
    UserService.login privateKey e2 (VObj credentials) (us ++ [user])%list
    = (Return (UserService.mkResponse 200
                 (VObj [ ("message", VStr "Login successful");
                         ("user", VObj (UserService.without_password user));
                         ("token",
                          VStr (Jwt.jws_encode
                                  (Jwt.mkJws "RS256"
                                     (UserService.credential_claims e2
                                        (VStr (UserService.uuid e1)) (VStr em)
                                        (UserService.role_or_default
                                           (field "role" fields)))
                                     sig))) ])),
       (us ++ [user])%list) /\
    field "role" (UserService.without_password user)
    = UserService.role_or_default (field "role" fields).
Proof.
  intros Hname Hemail Hem Hpw Hpwne Hfree Hcemail Hcpw Hcompare Hsign.
  apply String.eqb_neq in Hem, Hpwne.
  exists (UserService.new_user e1 (field "name" fields) (VStr em)
            (UserService.hash e1 pw)
            (UserService.role_or_default (field "role" fields))).
  split; [| split; [| reflexivity]].
  - rewrite register_object, Hname, Hemail, Hpw. cbn [truthy].
    rewrite Hem, Hpwne. cbn [negb orb]. rewrite Hfree.
    cbn [UserService.bcrypt_hash]. cbn zeta.
    now destruct (UserService.issue privateKey e1 (VStr (UserService.uuid e1))
                    (VStr em) (UserService.role_or_default (field "role" fields))).
  - rewrite login_object, Hcemail, Hcpw. cbn [truthy].
    rewrite Hem, Hpwne. cbn [negb orb].
    rewrite find_by_email_app, Hfree.
    replace (field "email"
               (UserService.new_user e1 (field "name" fields) (VStr em)
                  (UserService.hash e1 pw)
                  (UserService.role_or_default (field "role" fields))))
      with (VStr em) by reflexivity.
    cbn [strict_eq]. rewrite String.eqb_refl.
    replace (field "password"
               (UserService.new_user e1 (field "name" fields) (VStr em)
                  (UserService.hash e1 pw)
                  (UserService.role_or_default (field "role" fields))))
      with (VStr (UserService.hash e1 pw)) by reflexivity.
    cbn [UserService.bcrypt_compare]. rewrite Hcompare.
    replace (field "id"
               (UserService.new_user e1 (field "name" fields) (VStr em)
                  (UserService.hash e1 pw)
                  (UserService.role_or_default (field "role" fields))))
      with (VStr (UserService.uuid e1)) by reflexivity.
    replace (field "role"
               (UserService.new_user e1 (field "name" fields) (VStr em)
                  (UserService.hash e1 pw)
                  (UserService.role_or_default (field "role" fields))))
      with (UserService.role_or_default (field "role" fields)) by reflexivity.
    replace (field "email"
               (UserService.new_user e1 (field "name" fields) (VStr em)
                  (UserService.hash e1 pw)
                  (UserService.role_or_default (field "role" fields))))
      with (VStr em) by reflexivity.
    unfold UserService.issue, Jwt.sign.
    fold (UserService.credential_claims e2 (VStr (UserService.uuid e1)) (VStr em)
            (UserService.role_or_default (field "role" fields))).
    now rewrite Hsign.
Qed.

(** X16: [login] never changes the user store and never lets an
    exception escape, whatever the body; an answer with status 200 holds
    a user object without a [password] property and a token text. *)
Theorem login_is_read_only e reqBody us :
  exists r,
    UserService.login privateKey e reqBody us = (Return r, us) /\
    (UserService.status r = 200 ->
     exists user token,
       UserService.body r
       = VObj [ ("message", VStr "Login successful");
                ("user", VObj user); ("token", VStr token) ] /\
       field "password" user = VUndefined).
Proof.
  destruct reqBody as [| | b | n | s | items | fields];
    try (eexists; split; [reflexivity | cbn; discriminate]).
  rewrite login_object.
  destruct (negb (truthy (field "email" fields))
            || negb (truthy (field "password" fields)));
    [eexists; split; [reflexivity | cbn; discriminate] |].
  destruct (UserService.find_by_email (field "email" fields) us) as [user |];
    [| eexists; split; [reflexivity | cbn; discriminate]].
  destruct (UserService.bcrypt_compare e (field "password" fields)
              (field "password" user)) as [[|] | error];
    try (eexists; split; [reflexivity | cbn; discriminate]).
  destruct (UserService.issue privateKey e (field "id" user) (field "email" user)
              (field "role" user)) as [token | error];
    [| eexists; split; [reflexivity | cbn; discriminate]].
  eexists. split; [reflexivity |]. intros _.
  eexists _, _. split; [reflexivity | apply without_password_has_none].
Qed.

(** X17: a login for an email that no user has and a login with a
    password that [bcrypt.compare] rejects get the very same answer,
    401 "Invalid email or password": the answer does not tell whether the
    email is registered. *)
Theorem login_failures_look_alike e fields us :
  truthy (field "email" fields) = true ->
  truthy (field "password" fields) = true ->
  (UserService.find_by_email (field "email" fields) us = None ->
   UserService.login privateKey e (VObj fields) us
   = (Return UserService.authentication_failed, us)) /\
  (forall user,
     UserService.find_by_email (field "email" fields) us = Some user ->
     UserService.bcrypt_compare e (field "password" fields) (field "password" user)
     = Return false ->
     UserService.login privateKey e (VObj fields) us
     = (Return UserService.authentication_failed, us)).
Proof.
  intros Hemail Hpw. split.
  - intros Hfind. now rewrite login_object, Hemail, Hpw, Hfind.
  - intros user Hfind Hcmp. now rewrite login_object, Hemail, Hpw, Hfind, Hcmp.
Qed.

End Sessions.

Section Identity.
Context `{Jwt.Backend}.
Variable privateKey : string.

Implicit Types (e : UserService.env) (us : UserService.users).

Lemma without_password_keeps k user :
  k <> "password" ->
  field k (UserService.without_password user) = field k user.
Proof.
  intros Hk. unfold field. induction user as [| [k' v] rest IH]; [reflexivity |].
  cbn [UserService.without_password List.filter fst assoc].
  destruct (String.eqb k' "password") eqn:Hk'; cbn [negb].
  - apply String.eqb_eq in Hk'. subst k'.
    apply String.eqb_neq in Hk. rewrite Hk. exact IH.
  - cbn [assoc]. destruct (String.eqb k k'); [reflexivity | exact IH].
Qed.

Lemma find_by_id_found userId us user :
  UserService.find_by_id userId us = Some user ->
  strict_eq (field "id" user) userId = true.
Proof.
  unfold UserService.find_by_id. intros Hfind.
  apply List.find_some in Hfind. tauto.
Qed.

Lemma strict_eq_string v s : strict_eq v (VStr s) = true -> v = VStr s.
Proof.
  destruct v; cbn [strict_eq]; try discriminate.
  intros Heq. apply String.eqb_eq in Heq. now subst.
Qed.

(** X18: [/me] answers for whoever the [x-user-id] header names: with
    the id of a stored user it answers 200 with that user's properties,
    [password] left out and [id] equal to the header; without the header
    (or with an empty one) it answers 401; the id of no stored user gets
    404. The store is never changed. *)
Theorem me_trusts_the_header reqHeaders us :
  (truthy (default VUndefined (reqHeaders !! "x-user-id")) = false ->
   exists body, UserService.me reqHeaders us
                = (Return (UserService.mkResponse 401 body), us)) /\
  (forall uid,
     reqHeaders !! "x-user-id" = Some (VStr uid) -> uid <> "" ->
     (UserService.find_by_id (VStr uid) us = None ->
      exists body, UserService.me reqHeaders us
                   = (Return (UserService.mkResponse 404 body), us)) /\
     (forall user,
        UserService.find_by_id (VStr uid) us = Some user ->
        UserService.me reqHeaders us
        = (Return (UserService.mkResponse 200
                     (VObj (UserService.without_password user))), us) /\
        field "id" (UserService.without_password user) = VStr uid /\
        field "password" (UserService.without_password user) = VUndefined)).
Proof.
  split.
  - intros Hfalsy. unfold UserService.me. rewrite Hfalsy. cbn [negb]. eauto.
  - intros uid Hh Huid. apply String.eqb_neq in Huid.
    unfold UserService.me, bind, get, ret. rewrite Hh. cbn [from_option id truthy].
    rewrite Huid. cbn [negb]. split.
    + intros ->. eauto.
    + intros user Hfind. rewrite Hfind. split; [reflexivity |]. split.
      * rewrite without_password_keeps by discriminate.
        apply strict_eq_string, (find_by_id_found _ us), Hfind.
      * apply without_password_has_none.
Qed.

(** X19: registration, gateway and [/me] fit together: the token that
    [register] returns for a new user, presented as bearer credential to
    [verifyJWT] before its expiry and checked under a key that verifies
    the issuer's signature, makes the gateway pass the request on with
    headers under which [/me] answers 200 with that same user, password
    left out. *)
Theorem registered_user_reaches_me e1 fields us em pw sig pem ge req w w' :
  truthy (field "name" fields) = true ->
  field "email" fields = VStr em ->
  em <> "" ->
  field "password" fields = VStr pw ->
  pw <> "" ->
  UserService.find_by_email (VStr em) us = None ->
  UserService.find_by_id (VStr (UserService.uuid e1)) us = None ->
  UserService.uuid e1 <> "" ->
  Jwt.rs256_sign privateKey
    ("RS256",
     UserService.credential_claims e1 (VStr (UserService.uuid e1)) (VStr em)
       (UserService.role_or_default (field "role" fields))) = Some sig ->
  Jwt.jws_decode
    (Jwt.jws_encode
       (Jwt.mkJws "RS256"
          (UserService.credential_claims e1 (VStr (UserService.uuid e1)) (VStr em)
             (UserService.role_or_default (field "role" fields))) sig))
  = Some (Jwt.mkJws "RS256"
            (UserService.credential_claims e1 (VStr (UserService.uuid e1)) (VStr em)
               (UserService.role_or_default (field "role" fields))) sig) ->
  pem <> "" ->
  Jwt.rs256_verify pem
    ("RS256",
     UserService.credential_claims e1 (VStr (UserService.uuid e1)) (VStr em)
       (UserService.role_or_default (field "role" fields))) sig = true ->
  Jwt.clockTimestamp (verify_now ge)
  < Jwt.clockTimestamp (UserService.now e1) + Jwt.expiresIn_24h ->
  fetchPublicKey (now ge) (endpoint ge) w = (Return (VStr pem), w') ->
  exists user token,
    UserService.register privateKey e1 (VObj fields) us
    = (Return (UserService.mkResponse 201
                 (VObj [ ("message", VStr "User registered successfully");
                         ("user", VObj (UserService.without_password user));
                         ("token", VStr token) ])),
       (us ++ [user])%list) /\
    (header req "authorization" = VStr ("Bearer " +:+ token) ->
     exists req',
       verifyJWT ge req w = (Return (Next req'), w') /\
       UserService.me (headers req') (us ++ [user])%list
       = (Return (UserService.mkResponse 200
                    (VObj (UserService.without_password user))),
          (us ++ [user])%list)).
Proof.
  intros Hname Hemail Hem Hpw Hpwne Hfree Hnew Huuid Hsign Hcodec Hpem Hsig Htime Hkey.
  set (role := UserService.role_or_default (field "role" fields)) in *.
  set (claims := UserService.credential_claims e1 (VStr (UserService.uuid e1))
                   (VStr em) role) in *.
  set (j := Jwt.mkJws "RS256" claims sig) in *.
  set (user := UserService.new_user e1 (field "name" fields) (VStr em)
                 (UserService.hash e1 pw) role).
  exists user, (Jwt.jws_encode j). split.
  - rewrite register_object, Hname, Hemail, Hpw. cbn [truthy].
    apply String.eqb_neq in Hem, Hpwne. rewrite Hem, Hpwne. cbn [negb orb].
    rewrite Hfree. cbn [UserService.bcrypt_hash]. cbn zeta.
    fold role. unfold UserService.issue, Jwt.sign.
    fold (UserService.credential_claims e1 (VStr (UserService.uuid e1)) (VStr em) role).
    fold claims. rewrite Hsign. reflexivity.
  - intros Hheader.
    destruct (signed_payload_claims (VStr (UserService.uuid e1)) (VStr em) role
                (UserService.now e1)) as (Hid & _ & _ & Hexp & Hnbf).
    fold (UserService.credential_claims e1 (VStr (UserService.uuid e1)) (VStr em) role)
      in Hid, Hexp, Hnbf.
    fold claims in Hid, Hexp, Hnbf.
    exists (annotate claims req). split.
    + apply (verifyJWT_accepts ge req w _ pem w' j Hheader);
        try assumption; try reflexivity.
      * unfold Jwt.check_nbf. cbn [Jwt.payload j]. now rewrite Hnbf.
      * apply (check_exp_future _ _ _ Hexp Htime).
    + unfold UserService.me, bind, get, ret.
      fold (header (annotate claims req) "x-user-id").
      rewrite header_annotate_id, Hid. cbn [truthy].
      apply String.eqb_neq in Huuid. rewrite Huuid. cbn [negb].
      rewrite find_by_id_app, Hnew.
      replace (field "id" user) with (VStr (UserService.uuid e1)) by reflexivity.
      cbn [strict_eq]. now rewrite String.eqb_refl.
Qed.

End Identity.

Section KeyEndpoint.

Implicit Types (w : world) (t : Z).

(** X20: the key endpoint and the gateway's fetch fit together: when
    the user service can read its public key file, a gateway without a
    valid cache that asks it obtains and stores the text of the file;
    when the file cannot be read, the endpoint answers 500, and the
    gateway's fetch fails with "Unable to fetch public key" and leaves
    the cache as it was. *)
Theorem key_endpoint_feeds_cache t w :
  cache_valid t (cache w) = false ->
  (forall pem,
     fetchPublicKey t (Wire.axios_sees (UserService.public_key (Return pem))) w
     = (Return (VStr pem), mkWorld (mkCache (VStr pem) (Some t)) (S (net_calls w)))) /\
  (forall error,
     UserService.status (UserService.public_key (Throw error)) = 500 /\
     fetchPublicKey t (Wire.axios_sees (UserService.public_key (Throw error))) w
     = (Throw fetch_failure, mkWorld (cache w) (S (net_calls w)))).
Proof.
  intros Hv. split.
  - intros pem. now apply fetchPublicKey_miss_answers.
  - intros error. split; [reflexivity |].
    now apply fetchPublicKey_miss_fails.
Qed.

End KeyEndpoint.

(** * Properties of the stores behind the gateway *)

Section Arrays.
Context {A : Type}.

Implicit Types (p : A -> bool) (l : list A).

Lemma find_index_lookup p l i :
  Obj.find_index p l = Some i ->
  exists x, l !! i = Some x /\ p x = true /\ List.find p l = Some x.
Proof.
  revert i. induction l as [| y l IH]; intros i; [discriminate |].
  cbn [Obj.find_index List.find]. destruct (p y) eqn:Hy.
  - intros [= <-]. exists y. auto.
  - destruct (Obj.find_index p l) as [j |]; [| discriminate].
    intros [= <-]. destruct (IH j eq_refl) as (x & Hx & Hp & Hf).
    exists x. auto.
Qed.

Lemma find_index_none p l :
  Obj.find_index p l = None -> List.find p l = None.
Proof.
  induction l as [| y l IH]; [reflexivity |].
  cbn [Obj.find_index List.find]. destruct (p y); [discriminate |].
  destruct (Obj.find_index p l); [discriminate | auto].
Qed.

Lemma find_index_fresh p l x :
  Obj.find_index p l = None -> p x = true ->
  Obj.find_index p (l ++ [x])%list = Some (length l).
Proof.
  intros Hnone Hx. induction l as [| y l IH].
  - cbn. now rewrite Hx.
  - cbn [Obj.find_index app length] in *. destruct (p y); [discriminate |].
    destruct (Obj.find_index p l); [discriminate |]. now rewrite IH.
Qed.

Lemma remove_at_last l x : Obj.remove_at (length l) (l ++ [x])%list = l.
Proof. induction l as [| y l IH]; [reflexivity |]. cbn. now rewrite IH. Qed.

Lemma lookup_last l x : (l ++ [x])%list !! length l = Some x.
Proof. induction l as [| y l IH]; [reflexivity | exact IH]. Qed.

Lemma replace_at_length i y l : length (Obj.replace_at i y l) = length l.
Proof.
  revert i. induction l as [| x l IH]; intros [| i]; cbn; auto.
Qed.

Lemma remove_at_length i l x :
  l !! i = Some x -> S (length (Obj.remove_at i l)) = length l.
Proof.
  revert i. induction l as [| y l IH]; intros [| i]; cbn; try discriminate; auto.
Qed.

Lemma replace_at_lookup i y l x :
  l !! i = Some x -> Obj.replace_at i y l !! i = Some y.
Proof.
  revert i. induction l as [| z l IH]; intros [| i]; cbn; try discriminate; auto.
Qed.

Lemma replace_at_other i j y l :
  i <> j -> Obj.replace_at i y l !! j = l !! j.
Proof.
  revert i j. induction l as [| z l IH]; intros [| i] [| j] Hij; cbn; auto;
    try congruence.
Qed.

(** Putting at the found place something that the test still accepts
    does not move what the search finds. *)
Lemma find_index_replace p l i y :
  Obj.find_index p l = Some i -> p y = true ->
  Obj.find_index p (Obj.replace_at i y l) = Some i.
Proof.
  revert i. induction l as [| x l IH]; intros i; [discriminate |].
  cbn [Obj.find_index]. destruct (p x) eqn:Hx.
  - intros [= <-] Hy. cbn. now rewrite Hy.
  - destruct (Obj.find_index p l) as [j |]; [| discriminate].
    intros [= <-] Hy. cbn [Obj.replace_at Obj.find_index]. rewrite Hx.
    now rewrite (IH j eq_refl Hy).
Qed.

End Arrays.

Section Objects.

Implicit Types (fields : list (string * jsval)).

Lemma field_set_field k v fields : field k (Obj.set_field k v fields) = v.
Proof.
  unfold field. induction fields as [| [k' v'] rest IH]; cbn [Obj.set_field assoc].
  - now rewrite String.eqb_refl.
  - destruct (String.eqb k k') eqn:Hk; cbn [assoc].
    + now rewrite String.eqb_refl.
    + now rewrite Hk.
Qed.

Lemma field_set_field_other k k' v fields :
  k <> k' -> field k' (Obj.set_field k v fields) = field k' fields.
Proof.
  intros Hne. unfold field.
  induction fields as [| [k0 v0] rest IH]; cbn [Obj.set_field assoc].
  - apply String.eqb_neq in Hne. rewrite String.eqb_sym in Hne. now rewrite Hne.
  - destruct (String.eqb k k0) eqn:Hk; cbn [assoc].
    + apply String.eqb_eq in Hk. subst k0.
      apply String.eqb_neq in Hne. rewrite String.eqb_sym in Hne. now rewrite Hne.
    + destruct (String.eqb k' k0); [reflexivity | exact IH].
Qed.

Lemma field_spread_if_other cond k k' v fields :
  k <> k' -> field k' (Obj.spread_if cond k v fields) = field k' fields.
Proof.
  intros Hne. unfold Obj.spread_if. destruct cond; [| reflexivity].
  now apply field_set_field_other.
Qed.

Lemma strict_eq_sym a b : strict_eq a b = strict_eq b a.
Proof.
  destruct a, b; cbn [strict_eq]; try reflexivity.
  - now destruct b, b0.
  - apply Z.eqb_sym.
  - apply String.eqb_sym.
Qed.

Lemma distinct_snoc items x :
  Obj.distinct (items ++ [x])%list =
  Obj.distinct items && negb (existsb (strict_eq x) items).
Proof.
  induction items as [| y items IH].
  - reflexivity.
  - cbn [app Obj.distinct existsb]. rewrite IH, existsb_app. cbn [existsb].
    rewrite orb_false_r, (strict_eq_sym x y).
    destruct (existsb (strict_eq y) items), (strict_eq y x),
      (Obj.distinct items), (existsb (strict_eq x) items); reflexivity.
Qed.

End Objects.

(** ** Teams *)

Section TeamsProperties.

Implicit Types (ts : Teams.teams) (team : list (string * jsval)).

Lemma has_id_field id team : Teams.has_id id team = true -> field "id" team = VStr id.
Proof. unfold Teams.has_id. apply strict_eq_string. Qed.

Lemma get_team_found id ts i team :
  Obj.find_index (Teams.has_id id) ts = Some i ->
  ts !! i = Some team ->
  Teams.get_team id ts = (Return (Teams.respond 200 (VObj team)), ts).
Proof.
  intros Hi Ht. destruct (find_index_lookup _ _ _ Hi) as (x & Hx & _ & Hfind).
  unfold Teams.get_team, bind, get, ret. rewrite Hfind.
  unfold Teams.teams in *. rewrite Ht in Hx. now injection Hx as ->.
Qed.

(** X21: a team created with a name can be fetched and deleted by the
    id it was given: [POST /] answers 201 and appends the team, with no
    members when the body names none; when no stored team had that id,
    [GET /:id] then answers 200 with that team, and [DELETE /:id] answers
    with it and leaves the store exactly as it was before the creation. *)
Theorem team_create_get_delete e fields ts :
  truthy (field "name" fields) = true ->
  Obj.find_index (Teams.has_id (Teams.uuid e)) ts = None ->
  exists team,
    Teams.create_team e (VObj fields) ts
    = (Return (Teams.respond 201
                 (VObj [ ("message", VStr "Team created successfully");
                         ("team", VObj team) ])),
       (ts ++ [team])%list) /\
    field "id" team = VStr (Teams.uuid e) /\
    field "name" team = field "name" fields /\
    (field "members" fields = VUndefined -> field "members" team = VArr []) /\
    Teams.get_team (Teams.uuid e) (ts ++ [team])%list
    = (Return (Teams.respond 200 (VObj team)), (ts ++ [team])%list) /\
    Teams.delete_team (Teams.uuid e) (ts ++ [team])%list
    = (Return (Teams.respond 200
                 (VObj [ ("message", VStr "Team deleted successfully");
                         ("team", VObj team) ])),
       ts).
Proof.
  intros Hname Hfresh.
  eexists. split.
  { unfold Teams.create_team, bind, lift, get, put, ret. cbn [prop].
    rewrite Hname. cbn [negb]. reflexivity. }
  set (team := [ ("id", VStr (Teams.uuid e)); _; _; _; _; _ ]).
  assert (Hid : Teams.has_id (Teams.uuid e) team = true).
  { unfold Teams.has_id. cbn. apply String.eqb_refl. }
  pose proof (find_index_fresh _ _ _ Hfresh Hid) as Hi.
  split; [reflexivity |]. split; [reflexivity |].
  split. { intros Hm. subst team. unfold field at 2. cbn [assoc String.eqb Ascii.eqb Bool.eqb default from_option id]. now rewrite Hm. }
  split.
  - apply (get_team_found _ _ _ _ Hi), lookup_last.
  - unfold Teams.delete_team, bind, get, put, ret. rewrite Hi, lookup_last.
    cbn [default from_option id]. now rewrite remove_at_last.
Qed.

(** X22: [PUT /:id] on a stored team changes nothing of it but
    [name], [description], [members] and [updatedAt]: the answer is 200,
    the updated team has the same [id] and every other property as
    before, it sits where the old one sat, no team is added or lost, and
    a [GET /:id] that follows answers with the updated team. *)
Theorem team_update_keeps_identity now_iso id fields ts i :
  Obj.find_index (Teams.has_id id) ts = Some i ->
  exists old updated,
    ts !! i = Some old /\
    Teams.update_team now_iso id (VObj fields) ts
    = (Return (Teams.respond 200
                 (VObj [ ("message", VStr "Team updated successfully");
                         ("team", VObj updated) ])),
       Obj.replace_at i updated ts) /\
    field "id" updated = VStr id /\
    field "updatedAt" updated = VStr now_iso /\
    (forall k, k <> "name" -> k <> "description" -> k <> "members" ->
               k <> "updatedAt" -> field k updated = field k old) /\
    length (Obj.replace_at i updated ts) = length ts /\
    (forall j, j <> i -> Obj.replace_at i updated ts !! j = ts !! j) /\
    Teams.get_team id (Obj.replace_at i updated ts)
    = (Return (Teams.respond 200 (VObj updated)), Obj.replace_at i updated ts).
Proof.
  intros Hi. destruct (find_index_lookup _ _ _ Hi) as (old & Hold & Hid & _).
  eexists old, _. split; [exact Hold |]. split.
  { unfold Teams.update_team, bind, lift, get, put, ret. rewrite Hi, Hold.
    cbn [prop from_option Datatypes.id]. reflexivity. }
  set (updated := Obj.set_field "updatedAt" _ _).
  assert (Hkeep : forall k, k <> "name" -> k <> "description" -> k <> "members" ->
                            k <> "updatedAt" -> field k updated = field k old).
  { intros k Hn Hd Hm Hu. subst updated.
    rewrite field_set_field_other by congruence.
    now rewrite !field_spread_if_other by congruence. }
  assert (Hsame : field "id" updated = VStr id).
  { rewrite Hkeep by discriminate. now apply has_id_field. }
  split; [exact Hsame |]. split; [apply field_set_field |].
  split; [exact Hkeep |]. split; [apply replace_at_length |].
  split; [intros j Hj; apply replace_at_other; congruence |].
  assert (Hid' : Teams.has_id id updated = true).
  { unfold Teams.has_id. rewrite Hsame. cbn. apply String.eqb_refl. }
  apply (get_team_found id _ i).
  - now apply find_index_replace.
  - now apply (replace_at_lookup _ _ _ old).
Qed.

Lemma existsb_none_find_index x items :
  existsb (strict_eq x) items = false ->
  Obj.find_index (fun item => strict_eq item x) items = None.
Proof.
  induction items as [| y items IH]; [reflexivity |].
  cbn [existsb Obj.find_index]. rewrite (strict_eq_sym y x).
  destruct (strict_eq x y); [discriminate |]. cbn [orb].
  intros Hrest. now rewrite (IH Hrest).
Qed.

Lemma add_member_array now_iso id fields ts i team items :
  Obj.find_index (Teams.has_id id) ts = Some i ->
  ts !! i = Some team ->
  field "members" team = VArr items ->
  truthy (field "userId" fields) = true ->
  Teams.add_member now_iso id (VObj fields) ts =
  if existsb (strict_eq (field "userId" fields)) items then
    (Return (Teams.respond 409
               (VObj [ ("error", VStr "User already in team");
                       ("message", VStr "User is already a member of this team") ])),
     ts)
  else
    let team' :=
      Obj.set_field "updatedAt" (VStr now_iso)
        (Obj.set_field "members" (VArr (items ++ [field "userId" fields])%list) team) in
    (Return (Teams.respond 200
               (VObj [ ("message", VStr "Member added successfully");
                       ("team", VObj team') ])),
     Obj.replace_at i team' ts).
Proof.
  intros Hi Ht Hm Hu. unfold Teams.teams in *.
  unfold Teams.add_member, bind, lift, get, put, ret. rewrite Hi, Ht.
  cbn [prop from_option Datatypes.id]. rewrite Hu, Hm. cbn [negb Obj.includes].
  destruct (existsb (strict_eq (field "userId" fields)) items); reflexivity.
Qed.

Lemma strict_eq_eq x y : strict_eq x y = true -> x = y.
Proof.
  destruct x, y; cbn [strict_eq]; try discriminate; try reflexivity.
  - intros Hb. now apply Bool.eqb_prop in Hb as ->.
  - intros Hn. now apply Z.eqb_eq in Hn as ->.
  - intros Hs. now apply String.eqb_eq in Hs as ->.
Qed.

Lemma strict_eq_primitive x : Obj.primitive x = true -> strict_eq x x = true.
Proof.
  destruct x; cbn [Obj.primitive strict_eq]; try discriminate; intros _.
  - reflexivity.
  - reflexivity.
  - apply Bool.eqb_reflx.
  - apply Z.eqb_refl.
  - apply String.eqb_refl.
Qed.

Lemma existsb_strict_eq_primitive x items :
  Obj.primitive x = true ->
  existsb (strict_eq x) items = false -> ~ In x (List.filter Obj.primitive items).
Proof.
  intros Hp Hex Hin. apply List.filter_In in Hin as [Hin _].
  assert (existsb (strict_eq x) items = true) as Hyes; [| congruence].
  apply existsb_exists. exists x. split; [exact Hin | now apply strict_eq_primitive].
Qed.

Lemma existsb_strict_eq_other x items :
  Obj.primitive x = false -> existsb (strict_eq x) items = false.
Proof.
  intros Hp. induction items as [| y items IH]; [reflexivity |].
  cbn [existsb]. rewrite IH.
  destruct x; try discriminate Hp; reflexivity.
Qed.

Lemma truthy_other x : Obj.primitive x = false -> truthy x = true.
Proof. destruct x; try discriminate; reflexivity. Qed.

Lemma primitives_snoc items x :
  List.filter Obj.primitive (items ++ [x])%list
  = if Obj.primitive x then (List.filter Obj.primitive items ++ [x])%list
    else List.filter Obj.primitive items.
Proof.
  rewrite List.filter_app. cbn [List.filter].
  destruct (Obj.primitive x); [reflexivity | apply app_nil_r].
Qed.

Lemma NoDup_snoc_In {A} (l : list A) x : NoDup l -> ~ In x l -> NoDup (l ++ [x])%list.
Proof.
  intros Hl Hx. apply NoDup_app. split; [exact Hl |]. split.
  - intros y Hy Hyx. apply list_elem_of_singleton in Hyx as ->.
    apply Hx, list_elem_of_In, Hy.
  - apply NoDup_singleton.
Qed.

(** X23: [POST /:id/members] tests [team.members.includes(userId)]
    (line 135) before it appends (line 142), and [includes] finds texts,
    numbers and booleans by what they hold but arrays and objects only by
    reference.  So on a team whose [members] array lists no text, number
    or boolean twice, whatever the body, the team is afterwards still at
    its place with the same [id], and its [members] array, the old one or
    the old one with one item more at its end, still lists no text, number
    or boolean twice.  A [userId] that is an array or an object is
    appended every time it is sent, also when an item of the same content
    is listed already. *)
Theorem add_member_lists_primitives_once now_iso id reqBody ts i team items :
  Obj.find_index (Teams.has_id id) ts = Some i ->
  ts !! i = Some team ->
  field "members" team = VArr items ->
  NoDup (List.filter Obj.primitive items) ->
  exists team' items',
    snd (Teams.add_member now_iso id reqBody ts) !! i = Some team' /\
    field "id" team' = field "id" team /\
    field "members" team' = VArr items' /\
    NoDup (List.filter Obj.primitive items') /\
    (items' = items \/
     exists x, items' = (items ++ [x])%list /\
               (Obj.primitive x = true -> ~ In x items)) /\
    (forall fields,
       reqBody = VObj fields ->
       Obj.primitive (field "userId" fields) = false ->
       items' = (items ++ [field "userId" fields])%list).
Proof.
  intros Hi Ht Hm Hd.
  assert (Hstay : forall r : completion Teams.response,
             (forall fields, reqBody = VObj fields ->
                             Obj.primitive (field "userId" fields) = false -> False) ->
             exists team' items',
               snd (r, ts) !! i = Some team' /\ field "id" team' = field "id" team /\
               field "members" team' = VArr items' /\
               NoDup (List.filter Obj.primitive items') /\
               (items' = items \/
                exists x, items' = (items ++ [x])%list /\
                          (Obj.primitive x = true -> ~ In x items)) /\
               (forall fields,
                  reqBody = VObj fields ->
                  Obj.primitive (field "userId" fields) = false ->
                  items' = (items ++ [field "userId" fields])%list)).
  { intros r Hno. exists team, items. cbn [snd].
    repeat (split; [assumption || reflexivity |]). split; [now left |].
    intros fields Hb Hp. destruct (Hno fields Hb Hp). }
  destruct reqBody as [| | b | n | s | its | fields];
    try (unfold Teams.add_member, bind, lift, get, put, ret; rewrite Hi;
         cbn [prop]; apply Hstay; intros fields Hb; discriminate Hb).
  destruct (truthy (field "userId" fields)) eqn:Hu.
  - rewrite (add_member_array _ _ _ _ _ _ _ Hi Ht Hm Hu).
    destruct (existsb (strict_eq (field "userId" fields)) items) eqn:Hin.
    + apply Hstay. intros fields' [= <-] Hp.
      rewrite (existsb_strict_eq_other _ items Hp) in Hin. discriminate Hin.
    + cbn zeta. cbn [snd]. eexists _, _.
      split; [apply (replace_at_lookup _ _ _ team), Ht |].
      split; [now rewrite !field_set_field_other by discriminate |].
      split; [rewrite field_set_field_other by discriminate; apply field_set_field |].
      split; [| split].
      * rewrite primitives_snoc.
        destruct (Obj.primitive (field "userId" fields)) eqn:Hp; [| exact Hd].
        apply NoDup_snoc_In; [exact Hd |].
        now apply existsb_strict_eq_primitive.
      * right. eexists. split; [reflexivity |].
        intros Hp Hx. apply (existsb_strict_eq_primitive _ items Hp Hin).
        apply List.filter_In. now split.
      * intros fields' [= <-] _. reflexivity.
  - unfold Teams.add_member, bind, lift, get, put, ret. rewrite Hi.
    cbn [prop]. rewrite Hu. cbn [negb]. apply Hstay.
    intros fields' [= <-] Hp. rewrite (truthy_other _ Hp) in Hu. discriminate Hu.
Qed.

End TeamsProperties.

Section TeamMembers.

Implicit Types (ts : Teams.teams) (team : list (string * jsval)).

Lemma replace_at_twice {A} i (x y : A) (l : list A) :
  Obj.replace_at i y (Obj.replace_at i x l) = Obj.replace_at i y l.
Proof.
  revert i. induction l as [| z l IH]; intros [| i]; cbn; try reflexivity.
  now rewrite IH.
Qed.

(** X24: adding a member and removing it again gives the team back:
    on a team whose [members] is an array that does not hold the text
    [u], [POST /:id/members] with [userId] [u] puts [u] at the end of the
    array, and [DELETE /:id/members/u] then answers 200 and leaves the
    team with the array, and every property but [updatedAt], as they
    were before the two calls. *)
Theorem member_add_then_remove iso1 iso2 id fields ts i team items u :
  Obj.find_index (Teams.has_id id) ts = Some i ->
  ts !! i = Some team ->
  field "members" team = VArr items ->
  field "userId" fields = VStr u ->
  u <> "" ->
  existsb (strict_eq (VStr u)) items = false ->
  exists team1 team2,
    snd (Teams.add_member iso1 id (VObj fields) ts) = Obj.replace_at i team1 ts /\
    field "members" team1 = VArr (items ++ [VStr u])%list /\
    Teams.remove_member iso2 id u (Obj.replace_at i team1 ts)
    = (Return (Teams.respond 200
                 (VObj [ ("message", VStr "Member removed successfully");
                         ("team", VObj team2) ])),
       Obj.replace_at i team2 ts) /\
    field "members" team2 = VArr items /\
    (forall k, k <> "updatedAt" -> field k team2 = field k team).
Proof.
  intros Hi Ht Hm Hu Hne Hnew. unfold Teams.teams in *.
  assert (Htruthy : truthy (field "userId" fields) = true).
  { rewrite Hu. cbn [truthy]. apply String.eqb_neq in Hne. now rewrite Hne. }
  rewrite (add_member_array iso1 id fields ts i team items Hi Ht Hm Htruthy).
  rewrite Hu, Hnew. cbn zeta. cbn [snd].
  set (team1 := Obj.set_field "updatedAt" (VStr iso1)
                  (Obj.set_field "members" (VArr (items ++ [VStr u])%list) team)).
  assert (Hm1 : field "members" team1 = VArr (items ++ [VStr u])%list).
  { subst team1. rewrite field_set_field_other by discriminate.
    apply field_set_field. }
  assert (Hid1 : Teams.has_id id team1 = true).
  { unfold Teams.has_id. subst team1.
    rewrite !field_set_field_other by discriminate.
    destruct (find_index_lookup _ _ _ Hi) as (x & Hx & Hp & _).
    rewrite Ht in Hx. injection Hx as <-. exact Hp. }
  eexists team1, _. split; [reflexivity |]. split; [exact Hm1 |].
  split; [| split].
  - unfold Teams.remove_member, bind, lift, get, put, ret.
    rewrite (find_index_replace _ _ _ _ Hi Hid1).
    rewrite (replace_at_lookup _ _ _ team Ht).
    cbn [from_option Datatypes.id]. rewrite Hm1. cbn [Obj.index_of].
    rewrite (find_index_fresh _ items (VStr u));
      [| apply existsb_none_find_index, Hnew
       | cbn [strict_eq]; apply String.eqb_refl].
    cbn [Obj.splice]. rewrite remove_at_last, replace_at_twice. reflexivity.
  - rewrite field_set_field_other by discriminate. apply field_set_field.
  - intros k Hk. rewrite field_set_field_other by congruence.
    destruct (String.eqb k "members") eqn:Hkm.
    + apply String.eqb_eq in Hkm. subst k. now rewrite field_set_field, Hm.
    + apply String.eqb_neq in Hkm.
      rewrite field_set_field_other by congruence. subst team1.
      rewrite field_set_field_other by congruence.
      now rewrite field_set_field_other by congruence.
Qed.

End TeamMembers.

(** ** Tasks *)

Section TasksProperties.

Implicit Types (s : Tasks.state) (args : list (string * jsval)).

Lemma count_published_publish trigger s ts' name payload :
  Tasks.count_published trigger
    (Tasks.mkState ts' (Tasks.published s ++ [(name, payload)])%list)
  = (Tasks.count_published trigger s
     + if String.eqb name trigger then 1 else 0)%nat.
Proof.
  unfold Tasks.count_published. cbn [Tasks.published].
  rewrite List.filter_app, List.length_app. cbn [List.filter fst].
  now destruct (String.eqb name trigger).
Qed.

(** One mutation keeps the balance between the tasks stored and the
    additions and deletions published. *)
Lemma resolve_balance m s :
  (length (Tasks.tasks (snd (Tasks.resolve m s)))
   + Tasks.count_published "TASK_DELETED" (snd (Tasks.resolve m s))
   + Tasks.count_published "TASK_ADDED" s
   = length (Tasks.tasks s)
     + Tasks.count_published "TASK_DELETED" s
     + Tasks.count_published "TASK_ADDED" (snd (Tasks.resolve m s)))%nat.
Proof.
  destruct m as [e args | now_iso args | args]; cbn [Tasks.resolve].
  - unfold Tasks.createTask, bind, get, ret, Tasks.set_tasks, Tasks.publish.
    cbn [snd Tasks.tasks Tasks.published].
    rewrite !count_published_publish. cbn [String.eqb Ascii.eqb Bool.eqb].
    rewrite List.length_app. cbn [length]. lia.
  - unfold Tasks.updateTask, bind, get, ret, throw, Tasks.set_tasks, Tasks.publish.
    destruct (Obj.find_index (Tasks.has_id (field "id" args)) (Tasks.tasks s))
      as [i |]; [| reflexivity].
    cbn [snd Tasks.tasks Tasks.published].
    rewrite !count_published_publish. cbn [String.eqb Ascii.eqb Bool.eqb].
    rewrite replace_at_length. lia.
  - unfold Tasks.deleteTask, bind, get, ret, Tasks.set_tasks, Tasks.publish.
    destruct (Obj.find_index (Tasks.has_id (field "id" args)) (Tasks.tasks s))
      as [i |] eqn:Hi; [| reflexivity].
    destruct (find_index_lookup _ _ _ Hi) as (x & Hx & _).
    cbn [snd Tasks.tasks Tasks.published].
    rewrite !count_published_publish. cbn [String.eqb Ascii.eqb Bool.eqb].
    pose proof (remove_at_length _ _ _ Hx). lia.
Qed.

(** X25: the published events account for the store: over any series
    of [createTask], [updateTask] and [deleteTask] calls, with whatever
    arguments and whether they succeed or not, the number of tasks grows
    by the number of [TASK_ADDED] events published in the series less the
    number of [TASK_DELETED] events. *)
Theorem task_events_account_for_tasks ms s :
  (length (Tasks.tasks (Tasks.run ms s))
   + Tasks.count_published "TASK_DELETED" (Tasks.run ms s)
   + Tasks.count_published "TASK_ADDED" s
   = length (Tasks.tasks s)
     + Tasks.count_published "TASK_DELETED" s
     + Tasks.count_published "TASK_ADDED" (Tasks.run ms s))%nat.
Proof.
  revert s. induction ms as [| m ms IH]; intros s; [reflexivity |].
  cbn [Tasks.run]. pose proof (IH (snd (Tasks.resolve m s))) as Hrest.
  pose proof (resolve_balance m s) as Hstep. lia.
Qed.

(** X26: a task created and then deleted by its id leaves the store
    as it was: [createTask] returns the new task, with status 'todo' and
    priority 'medium' when the arguments name none, [task(id)] finds it
    when no stored task had that id, and [deleteTask] with that id then
    returns [true]; the tasks are those from before, and the two events
    published are the addition of that task and the deletion of its id. *)
Theorem task_create_then_delete e args s :
  Obj.find_index (Tasks.has_id (VStr (Tasks.uuid e))) (Tasks.tasks s) = None ->
  exists task,
    Tasks.createTask e args s
    = (Return (VObj task),
       Tasks.mkState (Tasks.tasks s ++ [task])%list
         (Tasks.published s ++ [("TASK_ADDED", VObj [("taskAdded", VObj task)])])%list) /\
    field "id" task = VStr (Tasks.uuid e) /\
    (truthy (field "status" args) = false -> field "status" task = VStr "todo") /\
    (truthy (field "priority" args) = false -> field "priority" task = VStr "medium") /\
    Tasks.query_task [("id", VStr (Tasks.uuid e))]
      (snd (Tasks.createTask e args s)) = VObj task /\
    Tasks.deleteTask [("id", VStr (Tasks.uuid e))] (snd (Tasks.createTask e args s))
    = (Return (VBool true),
       Tasks.mkState (Tasks.tasks s)
         (Tasks.published s
          ++ [ ("TASK_ADDED", VObj [("taskAdded", VObj task)]);
               ("TASK_DELETED", VObj [("taskDeleted", VStr (Tasks.uuid e))]) ])%list).
Proof.
  intros Hfresh. eexists. split; [reflexivity |].
  set (task := [ ("id", VStr (Tasks.uuid e)); _; _; _; _; _; _; _; _; _ ]).
  assert (Hid : Tasks.has_id (VStr (Tasks.uuid e)) task = true).
  { unfold Tasks.has_id. cbn. apply String.eqb_refl. }
  pose proof (find_index_fresh _ _ _ Hfresh Hid) as Hi.
  split; [reflexivity |].
  split. { intros Hs. subst task. unfold field at 2. cbn. unfold Tasks.or_else. now rewrite Hs. }
  split. { intros Hp. subst task. unfold field at 2. cbn. unfold Tasks.or_else. now rewrite Hp. }
  split.
  - subst task.
    unfold Tasks.query_task, Tasks.createTask, bind, get, ret, Tasks.set_tasks,
      Tasks.publish. cbn [snd Tasks.tasks].
    replace (field "id" [("id", VStr (Tasks.uuid e))])
      with (VStr (Tasks.uuid e)) by reflexivity.
    destruct (find_index_lookup _ _ _ Hi) as (x & Hx & _ & ->).
    rewrite lookup_last in Hx. now injection Hx as <-.
  - subst task.
    unfold Tasks.deleteTask, Tasks.createTask, bind, get, ret, Tasks.set_tasks,
      Tasks.publish. cbn [snd Tasks.tasks Tasks.published].
    replace (field "id" [("id", VStr (Tasks.uuid e))])
      with (VStr (Tasks.uuid e)) by reflexivity.
    rewrite Hi. cbn [Tasks.tasks Tasks.published].
    now rewrite remove_at_last, <- app_assoc.
Qed.

(** X27: [updateTask] for an id that no task has throws "Task not
    found" and changes and publishes nothing; for the id of a stored task
    it returns the updated task, which has the same [id], [createdBy] and
    [createdAt] as before and the new [updatedAt], puts it where the old
    one was without adding or losing a task, and publishes exactly that
    task under [TASK_UPDATED]. *)
Theorem task_update_keeps_identity now_iso args s :
  (Obj.find_index (Tasks.has_id (field "id" args)) (Tasks.tasks s) = None ->
   Tasks.updateTask now_iso args s = (Throw (Error "Task not found"), s)) /\
  (forall i,
     Obj.find_index (Tasks.has_id (field "id" args)) (Tasks.tasks s) = Some i ->
     exists old updated,
       Tasks.tasks s !! i = Some old /\
       Tasks.updateTask now_iso args s
       = (Return (VObj updated),
          Tasks.mkState (Obj.replace_at i updated (Tasks.tasks s))
            (Tasks.published s
             ++ [("TASK_UPDATED", VObj [("taskUpdated", VObj updated)])])%list) /\
       field "id" updated = field "id" old /\
       field "createdBy" updated = field "createdBy" old /\
       field "createdAt" updated = field "createdAt" old /\
       field "updatedAt" updated = VStr now_iso /\
       length (Obj.replace_at i updated (Tasks.tasks s)) = length (Tasks.tasks s)).
Proof.
  split.
  - intros Hnone. unfold Tasks.updateTask, bind, get, throw. now rewrite Hnone.
  - intros i Hi. destruct (find_index_lookup _ _ _ Hi) as (old & Hold & _).
    eexists old, _. split; [exact Hold |]. split.
    { unfold Tasks.updateTask, bind, get, ret, Tasks.set_tasks, Tasks.publish.
      rewrite Hi, Hold. cbn [from_option Datatypes.id]. reflexivity. }
    repeat split.
    + rewrite field_set_field_other by discriminate.
      now rewrite !field_spread_if_other by discriminate.
    + rewrite field_set_field_other by discriminate.
      now rewrite !field_spread_if_other by discriminate.
    + rewrite field_set_field_other by discriminate.
      now rewrite !field_spread_if_other by discriminate.
    + apply field_set_field.
    + apply replace_at_length.
Qed.

End TasksProperties.

(** * The properties above on concrete runs *)

Lemma verifyJWT_forwards_the_rest_witness :
  header (annotate Toy.alice_claims (Toy.bearing "alice.jwt")) "authorization"
  = VStr "Bearer alice.jwt" /\
  path (annotate Toy.alice_claims (Toy.bearing "alice.jwt")) = "/api/users".
Proof.
  destruct (verifyJWT_forwards_the_rest (H := Toy.issuer_backend) Toy.soon
              (Toy.bearing "alice.jwt") Toy.warm
              (annotate Toy.alice_claims (Toy.bearing "alice.jwt")) Toy.warm)
    as (_ & Hpath & Hauth & _).
  - vm_compute. reflexivity.
  - split; [exact Hauth | exact Hpath].
Defined.

Lemma protected_route_needs_bearer_witness :
  App.app (H := Toy.issuer_backend) (App.mkConfig VUndefined VUndefined)
    "2023-11-14T22:15:00.000Z" Toy.soon Toy.anonymous Toy.cold
  = (Return (App.Replied 401 (error_body "Unauthorized" "No token provided")),
     Toy.cold).
Proof.
  apply (protected_route_needs_bearer (H := Toy.issuer_backend)
           (App.mkConfig VUndefined VUndefined) "2023-11-14T22:15:00.000Z"
           Toy.soon Toy.anonymous Toy.cold App.TaskService).
  - reflexivity.
  - left. reflexivity.
Defined.

Lemma unverifiable_token_is_invalid_witness :
  verifyJWT (H := Toy.forger_backend) Toy.later (Toy.bearing "forged.jwt") Toy.warm
  = (Return (Responded 401 (error_body "Unauthorized" "Invalid token")),
     mkWorld (mkCache (VStr "k1") (Some 1800000000000)) 2).
Proof.
  apply (unverifiable_token_is_invalid (H := Toy.forger_backend) Toy.later
           (Toy.bearing "forged.jwt") Toy.warm "Bearer forged.jwt" "k1"
           (mkWorld (mkCache (VStr "k1") (Some 1800000000000)) 2)
           Toy.forged_token).
  - reflexivity.
  - reflexivity.
  - reflexivity.
  - discriminate.
  - reflexivity.
  - right. reflexivity.
Defined.

Lemma fetches_overlap_until_stored_witness :
  exists w1 w2,
    begin_all [1700000000000; 1700000000005; 1700000000009] Toy.cold
    = ([Awaiting 1700000000000; Awaiting 1700000000005; Awaiting 1700000000009], w1) /\
    net_calls w1 = 3%nat /\
    fetch_settle 1700000000000 (AxiosResponse (VObj [("publicKey", VStr "k1")])) w1
    = (Return (VStr "k1"), w2) /\
    w2 = mkWorld (mkCache (VStr "k1") (Some 1700000000000)) (net_calls w1) /\
    begin_all [1700000000100; 1700003599999] w2
    = ([Served (VStr "k1"); Served (VStr "k1")], w2).
Proof.
  apply (fetches_overlap_until_stored 1700000000000
           (VObj [("publicKey", VStr "k1")]) (VStr "k1")
           [1700000000005; 1700000000009] [1700000000100; 1700003599999] Toy.cold).
  - reflexivity.
  - reflexivity.
  - discriminate.
  - repeat (constructor; [reflexivity |]). constructor.
  - repeat (constructor; [reflexivity |]). constructor.
Defined.

Lemma answer_without_key_is_cached_witness :
  fetchPublicKey 1700000100000 (AxiosResponse (VObj [])) Toy.cold
  = (Return VUndefined, mkWorld (mkCache VUndefined (Some 1700000100000)) 1) /\
  (exists status body,
     verifyJWT (H := Toy.issuer_backend) Toy.keyless (Toy.bearing "alice.jwt") Toy.cold
     = (Return (Responded status body),
        mkWorld (mkCache VUndefined (Some 1700000100000)) 1) /\
     (status = 401 \/ status = 500)) /\
  (forall t, cache_valid t (mkCache VUndefined (Some 1700000100000)) = false) /\
  (forall t net n,
     net_calls (snd (fetchPublicKey t net
                       (mkWorld (mkCache VUndefined (Some 1700000100000)) n)))
     = S n).
Proof.
  apply (answer_without_key_is_cached (H := Toy.issuer_backend) Toy.keyless
           (Toy.bearing "alice.jwt") Toy.cold "Bearer alice.jwt" (VObj []) VUndefined);
    reflexivity.
Defined.

Lemma unverified_traffic_is_auth_only_witness :
  (App.UserService = App.UserService /\
   mkRequest "POST" "/api/auth/Login/" ∅ = mkRequest "POST" "/api/auth/Login/" ∅ /\
   Toy.cold = Toy.cold /\
   exists mount,
     In mount ["/api/auth/login"; "/api/auth/register"; "/api/auth/public-key"] /\
     App.mounted mount "/api/auth/Login/" = true) \/
  (verifyJWT (H := Toy.issuer_backend) Toy.soon
     (mkRequest "POST" "/api/auth/Login/" ∅) Toy.cold
   = (Return (Next (mkRequest "POST" "/api/auth/Login/" ∅)), Toy.cold) /\
   exists mount,
     In (mount, App.Protected, App.UserService) App.routes /\
     App.mounted mount "/api/auth/Login/" = true).
Proof.
  apply (unverified_traffic_is_auth_only (H := Toy.issuer_backend)
           (App.mkFront VUndefined false)
           (App.mkConfig VUndefined VUndefined) "2023-11-14T22:15:00.000Z"
           Toy.soon (mkRequest "POST" "/api/auth/Login/" ∅) Toy.cold
           App.UserService (mkRequest "POST" "/api/auth/Login/" ∅) Toy.cold).
  reflexivity.
Defined.

Lemma classification_is_unambiguous_witness :
  App.classify App.routes "/API/Users/42" = Some (App.Protected, App.UserService).
Proof.
  apply (classification_is_unambiguous "/api/users" App.Protected App.UserService
           "/API/Users/42").
  - cbn. tauto.
  - reflexivity.
Defined.

Lemma startup_failure_is_retried_witness :
  App.startup 1700000000000 (AxiosError "connect ECONNREFUSED") Toy.cold
  = (Return tt, mkWorld initial_cache 1) /\
  App.app (H := Toy.issuer_backend) (App.mkConfig VUndefined VUndefined)
    "2023-11-14T22:15:00.000Z" Toy.soon (Toy.bearing "alice.jwt")
    (mkWorld initial_cache 1)
  = (Return (App.Replied 500
               (error_body "Internal server error" "Token verification failed")),
     mkWorld initial_cache 2).
Proof.
  apply (startup_failure_is_retried (H := Toy.issuer_backend)
           (App.mkConfig VUndefined VUndefined) "2023-11-14T22:15:00.000Z"
           1700000000000 (AxiosError "connect ECONNREFUSED") Toy.soon
           (Toy.bearing "alice.jwt") "Bearer alice.jwt" App.UserService 0);
    reflexivity.
Defined.

Lemma startup_key_serves_requests_witness :
  fetch_begin 1700000000000 (mkWorld initial_cache 0)
  = (Awaiting 1700000000000, mkWorld initial_cache 1) /\
  (forall t, fetch_begin t (mkWorld initial_cache 1)
             = (Awaiting t, mkWorld initial_cache 2)) /\
  fetch_settle 1700000000000 (AxiosResponse (VObj [("publicKey", VStr "k1")]))
    (mkWorld initial_cache 1)
  = (Return (VStr "k1"), Toy.warm) /\
  verifyJWT (H := Toy.issuer_backend) Toy.soon (Toy.bearing "alice.jwt") Toy.warm
  = (Return (Next (annotate Toy.alice_claims (Toy.bearing "alice.jwt"))), Toy.warm).
Proof.
  apply (startup_key_serves_requests (H := Toy.issuer_backend)
           1700000000000 (VObj [("publicKey", VStr "k1")]) "k1" Toy.soon
           (Toy.bearing "alice.jwt") "Bearer alice.jwt" Toy.alice_token).
  - reflexivity.
  - discriminate.
  - discriminate.
  - vm_compute. reflexivity.
  - reflexivity.
  - reflexivity.
  - reflexivity.
  - reflexivity.
  - reflexivity.
  - reflexivity.
  - reflexivity.
Defined.

Lemma overlapping_registrations_share_email_witness :
  exists r1 r2 user1 user2,
    UserService.register_finish (H := Toy.issuer_backend) "k1" Toy.minting
      (VStr "Alice") (VStr "a@example.com") (VStr "secret") (VStr "admin") []
    = (Return r1, ([] ++ [user1])%list) /\
    UserService.emails_distinct ([] ++ [user1])%list = true /\
    UserService.register_begin (VObj Toy.alice_registration) ([] ++ [user1])%list
    = UserService.Answered UserService.email_taken /\
    UserService.register_finish (H := Toy.issuer_backend) "k1" Toy.minting
      (VStr "Alice") (VStr "a@example.com") (VStr "secret") (VStr "admin")
      ([] ++ [user1])%list
    = (Return r2, (([] ++ [user1]) ++ [user2])%list) /\
    field "email" user1 = VStr "a@example.com" /\
    field "email" user2 = VStr "a@example.com" /\
    UserService.emails_distinct (([] ++ [user1]) ++ [user2])%list = false.
Proof.
  apply (overlapping_registrations_share_email (H := Toy.issuer_backend) "k1"
           Toy.minting Toy.minting (VObj Toy.alice_registration)
           (VObj Toy.alice_registration) [] "a@example.com"
           (VStr "Alice") (VStr "secret") (VStr "admin")
           (VStr "Alice") (VStr "secret") (VStr "admin")
           "$2a$10$secret" "$2a$10$secret");
    reflexivity.
Defined.

Lemma register_stores_before_signing_witness :
  exists user msg,
    UserService.register (H := Toy.broken_signer) "k1" Toy.minting
      (VObj Toy.alice_registration) []
    = (Return (UserService.mkResponse 500
                 (VObj [ ("error", VStr "Registration failed");
                         ("message", VStr msg) ])),
       [user]) /\
    field "email" user = VStr "a@example.com" /\
    UserService.register (H := Toy.broken_signer) "k1" Toy.minting
      (VObj Toy.alice_registration) [user]
    = (Return UserService.email_taken, [user]).
Proof.
  apply (register_stores_before_signing (H := Toy.broken_signer) "k1" Toy.minting
           Toy.minting Toy.alice_registration [] "secret").
  - reflexivity.
  - reflexivity.
  - discriminate.
  - exists "a@example.com". split; [reflexivity | discriminate].
  - reflexivity.
  - reflexivity.
Defined.

Lemma login_after_register_witness :
  exists user,
    snd (UserService.register (H := Toy.issuer_backend) "k1" Toy.minting
           (VObj Toy.alice_registration) []) = [user] /\
    UserService.login (H := Toy.issuer_backend) "k1" Toy.minting
      (VObj Toy.alice_login) [user]
    = (Return (UserService.mkResponse 200
                 (VObj [ ("message", VStr "Login successful");
                         ("user", VObj (UserService.without_password user));
                         ("token", VStr "alice.jwt") ])),
       [user]) /\
    field "role" (UserService.without_password user) = VStr "admin".
Proof.
  apply (login_after_register (H := Toy.issuer_backend) "k1" Toy.minting Toy.minting
           Toy.alice_registration Toy.alice_login [] "a@example.com" "secret"
           "signed-by:k1").
  - reflexivity.
  - reflexivity.
  - discriminate.
  - reflexivity.
  - discriminate.
  - reflexivity.
  - reflexivity.
  - reflexivity.
  - reflexivity.
  - reflexivity.
Defined.

Lemma login_failures_look_alike_witness :
  UserService.login (H := Toy.issuer_backend) "k1" Toy.minting
    (VObj Toy.alice_login) []
  = (Return UserService.authentication_failed, []).
Proof.
  apply (login_failures_look_alike (H := Toy.issuer_backend) "k1" Toy.minting
           Toy.alice_login []); reflexivity.
Defined.

Lemma registered_user_reaches_me_witness :
  exists user token,
    UserService.register (H := Toy.issuer_backend) "k1" Toy.minting
      (VObj Toy.alice_registration) []
    = (Return (UserService.mkResponse 201
                 (VObj [ ("message", VStr "User registered successfully");
                         ("user", VObj (UserService.without_password user));
                         ("token", VStr token) ])),
       [user]) /\
    (header (Toy.bearing "alice.jwt") "authorization" = VStr ("Bearer " +:+ token) ->
     exists req',
       verifyJWT (H := Toy.issuer_backend) Toy.soon (Toy.bearing "alice.jwt") Toy.warm
       = (Return (Next req'), Toy.warm) /\
       UserService.me (headers req') [user]
       = (Return (UserService.mkResponse 200
                    (VObj (UserService.without_password user))),
          [user])).
Proof.
  apply (registered_user_reaches_me (H := Toy.issuer_backend) "k1" Toy.minting
           Toy.alice_registration [] "a@example.com" "secret" "signed-by:k1" "k1"
           Toy.soon (Toy.bearing "alice.jwt") Toy.warm Toy.warm).
  - reflexivity.
  - reflexivity.
  - discriminate.
  - reflexivity.
  - discriminate.
  - reflexivity.
  - reflexivity.
  - discriminate.
  - reflexivity.
  - reflexivity.
  - discriminate.
  - reflexivity.
  - vm_compute. reflexivity.
  - reflexivity.
Defined.

Lemma key_endpoint_feeds_cache_witness :
  fetchPublicKey 1700000000000
    (Wire.axios_sees (UserService.public_key (Return "k1"))) Toy.cold
  = (Return (VStr "k1"), Toy.warm) /\
  fetchPublicKey 1700000000000
    (Wire.axios_sees (UserService.public_key (Throw (Error "ENOENT")))) Toy.cold
  = (Throw fetch_failure, mkWorld initial_cache 1).
Proof.
  destruct (key_endpoint_feeds_cache 1700000000000 Toy.cold) as [Hread Hfail];
    [reflexivity |].
  split; [apply Hread | apply Hfail].
Defined.

Lemma team_create_get_delete_witness :
  exists team,
    Teams.create_team Toy.new_team (VObj [("name", VStr "Operations")]) Toy.teams_loaded
    = (Return (Teams.respond 201
                 (VObj [ ("message", VStr "Team created successfully");
                         ("team", VObj team) ])),
       (Toy.teams_loaded ++ [team])%list) /\
    field "id" team = VStr "7f3c" /\
    field "name" team = VStr "Operations" /\
    (VUndefined = VUndefined -> field "members" team = VArr []) /\
    Teams.get_team "7f3c" (Toy.teams_loaded ++ [team])%list
    = (Return (Teams.respond 200 (VObj team)), (Toy.teams_loaded ++ [team])%list) /\
    Teams.delete_team "7f3c" (Toy.teams_loaded ++ [team])%list
    = (Return (Teams.respond 200
                 (VObj [ ("message", VStr "Team deleted successfully");
                         ("team", VObj team) ])),
       Toy.teams_loaded).
Proof.
  apply (team_create_get_delete Toy.new_team [("name", VStr "Operations")]
           Toy.teams_loaded); reflexivity.
Defined.

Lemma team_update_keeps_identity_witness :
  exists old updated,
    Toy.teams_loaded !! 0%nat = Some old /\
    Teams.update_team "2023-11-14T23:00:00.000Z" "1"
      (VObj [("name", VStr "Platform Team"); ("id", VStr "2")]) Toy.teams_loaded
    = (Return (Teams.respond 200
                 (VObj [ ("message", VStr "Team updated successfully");
                         ("team", VObj updated) ])),
       Obj.replace_at 0 updated Toy.teams_loaded) /\
    field "id" updated = VStr "1".
Proof.
  destruct (team_update_keeps_identity "2023-11-14T23:00:00.000Z" "1"
              [("name", VStr "Platform Team"); ("id", VStr "2")] Toy.teams_loaded 0)
    as (old & updated & Hold & Hrun & Hid & _); [reflexivity |].
  exists old, updated. auto.
Defined.

Lemma add_member_lists_primitives_once_witness :
  exists team' items',
    snd (Teams.add_member "2023-11-14T23:00:00.000Z" "1"
           (VObj [("userId", VArr [VStr "2"])])
           (snd (Teams.add_member "2023-11-14T22:59:00.000Z" "1"
                   (VObj [("userId", VArr [VStr "2"])]) Toy.teams_loaded)))
      !! 0%nat = Some team' /\
    field "members" team' = VArr items' /\
    NoDup (List.filter Obj.primitive items') /\
    items' = [VStr "1"; VStr "2"; VArr [VStr "2"]; VArr [VStr "2"]].
Proof.
  destruct (add_member_lists_primitives_once "2023-11-14T23:00:00.000Z" "1"
              (VObj [("userId", VArr [VStr "2"])])
              (snd (Teams.add_member "2023-11-14T22:59:00.000Z" "1"
                      (VObj [("userId", VArr [VStr "2"])]) Toy.teams_loaded))
              0
              [ ("id", VStr "1");
                ("name", VStr "Development Team");
                ("description", VStr "Core development team");
                ("members", VArr [VStr "1"; VStr "2"; VArr [VStr "2"]]);
                ("createdAt", VStr "2023-11-14T22:00:00.000Z");
                ("updatedAt", VStr "2023-11-14T22:59:00.000Z") ]
              [VStr "1"; VStr "2"; VArr [VStr "2"]])
    as (team' & items' & Hat & _ & Hm & Hd & _ & Hrepeat).
  - reflexivity.
  - reflexivity.
  - reflexivity.
  - cbn [List.filter Obj.primitive].
    apply NoDup_cons_2; [| apply NoDup_singleton].
    intros Hin. apply list_elem_of_singleton in Hin. discriminate Hin.
  - exists team', items'. repeat split; try assumption.
    apply (Hrepeat [("userId", VArr [VStr "2"])]); reflexivity.
Defined.

Lemma member_add_then_remove_witness :
  exists team1 team2,
    snd (Teams.add_member "2023-11-14T23:00:00.000Z" "1"
           (VObj [("userId", VStr "3")]) Toy.teams_loaded)
    = Obj.replace_at 0 team1 Toy.teams_loaded /\
    field "members" team1 = VArr [VStr "1"; VStr "2"; VStr "3"] /\
    Teams.remove_member "2023-11-14T23:05:00.000Z" "1" "3"
      (Obj.replace_at 0 team1 Toy.teams_loaded)
    = (Return (Teams.respond 200
                 (VObj [ ("message", VStr "Member removed successfully");
                         ("team", VObj team2) ])),
       Obj.replace_at 0 team2 Toy.teams_loaded) /\
    field "members" team2 = VArr [VStr "1"; VStr "2"].
Proof.
  destruct (member_add_then_remove "2023-11-14T23:00:00.000Z"
              "2023-11-14T23:05:00.000Z" "1" [("userId", VStr "3")]
              Toy.teams_loaded 0
              [ ("id", VStr "1");
                ("name", VStr "Development Team");
                ("description", VStr "Core development team");
                ("members", VArr [VStr "1"; VStr "2"]);
                ("createdAt", VStr "2023-11-14T22:00:00.000Z");
                ("updatedAt", VStr "2023-11-14T22:00:00.001Z") ]
              [VStr "1"; VStr "2"] "3")
    as (team1 & team2 & Hadd & Hm1 & Hrem & Hm2 & _);
    try reflexivity; try discriminate.
  exists team1, team2. auto.
Defined.

Lemma task_create_then_delete_witness :
  exists task,
    Tasks.createTask Toy.new_task
      [("title", VStr "Write tests"); ("createdBy", VStr "1")] Toy.tasks_loaded
    = (Return (VObj task),
       Tasks.mkState (Tasks.tasks Toy.tasks_loaded ++ [task])%list
         [("TASK_ADDED", VObj [("taskAdded", VObj task)])]) /\
    field "status" task = VStr "todo" /\
    Tasks.deleteTask [("id", VStr "9a1b")]
      (snd (Tasks.createTask Toy.new_task
              [("title", VStr "Write tests"); ("createdBy", VStr "1")]
              Toy.tasks_loaded))
    = (Return (VBool true),
       Tasks.mkState (Tasks.tasks Toy.tasks_loaded)
         [ ("TASK_ADDED", VObj [("taskAdded", VObj task)]);
           ("TASK_DELETED", VObj [("taskDeleted", VStr "9a1b")]) ]).
Proof.
  destruct (task_create_then_delete Toy.new_task
              [("title", VStr "Write tests"); ("createdBy", VStr "1")]
              Toy.tasks_loaded)
    as (task & Hcreate & _ & Hstatus & _ & _ & Hdelete); [reflexivity |].
  exists task. split; [exact Hcreate |]. split; [now apply Hstatus | exact Hdelete].
Defined.
